(** * visualize_cpu.py: a shallow embedding and its checked properties

    The script [scripts/visualize_cpu.py] loads CPU-utilisation samples from
    CSV files, computes order statistics, draws an ASCII chart and prints
    a comparison.

    - Samples are Python floats, that is IEEE-754 binary64 numbers; they
      are embedded as [spec_float] values with the binary64 parameters, so
      that rounding, signed zeros, infinities and NaN behave as they do in
      the interpreter.
    - Python ints are [Z]; exceptions are the [Raise] results of [result].
    - Dictionaries are association lists in insertion order.
    - [float(s)] on a string and [format(x, spec)] on a float are built-ins
      of the interpreter and parameters of the embedding; [csv.DictReader]
      and the file system are modelled as far as the loader uses them.
    - The first part defines the program, function by function under the
      names of the source, and the notions the statements use; the second
      part proves the properties C1 to C10 and further properties of the
      same functions. *)

From Stdlib Require Import ZArith List Bool String Ascii Lia Permutation Sorted.
From Stdlib Require Import DecimalString.
From Stdlib Require Import Floats.
Import ListNotations.

Set Warnings "-inexact-float".
Local Open Scope Z_scope.

(** ** Python exceptions and results *)

Inductive exn : Type :=
  | FileNotFoundError
  | ValueError
  | KeyError
  | TypeError
  | IndexError
  | ZeroDivisionError
  | OverflowError.

Inductive result (A : Type) : Type :=
  | Ok (a : A)
  | Raise (e : exn).
Arguments Ok {A} a.
Arguments Raise {A} e.

Definition bind {A B} (r : result A) (k : A -> result B) : result B :=
  match r with
  | Ok a => k a
  | Raise e => Raise e
  end.

Notation "x <- r ;; k" := (bind r (fun x => k))
  (at level 61, r at next level, right associativity).

(** ** Binary64 arithmetic as Python performs it *)

Module Float64.

Definition float64 := spec_float.

Definition prec : Z := 53.
Definition emax : Z := 1024.

Definition add : float64 -> float64 -> float64 := SFadd prec emax.
Definition sub : float64 -> float64 -> float64 := SFsub prec emax.
Definition mul : float64 -> float64 -> float64 := SFmul prec emax.
Definition div : float64 -> float64 -> float64 := SFdiv prec emax.
Definition ltb : float64 -> float64 -> bool := SFltb.
Definition eqb : float64 -> float64 -> bool := SFeqb.
Definition leb : float64 -> float64 -> bool := SFleb.

(** [float(k)] for a Python int [k]: the nearest binary64 number (ties to
    even).  The ints converted in this program are list lengths, grid
    dimensions and small literals, all far below [2^1024]. *)
Definition of_int (k : Z) : float64 := binary_normalize prec emax k 0 false.

(** A float literal of the source text. *)
Definition lit (x : PrimFloat.float) : float64 := Prim2SF x.

Definition zero : float64 := S754_zero false.

Definition is_nan (x : float64) : bool :=
  match x with S754_nan => true | _ => false end.

Definition is_finite (x : float64) : bool :=
  match x with S754_zero _ | S754_finite _ _ _ => true | _ => false end.

(** [int(x)]: truncation towards zero; NaN and the infinities raise. *)
Definition to_int (x : float64) : result Z :=
  match x with
  | S754_nan => Raise ValueError
  | S754_infinity _ => Raise OverflowError
  | S754_zero _ => Ok 0
  | S754_finite s m e =>
      let a := Z.shiftl (Zpos m) e in
      Ok (if s then - a else a)
  end.

(** [x / y] on floats: a zero divisor raises. *)
Definition truediv (x y : float64) : result float64 :=
  if eqb y zero then Raise ZeroDivisionError else Ok (div x y).

(** [a / b] on ints.  CPython rounds the exact quotient once; for
    operands below [2^53] in magnitude both conversions are exact and the
    float quotient is that same rounding. *)
Definition int_truediv (a b : Z) : result float64 :=
  if b =? 0 then Raise ZeroDivisionError else Ok (div (of_int a) (of_int b)).

End Float64.
Import Float64.

(** The mantissa kept when [M] loses its [s] low digits, rounded to
    nearest with ties to even. *)
Definition rne (M s : Z) : Z :=
  round_nearest_even (M / 2 ^ s)
    (loc_of_shr_record
       (Build_shr_record (M / 2 ^ s) (Z.odd (M / 2 ^ (s - 1)))
                         (negb (M mod 2 ^ (s - 1) =? 0)))).

(** ** Built-ins on lists *)

(** [l[i]], negative indices counted from the end. *)
Definition py_index {A} (l : list A) (i : Z) : result A :=
  let n := Z.of_nat (List.length l) in
  let j := if i <? 0 then i + n else i in
  if (0 <=? j) && (j <? n) then
    match nth_error l (Z.to_nat j) with
    | Some a => Ok a
    | None => Raise IndexError
    end
  else Raise IndexError.

(** [sorted(l, key=...)] compares with [<] only and is stable.  The model
    inserts each element before the first one that is not smaller than it
    in the already sorted tail, which is the unique stable arrangement
    whenever [<] is a strict weak order on the keys, that is, when no key
    is NaN.  With a NaN among the keys no arrangement is ascending and what
    CPython returns depends on the runs its list sort finds and on its
    binary insertion; it is not this arrangement in general
    ([sorted([3, 2, nan, 1])] is [[1, 2, 3, nan]], here [[2, 3, nan, 1]]).
    The properties stated of the order or of the values of a sorted list
    therefore assume keys without NaN (the auxiliary lemmas on positions
    and lengths are facts of this arrangement).  The two statements that
    sort a NaN do so on [[2, nan, 1]], which CPython, finding one run in
    which no element is smaller than the one before it, returns as it is,
    as this model does. *)
Section Sorted.
Context {A : Type} (lt : A -> A -> bool).

Fixpoint insert (x : A) (l : list A) : list A :=
  match l with
  | [] => [x]
  | y :: t => if lt y x then y :: insert x t else x :: y :: t
  end.

Fixpoint py_sorted (l : list A) : list A :=
  match l with
  | [] => []
  | x :: t => insert x (py_sorted t)
  end.
End Sorted.

(** [sum(data)]: starts from the int [0] and adds from left to right. *)
Definition py_sum (data : list float64) : float64 :=
  fold_left add data (of_int 0).

(** CPython from 3.12 on carries a compensation term through the same
    left-to-right pass (Neumaier's variant) and adds it at the end when it
    is finite and not zero.  The embedding of the script uses [py_sum], the
    documented left-to-right sum; this variant is kept to compare the two
    where a result depends on rounding. *)
Definition py_sum_compensated (data : list float64) : float64 :=
  let step (sc : float64 * float64) (x : float64) :=
    let '(s, c) := sc in
    let t := add s x in
    (t, add c (if SFleb (SFabs x) (SFabs s)
               then add (sub s t) x
               else add (sub x t) s)) in
  let '(s, c) := fold_left step data (of_int 0, of_int 0) in
  if negb (eqb c zero) && is_finite c then add s c else s.

(** [min(l)] and [max(l)] keep the first extremal element. *)
Definition py_min (l : list float64) : result float64 :=
  match l with
  | [] => Raise ValueError
  | x :: t => Ok (fold_left (fun m y => if ltb y m then y else m) t x)
  end.

Definition py_max (l : list float64) : result float64 :=
  match l with
  | [] => Raise ValueError
  | x :: t => Ok (fold_left (fun m y => if ltb m y then y else m) t x)
  end.

(** ** Dictionaries and strings *)

(** A Python dict with string keys, in insertion order. *)
Definition dict (V : Type) : Type := list (string * V).

Fixpoint dict_get {V} (d : dict V) (k : string) : result V :=
  match d with
  | [] => Raise KeyError
  | (k', v) :: t => if String.eqb k' k then Ok v else dict_get t k
  end.

Fixpoint dict_set {V} (d : dict V) (k : string) (v : V) : dict V :=
  match d with
  | [] => [(k, v)]
  | (k', v') :: t =>
      if String.eqb k' k then (k', v) :: t else (k', v') :: dict_set t k v
  end.

Definition nl : string := String "010" EmptyString.

(** [s * k] *)
Definition str_repeat (s : string) (k : Z) : string :=
  String.concat "" (repeat s (Z.to_nat k)).

(** [str(k)] for an int. *)
Definition str_of_Z (k : Z) : string := NilZero.string_of_int (Z.to_int k).

(** [len(s)]: code points of the UTF-8 text, i.e. bytes that do not
    continue a sequence. *)
Fixpoint py_len (s : string) : nat :=
  match s with
  | EmptyString => 0
  | String c t =>
      let b := N_of_ascii c in
      ((if (N.land b 192 =? 128)%N then 0 else 1) + py_len t)%nat
  end.

(** [f"{s:<w}"] *)
Definition ljust (w : nat) (s : string) : string :=
  (s ++ String.concat "" (repeat " " (w - py_len s)))%string.

Definition enumerate {A} (l : list A) : list (nat * A) :=
  combine (seq 0 (List.length l)) l.

(** ** calculate_stats *)

Definition c_0_95 : float64 := Eval vm_compute in lit 0.95%float.
Definition c_0_99 : float64 := Eval vm_compute in lit 0.99%float.

(** [int(n * c)] for an int [n] and a float constant [c]. *)
Definition pct_index (n : Z) (c : float64) : result Z :=
  to_int (mul (of_int n) c).

Definition calculate_stats (data : list float64) : result (dict float64) :=
  match data with
  | [] => Ok []
  | _ =>
      let sorted_data := py_sorted ltb data in
      let n := Z.of_nat (List.length sorted_data) in
      v_min <- py_index sorted_data 0 ;;
      v_max <- py_index sorted_data (-1) ;;
      v_mean <- truediv (py_sum data) (of_int n) ;;
      v_median <- py_index sorted_data (n / 2) ;;
      i95 <- pct_index n c_0_95 ;;
      v_p95 <- py_index sorted_data i95 ;;
      v_p99 <- (if 1 <? n
                then i99 <- pct_index n c_0_99 ;; py_index sorted_data i99
                else py_index sorted_data (-1)) ;;
      Ok [("min", v_min); ("max", v_max); ("mean", v_mean);
          ("median", v_median); ("p95", v_p95); ("p99", v_p99)]%string
  end.

(** ** generate_ascii_chart: the parts that do not format numbers *)

Definition symbols : list string := ["█"; "▓"; "░"]%string.

(** [symbols[i % len(symbols)]] *)
Definition symbol_at (i : nat) : string := nth (i mod 3) symbols ""%string.

Definition grid : Type := list (list string).

Definition blank : string := " "%string.

(** [[[' ' for _ in range(width)] for _ in range(height)]] *)
Definition blank_grid (width height : Z) : grid :=
  repeat (repeat blank (Z.to_nat width)) (Z.to_nat height).

Fixpoint list_set {A} (l : list A) (i : nat) (a : A) : list A :=
  match l, i with
  | [], _ => []
  | _ :: t, O => a :: t
  | x :: t, S j => x :: list_set t j a
  end.

(** [grid[y][x]]; the plotting loop only reads and writes inside the grid. *)
Definition grid_get (g : grid) (y x : Z) : string :=
  nth (Z.to_nat x) (nth (Z.to_nat y) g []) ""%string.

Definition grid_set (g : grid) (y x : Z) (s : string) : grid :=
  list_set g (Z.to_nat y) (list_set (nth (Z.to_nat y) g []) (Z.to_nat x) s).

(** [value_range = global_max - global_min], replaced by [1] when it
    compares equal to [0]. *)
Definition chart_range (global_min global_max : float64) : float64 :=
  let value_range := sub global_max global_min in
  if eqb value_range (of_int 0) then of_int 1 else value_range.

(** [step = len(data) / width if len(data) > width else 1] *)
Definition chart_step (len width : Z) : result float64 :=
  if width <? len then int_truediv len width else Ok (of_int 1).

(** [idx = int(x * step) if step > 1 else x] *)
Definition sample_index (step : float64) (x : Z) : result Z :=
  if ltb (of_int 1) step then to_int (mul (of_int x) step) else Ok x.

(** The row of a sample: normalise against the range, flip, scale. *)
Definition plot_row (height : Z) (global_min value_range d : float64) : result Z :=
  normalized_value <- truediv (sub d global_min) value_range ;;
  to_int (sub (of_int (height - 1)) (mul normalized_value (of_int (height - 1)))).

(** The guarded write of the inner loop. *)
Definition plot_cell (height : Z) (symbol : string) (g : grid) (y x : Z) : grid :=
  if (0 <=? y) && (y <? height) then
    if String.eqb (grid_get g y x) blank then grid_set g y x symbol else g
  else g.

(** The inner loop over the columns [xs]; [break] returns the grid as it is. *)
Fixpoint plot_columns (height : Z) (global_min value_range : float64)
    (data : list float64) (step : float64) (symbol : string)
    (xs : list Z) (g : grid) : result grid :=
  match xs with
  | [] => Ok g
  | x :: rest =>
      idx <- sample_index step x ;;
      if Z.of_nat (List.length data) <=? idx then Ok g
      else
        d <- py_index data idx ;;
        y <- plot_row height global_min value_range d ;;
        plot_columns height global_min value_range data step symbol rest
          (plot_cell height symbol g y x)
  end.

(** [range(k)] *)
Definition py_range (k : Z) : list Z := map Z.of_nat (seq 0 (Z.to_nat k)).

Definition plot_dataset (width height : Z) (global_min value_range : float64)
    (dataset_idx : nat) (data : list float64) (g : grid) : result grid :=
  let symbol := symbol_at dataset_idx in
  let len := Z.of_nat (List.length data) in
  step <- chart_step len width ;;
  plot_columns height global_min value_range data step symbol
    (py_range (Z.min width len)) g.

(** The outer loop, over [enumerate(datasets)]. *)
Fixpoint plot_datasets (width height : Z) (global_min value_range : float64)
    (ds : list (nat * list float64)) (g : grid) : result grid :=
  match ds with
  | [] => Ok g
  | (dataset_idx, data) :: rest =>
      g' <- plot_dataset width height global_min value_range dataset_idx data g ;;
      plot_datasets width height global_min value_range rest g'
  end.

(** The cells a dataset is plotted on, as (row, column) pairs in column
    order: the inner loop with the grid left out.  A dataset maps a sample
    to a cell when the cell is in this list. *)
Fixpoint column_cells (height : Z) (global_min value_range : float64)
    (data : list float64) (step : float64) (xs : list Z) : result (list (Z * Z)) :=
  match xs with
  | [] => Ok []
  | x :: rest =>
      idx <- sample_index step x ;;
      if Z.of_nat (List.length data) <=? idx then Ok []
      else
        d <- py_index data idx ;;
        y <- plot_row height global_min value_range d ;;
        tl <- column_cells height global_min value_range data step rest ;;
        Ok ((y, x) :: tl)
  end.

Definition dataset_cells (width height : Z) (global_min value_range : float64)
    (data : list float64) : result (list (Z * Z)) :=
  let len := Z.of_nat (List.length data) in
  step <- chart_step len width ;;
  column_cells height global_min value_range data step (py_range (Z.min width len)).

(** The guarded writes of one dataset, cell after cell. *)
Definition paint (height : Z) (symbol : string) (cells : list (Z * Z)) (g : grid) : grid :=
  fold_left (fun g '(y, x) => plot_cell height symbol g y x) cells g.

Definition at_cell (y' x' : Z) (c : Z * Z) : bool :=
  let '(y, x) := c in (y =? y') && (x =? x').

(** [cells] lists, dataset by dataset, the cells each one is plotted on. *)
Definition cells_of (width height : Z) (global_min value_range : float64)
    (ds : list (nat * list float64)) (cells : list (list (Z * Z)))
    : Prop :=
  Forall2 (fun kd c => dataset_cells width height global_min value_range (snd kd) = Ok c)
          ds cells.

(** A grid of [h] rows of [w] cells. *)
Definition grid_wf (w h : nat) (g : grid) : Prop :=
  List.length g = h /\ forall r, In r g -> List.length r = w.

(** The value printed left of grid row [i]. *)
Definition y_axis_value (height : Z) (global_min global_max value_range : float64)
    (i : Z) : result float64 :=
  if i =? 0 then Ok global_max
  else if i =? height - 1 then Ok global_min
  else
    q <- int_truediv i (height - 1) ;;
    Ok (sub global_max (mul q value_range)).

(** [max(len(dataset) for dataset in datasets)] *)
Definition max_len_of (datasets : list (list float64)) : result Z :=
  match datasets with
  | [] => Raise ValueError
  | d :: t =>
      Ok (fold_left (fun m d' => Z.max m (Z.of_nat (List.length d'))) t
            (Z.of_nat (List.length d)))
  end.

(** ** CSV input *)

(** A value of a row dictionary: a field of the file, or the [None] that
    [csv.DictReader] stores for a column the record is too short to fill. *)
Inductive cell : Type :=
  | Str (s : string)
  | PyNone.

(** [dict(zip(fieldnames, row))] *)
Fixpoint dict_of_zip (keys vals : list string) (d : dict cell) : dict cell :=
  match keys, vals with
  | k :: ks, v :: vs => dict_of_zip ks vs (dict_set d k (Str v))
  | _, _ => d
  end.

(** One row as [csv.DictReader] builds it.  Surplus fields go under the
    key [None], which no string key reads, and are left out. *)
Definition DictReader_row (fieldnames row : list string) : dict cell :=
  fold_left (fun d key => dict_set d key PyNone)
    (skipn (List.length row) fieldnames)
    (dict_of_zip fieldnames row []).

(** A file is the list of its records, each the list of its fields; the
    first record names the columns and empty records are passed over. *)
Definition csv_file : Type := list (list string).

Definition DictReader (f : csv_file) : list (dict cell) :=
  match f with
  | [] => []
  | fieldnames :: records =>
      map (DictReader_row fieldnames)
        (filter (fun r => match r with [] => false | _ => true end) records)
  end.

(** The files, by path, as far as the loader is followed here: [None] is a
    path at which [open] raises [FileNotFoundError], [Some f] a file that
    opens and whose reader delivers the records [f].  The other failures of
    [open] (a directory, no permission) and the failures of the reader
    itself (a field beyond the size limit of the [csv] module, bytes that
    do not decode) are not represented: they leave [load_cpu_data] as they
    are raised, outside its [try], and no statement below is about them. *)
Definition filesystem : Type := string -> option csv_file.

Record main_state : Type := mkState {
  st_datasets : list (list float64);
  st_labels : list string;
  st_stats_list : list (dict float64);
  st_printed : list string
}.

Definition print (st : main_state) (line : string) : main_state :=
  mkState (st_datasets st) (st_labels st) (st_stats_list st) (st_printed st ++ [line]).

Definition tests : list (string * string) :=
  [("results/production_load/resources_20251115_200213.csv",
    "Baseline (1000 RPS, 256MB, 8 shards)");
   ("results/production_load/resources_20251115_200510.csv",
    "High Buffer (1000 RPS, 512MB, 8 shards)");
   ("results/production_load/resources_20251115_220423.csv",
    "Peak Load (1500 RPS, 512MB, 16 shards)")]%string.

Section Program.

(** The built-ins [float(s)] on a string ([None]: [ValueError]) and
    [format(x, spec)] on a float are taken as given. *)
Variable float_of_string : string -> option float64.
Variable format_float : string -> float64 -> string.

(** [float(v)] *)
Definition py_float (v : cell) : result float64 :=
  match v with
  | Str s =>
      match float_of_string s with
      | Some x => Ok x
      | None => Raise ValueError
      end
  | PyNone => Raise TypeError
  end.

(** ** load_cpu_data *)

Fixpoint load_rows (rows : list (dict cell)) (cpu_data : list float64)
    : result (list float64) :=
  match rows with
  | [] => Ok cpu_data
  | row :: rest =>
      match (v <- dict_get row "cpu_percent" ;; py_float v) with
      | Ok x => load_rows rest (cpu_data ++ [x])
      | Raise ValueError | Raise KeyError => load_rows rest cpu_data
      | Raise e => Raise e
      end
  end.

Definition load_cpu_data (fs : filesystem) (filename : string)
    : result (list float64) :=
  match fs filename with
  | None => Raise FileNotFoundError
  | Some f => load_rows (DictReader f) []
  end.

(** The sample a row contributes: its [cpu_percent] field, when the row has
    one and it parses. *)
Definition cpu_value (row : dict cell) : option float64 :=
  match dict_get row "cpu_percent" with
  | Ok (Str s) => float_of_string s
  | _ => None
  end.

Definition cpu_values (rows : list (dict cell)) : list float64 :=
  flat_map (fun row => match cpu_value row with Some x => [x] | None => [] end) rows.

(** ** generate_ascii_chart *)

Definition legend (labels : list string) : list string :=
  map (fun '(i, label) => (symbol_at i ++ " = " ++ label)%string) (enumerate labels).

Fixpoint grid_lines (height : Z) (global_min global_max value_range : float64)
    (rows : list (nat * list string)) : result (list string) :=
  match rows with
  | [] => Ok []
  | (i, row) :: rest =>
      y_val <- y_axis_value height global_min global_max value_range (Z.of_nat i) ;;
      tl <- grid_lines height global_min global_max value_range rest ;;
      Ok ((format_float "6.1f" y_val ++ "% |" ++ String.concat "" row ++ "|")%string
          :: tl)
  end.

Definition generate_ascii_chart (datasets : list (list float64))
    (labels : list string) (width height : Z) : result string :=
  match datasets with
  | [] => Ok "No data"%string
  | _ =>
      let all_data := List.concat datasets in
      global_min <- py_min all_data ;;
      global_max <- py_max all_data ;;
      let value_range := chart_range global_min global_max in
      let head :=
        ([str_repeat "=" width;
          ("CPU Utilization Comparison - "
             ++ str_of_Z (Z.of_nat (List.length datasets)) ++ " Test Variants")%string;
          str_repeat "=" width;
          ""%string]
         ++ legend labels
         ++ [""%string;
             ("Y-axis: CPU % (" ++ format_float ".1f" global_min ++ "% - "
                ++ format_float ".1f" global_max ++ "%)")%string;
             "X-axis: Time (samples over 2 minutes)"%string;
             str_repeat "=" width;
             ""%string])%list in
      max_len <- max_len_of datasets ;;
      g <- plot_datasets width height global_min value_range
             (enumerate datasets) (blank_grid width height) ;;
      body <- grid_lines height global_min global_max value_range (enumerate g) ;;
      let foot :=
        [(str_repeat " " 8 ++ str_repeat "-" width)%string;
         (str_repeat " " 8 ++ "0" ++ str_repeat " " (width - 20)
            ++ str_of_Z max_len ++ "s")%string;
         ""%string] in
      Ok (String.concat nl (head ++ body ++ foot))
  end.

(** ** generate_statistics_table *)

Fixpoint table_rows (rows : list (string * dict float64)) : result (list string) :=
  match rows with
  | [] => Ok []
  | (label, stats) :: rest =>
      v_min <- dict_get stats "min" ;;
      v_mean <- dict_get stats "mean" ;;
      v_median <- dict_get stats "median" ;;
      v_p95 <- dict_get stats "p95" ;;
      v_p99 <- dict_get stats "p99" ;;
      v_max <- dict_get stats "max" ;;
      tl <- table_rows rest ;;
      Ok ((ljust 25 label ++ " "
           ++ format_float "<10.2f" v_min ++ " "
           ++ format_float "<10.2f" v_mean ++ " "
           ++ format_float "<10.2f" v_median ++ " "
           ++ format_float "<10.2f" v_p95 ++ " "
           ++ format_float "<10.2f" v_p99 ++ " "
           ++ format_float "<10.2f" v_max)%string :: tl)
  end.

Definition generate_statistics_table (stats_list : list (dict float64))
    (labels : list string) : result string :=
  rows <- table_rows (combine labels stats_list) ;;
  Ok (String.concat nl
        ([""%string; str_repeat "=" 90; "CPU UTILIZATION STATISTICS"%string;
          str_repeat "=" 90; ""%string;
          (ljust 25 "Scenario" ++ " " ++ ljust 10 "Min %" ++ " "
             ++ ljust 10 "Mean %" ++ " " ++ ljust 10 "Median %" ++ " "
             ++ ljust 10 "P95 %" ++ " " ++ ljust 10 "P99 %" ++ " "
             ++ ljust 10 "Max %")%string;
          str_repeat "-" 90]
         ++ rows ++ [str_repeat "=" 90; ""%string])%list).

(** ** generate_comparison_insights *)

(** [sorted(l, key=...)]: the keys are computed first, in order, then the
    elements are arranged by them. *)
Fixpoint with_keys {A} (key : A -> result float64) (l : list A)
    : result (list (float64 * A)) :=
  match l with
  | [] => Ok []
  | a :: t =>
      k <- key a ;;
      kt <- with_keys key t ;;
      Ok ((k, a) :: kt)
  end.

Definition sorted_by {A} (key : A -> result float64) (l : list A) : result (list A) :=
  keyed <- with_keys key l ;;
  Ok (map snd (py_sorted (fun p q => ltb (fst p) (fst q)) keyed)).

Definition entry : Type := (string * dict float64)%type.

(** One line naming an extremum: [f"{tag}{e[0]} ({e[1][field]:.1f}%)"]. *)
Definition extremum_line (tag field : string) (e : entry) : result string :=
  v <- dict_get (snd e) field ;;
  Ok (tag ++ fst e ++ " (" ++ format_float ".1f" v ++ "%)")%string.

(** [headroom = 400 - stats['mean']] *)
Definition headroom (stats : dict float64) : result float64 :=
  v_mean <- dict_get stats "mean" ;;
  Ok (sub (of_int 400) v_mean).

Fixpoint headroom_lines (rows : list entry) : result (list string) :=
  match rows with
  | [] => Ok []
  | (label, stats) :: rest =>
      h <- headroom stats ;;
      tl <- headroom_lines rest ;;
      Ok (("  " ++ label ++ ": " ++ format_float ".1f" h ++ "% headroom remaining")%string
          :: tl)
  end.

Definition insight_lines (stats_list : list (dict float64)) (labels : list string)
    : result (list string) :=
  by_mean <- sorted_by (fun x : entry => dict_get (snd x) "mean") (combine labels stats_list) ;;
  by_peak <- sorted_by (fun x : entry => dict_get (snd x) "max") (combine labels stats_list) ;;
  lo_mean <- py_index by_mean 0 ;;
  l1 <- extremum_line "🟢 LOWEST AVG CPU:  " "mean" lo_mean ;;
  hi_mean <- py_index by_mean (-1) ;;
  l2 <- extremum_line "🔴 HIGHEST AVG CPU: " "mean" hi_mean ;;
  lo_peak <- py_index by_peak 0 ;;
  l3 <- extremum_line "🟢 LOWEST PEAK CPU:  " "max" lo_peak ;;
  hi_peak <- py_index by_peak (-1) ;;
  l4 <- extremum_line "🔴 HIGHEST PEAK CPU: " "max" hi_peak ;;
  eff <- headroom_lines (combine labels stats_list) ;;
  Ok ([str_repeat "=" 90; "KEY INSIGHTS"%string; str_repeat "=" 90; ""%string;
       l1; l2; ""%string; l3; l4; ""%string; "CPU EFFICIENCY:"%string]
      ++ eff ++ [""%string; str_repeat "=" 90])%list.

Definition mean_of (e : entry) : result float64 := dict_get (snd e) "mean".
Definition peak_of (e : entry) : result float64 := dict_get (snd e) "max".

(** The line of the efficiency list for one entry. *)
Definition headroom_line (e : entry) (line : string) : Prop :=
  exists m, mean_of e = Ok m /\
    headroom (snd e) = Ok (sub (of_int 400) m) /\
    line = ("  " ++ fst e ++ ": " ++ format_float ".1f" (sub (of_int 400) m)
              ++ "% headroom remaining")%string.

(** [e] is the first entry, in input order, whose key is the least. *)
Definition earliest_least (key : entry -> result float64) (entries : list entry)
    (e : entry) : Prop :=
  exists i k, nth_error entries i = Some e /\ key e = Ok k /\
    (forall e' k', In e' entries -> key e' = Ok k' -> leb k k' = true) /\
    (forall j e' k', (j < i)%nat -> nth_error entries j = Some e' ->
                     key e' = Ok k' -> ltb k k' = true).

(** [e] is the last entry, in input order, whose key is the greatest. *)
Definition latest_greatest (key : entry -> result float64) (entries : list entry)
    (e : entry) : Prop :=
  exists i k, nth_error entries i = Some e /\ key e = Ok k /\
    (forall e' k', In e' entries -> key e' = Ok k' -> leb k' k = true) /\
    (forall j e' k', (i < j)%nat -> nth_error entries j = Some e' ->
                     key e' = Ok k' -> ltb k' k = true).

Definition generate_comparison_insights (stats_list : list (dict float64))
    (labels : list string) : result string :=
  lines <- insight_lines stats_list labels ;;
  Ok (String.concat nl lines).

(** ** main *)

(** The body of the loop for one entry of [tests]: the new state, and the
    exception that leaves the loop, if any. *)
Definition main_entry (fs : filesystem) (st : main_state)
    (filename label : string) : main_state * option exn :=
  match load_cpu_data fs filename with
  | Ok [] => (print st ("✗ No data in: " ++ label)%string, None)
  | Ok data =>
      let st1 := mkState (st_datasets st ++ [data]) (st_labels st ++ [label])
                         (st_stats_list st) (st_printed st) in
      match calculate_stats data with
      | Ok stats =>
          (print (mkState (st_datasets st1) (st_labels st1) (st_stats_list st1 ++ [stats])
                          (st_printed st1))
                 ("✓ Loaded " ++ str_of_Z (Z.of_nat (List.length data))
                    ++ " samples from: " ++ label)%string, None)
      | Raise FileNotFoundError => (print st1 ("✗ File not found: " ++ filename)%string, None)
      | Raise e => (st1, Some e)
      end
  | Raise FileNotFoundError => (print st ("✗ File not found: " ++ filename)%string, None)
  | Raise e => (st, Some e)
  end.

Fixpoint main_loop (fs : filesystem) (entries : list (string * string))
    (st : main_state) : main_state * option exn :=
  match entries with
  | [] => (st, None)
  | (filename, label) :: rest =>
      match main_entry fs st filename label with
      | (st', None) => main_loop fs rest st'
      | (st', Some e) => (st', Some e)
      end
  end.

(** [main]: what was printed, and the exit status or the exception that
    ended the run. *)
Definition main_with (fs : filesystem) (entries : list (string * string))
    : list string * result Z :=
  let st0 := mkState [] [] [] [("Loading CPU data from test runs..." ++ nl)%string] in
  match main_loop fs entries st0 with
  | (st, Some e) => (st_printed st, Raise e)
  | (st, None) =>
      match st_datasets st with
      | [] => (st_printed st ++ [(nl ++ "Error: No data loaded!")%string], Ok 1)
      | _ =>
          let out1 := st_printed st
            ++ [(nl ++ str_of_Z (Z.of_nat (List.length (st_datasets st)))
                   ++ " test variants loaded successfully!" ++ nl)%string] in
          match generate_ascii_chart (st_datasets st) (st_labels st) 80 20 with
          | Raise e => (out1, Raise e)
          | Ok chart =>
              match generate_statistics_table (st_stats_list st) (st_labels st) with
              | Raise e => (out1 ++ [chart], Raise e)
              | Ok table =>
                  match generate_comparison_insights (st_stats_list st) (st_labels st) with
                  | Raise e => (out1 ++ [chart; table], Raise e)
                  | Ok insights => (out1 ++ [chart; table; insights], Ok 0)
                  end
              end
          end
      end
  end.

Definition main (fs : filesystem) : list string * result Z := main_with fs tests.

End Program.

(** ** Notions of the further statements *)

(** The samples found in column [j] of the records: field [j] of each
    record that reaches it, when it parses. *)
Definition column_values (float_of_string : string -> option float64) (j : nat)
    (records : list (list string)) : list float64 :=
  flat_map (fun r => match nth_error r j with
                     | Some s => match float_of_string s with
                                 | Some x => [x]
                                 | None => []
                                 end
                     | None => []
                     end) records.

(** The keys [calculate_stats] fills. *)
Definition stat_keys : list string :=
  ["min"; "max"; "mean"; "median"; "p95"; "p99"]%string.

Definition has_keys (keys : list string) (stats : dict float64) : Prop :=
  forall k, In k keys -> exists v, dict_get stats k = Ok v.

(** What the loop of [main] keeps true of its three lists: one label per
    dataset, no dataset empty, and the statistics of each dataset at the
    same position. *)
Definition main_inv (st : main_state) : Prop :=
  List.length (st_labels st) = List.length (st_datasets st) /\
  Forall2 (fun data stats => data <> [] /\ calculate_stats data = Ok stats)
    (st_datasets st) (st_stats_list st).

(** The state [main] enters its loop with. *)
Definition main_start : main_state :=
  mkState [] [] [] [("Loading CPU data from test runs..." ++ nl)%string].

(** The entries of [tests] that contribute a dataset, with their samples:
    those whose file loads to a list that is not empty. *)
Definition loaded (float_of_string : string -> option float64) (fs : filesystem)
    (entries : list (string * string)) : list (string * list float64) :=
  flat_map (fun e => match load_cpu_data float_of_string fs (fst e) with
                     | Ok (x :: t) => [(snd e, x :: t)]
                     | _ => []
                     end) entries.

(** The notice [main] prints for an entry that contributes no dataset. *)
Definition skip_notice (fs : filesystem) (e : string * string) : string :=
  match fs (fst e) with
  | None => ("✗ File not found: " ++ fst e)%string
  | Some _ => ("✗ No data in: " ++ snd e)%string
  end.

(** * Properties *)

(** ** Order facts on binary64 *)

Module Float64Facts.

Lemma compare_cont_Eq (p q : positive) : Pos.compare_cont Eq p q = (p ?= q)%positive.
Proof. reflexivity. Qed.

Ltac cmp_cases :=
  repeat (rewrite ?compare_cont_Eq in *; cbv beta iota in *;
    match goal with
    | |- context [Z.compare ?a ?b] => destruct (Z.compare_spec a b); subst
    | |- context [Pos.compare ?a ?b] => destruct (Pos.compare_spec a b); subst
    end).

Ltac by_cases := simpl; try congruence; auto; cmp_cases; try congruence; auto; lia.

Lemma ltb_irrefl (x : float64) : ltb x x = false.
Proof.
  unfold ltb, SFltb.
  destruct x as [[]|[]| |[] m e]; by_cases.
Qed.

Lemma ltb_asym (x y : float64) : ltb x y = true -> ltb y x = false.
Proof.
  unfold ltb, SFltb.
  destruct x as [[]|[]| |[] m1 e1], y as [[]|[]| |[] m2 e2]; by_cases.
Qed.

(** [x >= y] and [y >= z] give [x >= z] when [y] is a number. *)
Lemma ltb_negtrans (x y z : float64) :
  is_nan y = false -> ltb x y = false -> ltb y z = false -> ltb x z = false.
Proof.
  unfold ltb, SFltb.
  destruct x as [[]|[]| |[] m1 e1], y as [[]|[]| |[] m2 e2], z as [[]|[]| |[] m3 e3];
    by_cases.
Qed.

Lemma ltb_trans (x y z : float64) :
  ltb x y = true -> ltb y z = true -> ltb x z = true.
Proof.
  unfold ltb, SFltb.
  destruct x as [[]|[]| |[] m1 e1], y as [[]|[]| |[] m2 e2], z as [[]|[]| |[] m3 e3];
    by_cases.
Qed.

(** On numbers [<] is total up to [==]. *)
Lemma ltb_total (x y : float64) :
  is_nan x = false -> is_nan y = false ->
  ltb x y = true \/ eqb x y = true \/ ltb y x = true.
Proof.
  unfold ltb, eqb, SFltb, SFeqb.
  destruct x as [[]|[]| |[] m1 e1], y as [[]|[]| |[] m2 e2]; by_cases.
Qed.

(** On numbers [a <= b] is the failure of [b < a]. *)
Lemma leb_not_ltb (a b : float64) :
  is_nan a = false -> is_nan b = false -> ltb b a = false -> leb a b = true.
Proof.
  unfold ltb, leb, SFltb, SFleb.
  destruct a as [[]|[]| |[] m1 e1], b as [[]|[]| |[] m2 e2]; by_cases.
Qed.

(** Between two bounds that compare equal there is only their value. *)
Lemma eqb_squeeze (x lo hi : float64) :
  is_nan x = false ->
  ltb x lo = false -> ltb hi x = false -> eqb hi lo = true -> eqb x lo = true.
Proof.
  unfold ltb, eqb, SFltb, SFeqb.
  destruct x as [[]|[]| |[] m1 e1], lo as [[]|[]| |[] m2 e2], hi as [[]|[]| |[] m3 e3];
    by_cases.
Qed.

End Float64Facts.

(** ** The stable sort *)

Lemma forallb_false_ex {A} (f : A -> bool) (l : list A) :
  forallb f l = false -> exists y, In y l /\ f y = false.
Proof.
  induction l as [|x t IH]; simpl; [ discriminate | ].
  destruct (f x) eqn:E; simpl; intros H.
  - destruct (IH H) as (y & Hy & Hf). eauto.
  - eauto.
Qed.

Section SortedFacts.
Context {A : Type} (lt : A -> A -> bool).
(** [num] singles out the elements on which [lt] is a strict weak order
    (for floats: everything but NaN). *)
Variable num : A -> Prop.
Hypothesis lt_asym : forall x y, lt x y = true -> lt y x = false.
Hypothesis lt_negtrans :
  forall x y z, num y -> lt x y = false -> lt y z = false -> lt x z = false.

Lemma lt_irrefl x : lt x x = false.
Proof. destruct (lt x x) eqn:E; [ apply lt_asym in E as E' | ]; congruence. Qed.

Lemma insert_perm x l : Permutation (insert lt x l) (x :: l).
Proof.
  induction l as [|y t IH]; simpl; [ reflexivity | ].
  destruct (lt y x); [ | reflexivity ].
  rewrite IH. apply perm_swap.
Qed.

Lemma py_sorted_perm l : Permutation (py_sorted lt l) l.
Proof.
  induction l as [|x t IH]; simpl; [ reflexivity | ].
  rewrite insert_perm. now constructor.
Qed.

Lemma py_sorted_length l : List.length (py_sorted lt l) = List.length l.
Proof. apply Permutation_length, py_sorted_perm. Qed.

Lemma py_sorted_In x l : In x (py_sorted lt l) <-> In x l.
Proof.
  split; apply Permutation_in;
    [ apply py_sorted_perm | apply Permutation_sym, py_sorted_perm ].
Qed.

Lemma insert_sorted x l :
  Forall num l ->
  StronglySorted (fun a b => lt b a = false) l ->
  StronglySorted (fun a b => lt b a = false) (insert lt x l).
Proof.
  induction l as [|y t IH]; simpl; intros Hnum Hs.
  - repeat constructor.
  - inversion Hs as [|? ? Hst Hall]; subst.
    inversion Hnum as [|? ? Hy Hnt]; subst.
    destruct (lt y x) eqn:E.
    + constructor; [ now apply IH | ].
      apply Forall_forall. intros z Hz.
      apply (Permutation_in _ (insert_perm x t)) in Hz.
      destruct Hz as [<- | Hz]; [ now apply lt_asym | ].
      rewrite Forall_forall in Hall. now apply Hall.
    + constructor; [ assumption | ].
      constructor; [ assumption | ].
      apply Forall_forall. intros z Hz.
      rewrite Forall_forall in Hall.
      apply lt_negtrans with y; auto.
Qed.

(** On numbers the result is ascending: no element is smaller than one
    placed before it. *)
Lemma py_sorted_ascending l :
  Forall num l -> StronglySorted (fun a b => lt b a = false) (py_sorted lt l).
Proof.
  induction l as [|x t IH]; simpl; intros Hnum.
  - constructor.
  - inversion Hnum; subst. apply insert_sorted; auto.
    apply Forall_forall. intros z Hz. apply -> py_sorted_In in Hz.
    rewrite Forall_forall in H2. now apply H2.
Qed.

Lemma ascending_nth l i j a b :
  StronglySorted (fun a b => lt b a = false) l ->
  (i <= j)%nat -> nth_error l i = Some a -> nth_error l j = Some b ->
  lt b a = false.
Proof.
  intros Hs. revert i j. induction Hs as [|x t Hst IH Hall]; intros i j Hij Hi Hj.
  - destruct i; discriminate.
  - destruct i as [|i], j as [|j]; simpl in *.
    + injection Hi as <-. injection Hj as <-. apply lt_irrefl.
    + injection Hi as <-. rewrite Forall_forall in Hall.
      apply Hall. eapply nth_error_In; eauto.
    + lia.
    + apply (IH i j); auto. lia.
Qed.

(** The head of the sorted list is the earliest smallest element. *)
Lemma py_sorted_head l h s :
  Forall num l ->
  py_sorted lt l = h :: s ->
  exists i, nth_error l i = Some h /\
    (forall y, In y l -> lt y h = false) /\
    (forall j y, (j < i)%nat -> nth_error l j = Some y -> lt h y = true).
Proof.
  revert h s. induction l as [|x t IH]; intros h s Hnum Hsort; [ discriminate | ].
  inversion Hnum as [|? ? Hx Hnt]; subst. simpl in Hsort.
  destruct (py_sorted lt t) as [|h' s'] eqn:Et.
  - simpl in Hsort. injection Hsort as <- <-.
    assert (t = []) as ->.
    { apply Permutation_nil. rewrite <- Et. apply py_sorted_perm. }
    exists 0%nat. repeat split.
    + intros y [<- | []]. apply lt_irrefl.
    + intros; lia.
  - destruct (IH h' s' Hnt eq_refl) as (i & Hi & Hmin & Hearly).
    assert (Hh' : num h').
    { rewrite Forall_forall in Hnt. apply Hnt. eapply nth_error_In; eauto. }
    simpl in Hsort. destruct (lt h' x) eqn:E; injection Hsort as <- <-.
    + exists (S i). repeat split; auto.
      * intros y [<- | Hy]; [ now apply lt_asym | now apply Hmin ].
      * intros [|j] y Hj Hy; simpl in Hy.
        -- now injection Hy as <-.
        -- apply (Hearly j); auto. lia.
    + exists 0%nat. repeat split.
      * intros y [<- | Hy]; [ apply lt_irrefl | ].
        apply lt_negtrans with h'; auto.
      * intros; lia.
Qed.

Lemma insert_not_nil x l : insert lt x l <> [].
Proof. destruct l as [|y t]; simpl; [ | destruct (lt y x) ]; discriminate. Qed.

Lemma last_insert x l d :
  last (insert lt x l) d =
  if forallb (fun y => lt y x) l then x else last l d.
Proof.
  induction l as [|y t IH]; simpl; [ reflexivity | ].
  destruct (lt y x) eqn:E; simpl.
  - destruct (insert lt x t) as [|z u] eqn:Ei; [ now apply insert_not_nil in Ei | ].
    rewrite IH. destruct (forallb _ t) eqn:Ef; [ reflexivity | ].
    destruct t; [ discriminate | reflexivity ].
  - reflexivity.
Qed.

(** The last element of the sorted list is the latest largest element. *)
Lemma py_sorted_last l d g :
  Forall num l -> l <> [] ->
  last (py_sorted lt l) d = g ->
  exists i, nth_error l i = Some g /\
    (forall y, In y l -> lt g y = false) /\
    (forall j y, (i < j)%nat -> nth_error l j = Some y -> lt y g = true).
Proof.
  revert g. induction l as [|x t IH]; intros g Hnum Hne Hlast; [ congruence | ].
  inversion Hnum as [|? ? Hx Hnt]; subst. simpl. rewrite last_insert.
  destruct (forallb (fun y => lt y x) (py_sorted lt t)) eqn:Ef.
  - rewrite forallb_forall in Ef.
    exists 0%nat. repeat split.
    + intros y [<- | Hy]; [ apply lt_irrefl | ].
      apply lt_asym, Ef. now apply <- py_sorted_In.
    + intros [|j] y Hj Hy; [ lia | ]. simpl in Hy.
      apply Ef. apply <- py_sorted_In. eapply nth_error_In; eauto.
  - destruct t as [|x' t']; [ discriminate | ].
    destruct (IH (last (py_sorted lt (x' :: t')) d) Hnt ltac:(discriminate) eq_refl)
      as (i & Hi & Hmax & Hlate).
    exists (S i). repeat split; auto.
    + intros y [<- | Hy]; [ | now apply Hmax ].
      destruct (forallb_false_ex _ _ Ef) as (y0 & Hy0 & Hlt).
      apply -> py_sorted_In in Hy0.
      apply lt_negtrans with y0; auto.
      rewrite Forall_forall in Hnt. now apply Hnt.
    + intros [|j] y Hj Hy; [ lia | ]. simpl in Hy.
      apply (Hlate j); auto. lia.
Qed.

End SortedFacts.

(** ** Rounding in binary64: conversions and products *)

Module Rounding.

Lemma digits2_size (p : positive) : digits2_pos p = Pos.size p.
Proof. induction p; simpl; congruence. Qed.

Lemma digits_bounds (p : positive) :
  2 ^ (Zpos (digits2_pos p) - 1) <= Zpos p < 2 ^ Zpos (digits2_pos p).
Proof.
  rewrite digits2_size. split.
  - pose proof (Pos.size_le p) as H.
    assert (Hp : (2 ^ Pos.size p <= p~0)%positive) by exact H.
    apply Pos2Z.pos_le_pos in Hp. rewrite Pos2Z.inj_pow in Hp.
    replace (Zpos (Pos.size p)) with (Zpos (Pos.size p) - 1 + 1) in Hp by lia.
    rewrite Z.pow_add_r in Hp by lia. lia.
  - pose proof (Pos.size_gt p) as H.
    apply Pos2Z.pos_lt_pos in H. now rewrite Pos2Z.inj_pow in H.
Qed.

Lemma digits_unique (p : positive) (d : Z) :
  2 ^ (d - 1) <= Zpos p < 2 ^ d -> Zpos (digits2_pos p) = d.
Proof.
  intros [Hlo Hhi]. pose proof (digits_bounds p) as [Hlo' Hhi'].
  assert (Hd : 0 < d).
  { destruct (Z.ltb_spec 0 d); [ assumption | ].
    destruct (Z.eq_dec d 0) as [-> | ]; [ simpl in Hhi; lia | ].
    rewrite Z.pow_neg_r in Hhi by lia. lia. }
  destruct (Z.lt_trichotomy (Zpos (digits2_pos p)) d) as [H | [H | H]];
    [ | assumption | ].
  - assert (2 ^ Zpos (digits2_pos p) <= 2 ^ (d - 1)) by (apply Z.pow_le_mono_r; lia).
    lia.
  - assert (2 ^ d <= 2 ^ (Zpos (digits2_pos p) - 1)) by (apply Z.pow_le_mono_r; lia).
    lia.
Qed.

Lemma iter_xO (m k : positive) : Zpos (Pos.iter xO m k) = Zpos m * 2 ^ Zpos k.
Proof.
  induction k as [|k IH] using Pos.peano_ind.
  - simpl. lia.
  - rewrite Pos.iter_succ, Pos2Z.inj_xO, IH, Pos2Z.inj_succ, Z.pow_succ_r by lia.
    ring.
Qed.

(** A mantissa of 53 digits with an exponent in range is already rounded. *)
Lemma round_aux_canonical (sx : bool) (m : positive) (e : Z) :
  Zpos (digits2_pos m) = 53 -> -1074 <= e <= 971 ->
  binary_round_aux prec emax sx (Zpos m) e loc_Exact = S754_finite sx m e.
Proof.
  intros Hd He.
  unfold binary_round_aux, shr_fexp, Zdigits2, fexp, emin, prec, emax.
  rewrite Hd.
  replace (Z.max (53 + e - 53) (3 - 1024 - 53) - e) with 0 by lia.
  cbn [shr shr_record_of_loc shr_m loc_of_shr_record round_nearest_even Zdigits2].
  rewrite Hd.
  replace (Z.max (53 + e - 53) (3 - 1024 - 53) - e) with 0 by lia.
  cbn [shr shr_record_of_loc shr_m].
  replace (e <=? 1024 - 53) with true by (symmetry; apply Z.leb_le; lia).
  reflexivity.
Qed.

(** [float(n)] is exact below [2^53]: the mantissa is [n] shifted up to 53
    binary digits. *)
Lemma of_int_exact (n : positive) (d : Z) :
  Zpos (digits2_pos n) = d -> d <= 53 ->
  exists m, of_int (Zpos n) = S754_finite false m (d - 53) /\
            Zpos m = Zpos n * 2 ^ (53 - d) /\
            2 ^ 52 <= Zpos m < 2 ^ 53.
Proof.
  intros Hd Hle. pose proof (digits_bounds n) as Hb. rewrite Hd in Hb.
  assert (Hd1 : 1 <= d) by (rewrite <- Hd; lia).
  unfold of_int, binary_normalize, binary_round.
  rewrite Hd. unfold shl_align, fexp, emin, prec, emax.
  replace (Z.max (d + 0 - 53) (3 - 1024 - 53)) with (d - 53) by lia.
  destruct (d - 53 - 0) as [|q|q] eqn:Eq; [ | lia | ].
  - assert (d = 53) as -> by lia. exists n. split; [ | split ].
    + apply round_aux_canonical; [ assumption | lia ].
    + change (2 ^ (53 - 53)) with 1. lia.
    + exact Hb.
  - exists (Pos.iter xO n q).
    assert (Hq : Zpos q = 53 - d) by lia.
    assert (Hm : Zpos (Pos.iter xO n q) = Zpos n * 2 ^ (53 - d))
      by (rewrite iter_xO, Hq; reflexivity).
    assert (Hr : 2 ^ 52 <= Zpos (Pos.iter xO n q) < 2 ^ 53).
    { rewrite Hm.
      assert (E52 : 2 ^ 52 = 2 ^ (d - 1) * 2 ^ (53 - d))
        by (rewrite <- Z.pow_add_r by lia; f_equal; lia).
      assert (E53 : 2 ^ 53 = 2 ^ d * 2 ^ (53 - d))
        by (rewrite <- Z.pow_add_r by lia; f_equal; lia).
      assert (0 < 2 ^ (53 - d)) by (apply Z.pow_pos_nonneg; lia).
      rewrite E52, E53.
      split; [ apply Z.mul_le_mono_nonneg_r | apply Z.mul_lt_mono_pos_r ]; lia. }
    split; [ | split; assumption ].
    apply round_aux_canonical; [ | lia ].
    apply digits_unique. exact Hr.
Qed.

Lemma iter_pos_nat {A} (f : A -> A) (p : positive) (x : A) :
  iter_pos f p x = Nat.iter (Pos.to_nat p) f x.
Proof.
  revert x. induction p as [p IH|p IH|]; intros x; cbn [iter_pos].
  - rewrite !IH, Pos2Nat.inj_xI, Nat.iter_succ_r.
    replace (2 * Pos.to_nat p)%nat with (Pos.to_nat p + Pos.to_nat p)%nat by lia.
    now rewrite Nat.iter_add.
  - rewrite !IH, Pos2Nat.inj_xO.
    replace (2 * Pos.to_nat p)%nat with (Pos.to_nat p + Pos.to_nat p)%nat by lia.
    now rewrite Nat.iter_add.
  - reflexivity.
Qed.

Lemma shr_1_spec (m : Z) (r s : bool) :
  0 <= m ->
  shr_1 (Build_shr_record m r s) = Build_shr_record (m / 2) (Z.odd m) (r || s).
Proof.
  intros Hm. rewrite <- Z.div2_div.
  destruct m as [|[p|p|]|p]; try reflexivity; lia.
Qed.

(** Shifting a mantissa right by [k+1] digits keeps the quotient, the
    first digit shifted out and whether anything below it was set. *)
Lemma shr_iter (M : Z) (k : nat) :
  0 <= M ->
  Nat.iter (S k) shr_1 (Build_shr_record M false false) =
  Build_shr_record (M / 2 ^ (Z.of_nat k + 1))
                   (Z.odd (M / 2 ^ Z.of_nat k))
                   (negb (M mod 2 ^ Z.of_nat k =? 0)).
Proof.
  intros HM. induction k as [|k IH].
  - change (Nat.iter 1 shr_1 ?x) with (shr_1 x). rewrite shr_1_spec by assumption.
    change (2 ^ (Z.of_nat 0 + 1)) with 2. change (2 ^ Z.of_nat 0) with 1.
    now rewrite Z.div_1_r, Z.mod_1_r.
  - rewrite Nat.iter_succ, IH.
    assert (Hp : 0 < 2 ^ Z.of_nat k) by (apply Z.pow_pos_nonneg; lia).
    assert (Hp1 : 0 < 2 ^ (Z.of_nat k + 1)) by (apply Z.pow_pos_nonneg; lia).
    rewrite shr_1_spec by (apply Z.div_pos; lia).
    rewrite Z.div_div by lia.
    rewrite Nat2Z.inj_succ.
    replace (Z.succ (Z.of_nat k)) with (Z.of_nat k + 1) by lia.
    f_equal.
    + f_equal. rewrite (Z.pow_add_r 2 (Z.of_nat k + 1) 1) by lia. reflexivity.
    + rewrite (Z.pow_add_r 2 (Z.of_nat k) 1) by lia.
      change (2 ^ 1) with 2.
      rewrite Z.rem_mul_r by lia. rewrite Zmod_odd.
      pose proof (Z.mod_pos_bound M (2 ^ Z.of_nat k) Hp) as Hb.
      destruct (Z.odd (M / 2 ^ Z.of_nat k)); simpl.
      * symmetry. apply negb_true_iff, Z.eqb_neq. lia.
      * rewrite Z.mul_0_r, Z.add_0_r. reflexivity.
Qed.


Lemma shr_rne (M : Z) (s : positive) (e : Z) :
  0 <= M ->
  let '(mrs, e') := shr (Build_shr_record M false false) e (Zpos s) in
  round_nearest_even (shr_m mrs) (loc_of_shr_record mrs) = rne M (Zpos s) /\
  e' = e + Zpos s.
Proof.
  intros HM. unfold shr. rewrite iter_pos_nat.
  destruct (Pos.to_nat s) as [|k] eqn:Ek; [ lia | ].
  rewrite shr_iter by assumption.
  assert (Hk : Z.of_nat k = Zpos s - 1) by lia.
  unfold rne. cbn [shr_m]. rewrite Hk.
  replace (Zpos s - 1 + 1) with (Zpos s) by lia. split; reflexivity.
Qed.

Lemma rne_bounds (M s : Z) :
  0 <= M -> 1 <= s ->
  let q := M / 2 ^ s in
  let r := M mod 2 ^ s in
  q <= rne M s <= q + 1 /\
  (2 * r < 2 ^ s -> rne M s = q) /\
  (2 ^ s < 2 * r -> rne M s = q + 1).
Proof.
  intros HM Hs q r. unfold rne. fold q.
  assert (Hp : 0 < 2 ^ (s - 1)) by (apply Z.pow_pos_nonneg; lia).
  assert (E : 2 ^ s = 2 ^ (s - 1) * 2).
  { replace s with (s - 1 + 1) at 1 by lia. now rewrite Z.pow_add_r by lia. }
  assert (Er : r = M mod 2 ^ (s - 1) + 2 ^ (s - 1) * ((M / 2 ^ (s - 1)) mod 2)).
  { unfold r. rewrite E. apply Z.rem_mul_r; lia. }
  rewrite Zmod_odd in Er.
  pose proof (Z.mod_pos_bound M (2 ^ (s - 1)) Hp) as Hb.
  destruct (Z.odd (M / 2 ^ (s - 1))); destruct (Z.eqb_spec (M mod 2 ^ (s - 1)) 0);
    cbn [negb loc_of_shr_record round_nearest_even];
    try destruct (Z.even q); repeat split; intros; lia.
Qed.

(** Rounding a mantissa of more than 53 digits: the result carries
    [rne], renormalised when the rounding carried into a 54th digit. *)
Lemma round_aux_large (sx : bool) (M : positive) (E dM : Z) :
  Zpos (digits2_pos M) = dM -> 54 <= dM ->
  -1074 <= dM + E - 53 < 971 ->
  exists m' e',
    binary_round_aux prec emax sx (Zpos M) E loc_Exact = S754_finite sx m' e' /\
    ((Zpos m' = rne (Zpos M) (dM - 53) /\ e' = E + (dM - 53)) \/
     (rne (Zpos M) (dM - 53) = 2 ^ 53 /\ Zpos m' = 2 ^ 52 /\
      e' = E + (dM - 53) + 1)).
Proof.
  intros Hd Hd54 HE.
  pose proof (digits_bounds M) as HM. rewrite Hd in HM.
  destruct (dM - 53) as [|s|s] eqn:Es; try lia.
  assert (HdM : dM = Zpos s + 53) by lia.
  pose proof (rne_bounds (Zpos M) (Zpos s) ltac:(lia) ltac:(lia)) as (Hr & _).
  cbv zeta in Hr.
  assert (Hq : 2 ^ 52 <= Zpos M / 2 ^ Zpos s < 2 ^ 53).
  { assert (Hp : 0 < 2 ^ Zpos s) by (apply Z.pow_pos_nonneg; lia).
    assert (E1 : 2 ^ (dM - 1) = 2 ^ 52 * 2 ^ Zpos s)
      by (rewrite <- Z.pow_add_r by lia; f_equal; lia).
    assert (E2 : 2 ^ dM = 2 ^ 53 * 2 ^ Zpos s)
      by (rewrite <- Z.pow_add_r by lia; f_equal; lia).
    rewrite E1, E2 in HM. split.
    - apply Z.div_le_lower_bound; lia.
    - apply Z.div_lt_upper_bound; lia. }
  unfold binary_round_aux, shr_fexp.
  cbn [Zdigits2 shr_record_of_loc]. rewrite Hd.
  replace (fexp prec emax (dM + E) - E) with (Zpos s)
    by (unfold fexp, emin, prec, emax; lia).
  pose proof (shr_rne (Zpos M) s E ltac:(lia)) as Hshr.
  destruct (shr _ E (Zpos s)) as [mrs e1].
  destruct Hshr as [-> ->].
  destruct (rne (Zpos M) (Zpos s)) as [|mr|mr] eqn:Emr; try lia.
  destruct (Z.eq_dec (Zpos mr) (2 ^ 53)) as [Hcarry | Hno].
  - exists (Pos.iter xO 1 52)%positive, (E + Zpos s + 1).
    injection Hcarry as ->. split; [ | right; repeat split; reflexivity ].
    cbn [Zdigits2 digits2_pos Pos.succ].
    replace (fexp prec emax (54 + (E + Zpos s)) - (E + Zpos s)) with 1
      by (unfold fexp, emin, prec, emax; lia).
    cbn [shr iter_pos shr_1 shr_m].
    replace (E + Zpos s + 1 <=? emax - prec) with true
      by (symmetry; apply Z.leb_le; unfold emax, prec; lia).
    reflexivity.
  - exists mr, (E + Zpos s). split; [ | left; split; reflexivity ].
    assert (Hdm : Zpos (digits2_pos mr) = 53)
      by (apply digits_unique; change (53 - 1) with 52; lia).
    cbn [Zdigits2]. rewrite Hdm.
    replace (fexp prec emax (53 + (E + Zpos s)) - (E + Zpos s)) with 0
      by (unfold fexp, emin, prec, emax; lia).
    cbn [shr shr_m].
    replace (E + Zpos s <=? emax - prec) with true
      by (symmetry; apply Z.leb_le; unfold emax, prec; lia).
    reflexivity.
Qed.

(** *** Integer side of [int(n * c)]

    [T] is [2^53], [c = Mc / T] is the constant as stored, [a / b] the
    decimal fraction it stands for ([b * Mc = a * T - t] records how far
    below it the stored value lies), [m = n * P] the mantissa of
    [float(n)], [M] the exact product mantissa, [S] what rounding shifts
    out, [mr] the rounded mantissa and [G] the weight of one unit in it. *)
Section Arith.
Variables (T a b t Mc : Z).
Hypothesis HT : 0 < T.
Hypothesis Hab : 0 < a < b.
Hypothesis Ht : 0 < t.
Hypothesis Hc : b * Mc = a * T - t.
Hypothesis H2t : 2 * t <= b.
Hypothesis Hat : t <= (a - 2 * t) * T.

Variables (n P m M S G q r mr k : Z).
Hypothesis Hm : m = n * P.
Hypothesis Hmr : T <= 2 * m /\ m < T.
Hypothesis HP : b < P.
Hypothesis HM : M = m * Mc.
Hypothesis HSG : S * G = T * P.
Hypothesis HS : (S = T /\ T * T <= 2 * M) \/ (2 * S = T /\ 2 * M < T * T).
Hypothesis Hq : M = S * q + r.
Hypothesis Hr : 0 <= r < S.
Hypothesis Hmr1 : q <= mr <= q + 1.
Hypothesis Hup : S < 2 * r -> mr = q + 1.
Hypothesis Hk : b * k <= a * n < b * k + b.





End Arith.

Section ArithBelow.
Variables (T Mc n P m M S G q r mr : Z).
Hypothesis HT : 0 < T.
Hypothesis HMc : 0 < Mc <= T - 3.
Hypothesis Hm : m = n * P.
Hypothesis Hmr : T <= 2 * m /\ m < T.
Hypothesis HP : 0 < P.
Hypothesis HM : M = m * Mc.
Hypothesis HSG : S * G = T * P.
Hypothesis HS : 0 < S <= T.
Hypothesis Hq : M = S * q + r.
Hypothesis Hr : 0 <= r < S.
Hypothesis Hmr1 : q <= mr <= q + 1.

Lemma index_below : mr / G < n.
Proof.
  assert (HTP : 0 < T * P) by (apply Z.mul_pos_pos; lia).
  assert (HG : 0 < G).
  { destruct (Z.lt_ge_cases 0 G) as [|HG]; [ assumption | exfalso ].
    assert (S * G <= 0) by (apply Z.mul_nonneg_nonpos; lia). lia. }
  apply Z.div_lt_upper_bound; [ assumption | ].
  assert (H1 : mr * S <= (q + 1) * S) by (apply Z.mul_le_mono_nonneg_r; lia).
  assert (H2 : (q + 1) * S = M + S - r) by (rewrite Hq; ring).
  assert (H3 : m * Mc <= m * (T - 3)) by (apply Z.mul_le_mono_nonneg_l; lia).
  assert (H4 : m * (T - 3) = m * T - 3 * m) by ring.
  assert (H5 : m * T = n * (S * G)) by (rewrite HSG, Hm; ring).
  assert (H6 : mr * S < G * n * S)
    by (replace (G * n * S) with (n * (S * G)) by ring; lia).
  apply Z.mul_lt_mono_pos_r in H6; lia.
Qed.
End ArithBelow.

(** *** The product [float(n) * c] for a constant [c] in [[1/2, 1)] *)

Lemma digits_le (n : positive) (k : Z) :
  Zpos n < 2 ^ k -> Zpos (digits2_pos n) <= k.
Proof.
  intros Hn. pose proof (digits_bounds n) as [Hlo _].
  destruct (Z.le_gt_cases (Zpos (digits2_pos n)) k) as [|Hgt]; [ assumption | exfalso ].
  assert (2 ^ k <= 2 ^ (Zpos (digits2_pos n) - 1)); [ | lia ].
  destruct (Z.le_gt_cases 0 k).
  - apply Z.pow_le_mono_r; lia.
  - rewrite (Z.pow_neg_r 2 k) by lia. apply Z.pow_nonneg. lia.
Qed.

Lemma shiftl_carry (e : Z) : Z.shiftl (2 ^ 52) (e + 1) = Z.shiftl (2 ^ 53) e.
Proof.
  destruct (Z.le_gt_cases 0 e).
  - rewrite !Z.shiftl_mul_pow2 by lia. rewrite Z.pow_add_r by lia.
    change (2 ^ 53) with (2 ^ 52 * 2 ^ 1). ring.
  - rewrite !Z.shiftl_div_pow2 by lia.
    replace (- e) with (- (e + 1) + 1) by lia.
    rewrite (Z.pow_add_r 2 (- (e + 1)) 1) by lia.
    rewrite (Z.mul_comm (2 ^ (- (e + 1)))), <- Z.div_div
      by (try apply Z.pow_pos_nonneg; lia).
    reflexivity.
Qed.

Section Product.
Variable Mc : positive.
Hypothesis HMc : 2 ^ 52 <= Zpos Mc < 2 ^ 53.

(** What [int(float(n) * c)] computes, in integers. *)
Lemma mul_index (n : positive) :
  Zpos n < 2 ^ 53 ->
  exists d P S G q r mr,
    Zpos (digits2_pos n) = d /\ P = 2 ^ (53 - d) /\ 0 < P /\
    2 ^ 53 <= 2 * (Zpos n * P) /\ Zpos n * P < 2 ^ 53 /\
    S * G = 2 ^ 53 * P /\
    ((S = 2 ^ 53 /\ 2 ^ 53 * 2 ^ 53 <= 2 * (Zpos n * P * Zpos Mc)) \/
     (2 * S = 2 ^ 53 /\ 2 * (Zpos n * P * Zpos Mc) < 2 ^ 53 * 2 ^ 53)) /\
    Zpos n * P * Zpos Mc = S * q + r /\ 0 <= r < S /\
    q <= mr <= q + 1 /\ (S < 2 * r -> mr = q + 1) /\
    pct_index (Zpos n) (S754_finite false Mc (-53)) = Ok (mr / G).
Proof.
  intros Hn.
  set (d := Zpos (digits2_pos n)).
  assert (Hd : d <= 53) by (apply digits_le; assumption).
  assert (Hd1 : 1 <= d) by (unfold d; lia).
  destruct (of_int_exact n d eq_refl Hd) as (m & Hof & Hm & Hmb).
  assert (HM : 2 ^ 104 <= Zpos (m * Mc) < 2 ^ 106).
  { rewrite Pos2Z.inj_mul. change (2 ^ 104) with (2 ^ 52 * 2 ^ 52).
    change (2 ^ 106) with (2 ^ 53 * 2 ^ 53). split.
    - apply Z.mul_le_mono_nonneg; lia.
    - apply Z.mul_lt_mono_nonneg; lia. }
  set (dM := Zpos (digits2_pos (m * Mc))).
  pose proof (digits_bounds (m * Mc)) as HdM. fold dM in HdM.
  assert (HdMr : dM = 105 \/ dM = 106).
  { assert (104 < dM).
    { destruct (Z.le_gt_cases dM 104); [ exfalso | assumption ].
      assert (2 ^ dM <= 2 ^ 104) by (apply Z.pow_le_mono_r; lia). lia. }
    assert (dM - 1 < 106).
    { destruct (Z.le_gt_cases 106 (dM - 1)); [ exfalso | assumption ].
      assert (2 ^ 106 <= 2 ^ (dM - 1)) by (apply Z.pow_le_mono_r; lia). lia. }
    lia. }
  destruct (round_aux_large false (m * Mc) (d - 53 + -53) dM eq_refl
              ltac:(lia) ltac:(lia)) as (m' & e' & Hround & Hres).
  set (mr := rne (Zpos (m * Mc)) (dM - 53)) in *.
  pose proof (rne_bounds (Zpos (m * Mc)) (dM - 53) ltac:(lia) ltac:(lia))
    as (Hb1 & _ & Hb3).
  cbv zeta in Hb1, Hb3. fold mr in Hb1, Hb3.
  assert (HP : 0 < 2 ^ (53 - d)) by (apply Z.pow_pos_nonneg; lia).
  assert (HSp : 0 < 2 ^ (dM - 53)) by (apply Z.pow_pos_nonneg; lia).
  assert (Hprod : Zpos n * 2 ^ (53 - d) * Zpos Mc = Zpos (m * Mc))
    by (rewrite Pos2Z.inj_mul, Hm; reflexivity).
  exists d, (2 ^ (53 - d)), (2 ^ (dM - 53)), (2 ^ (159 - d - dM)),
    (Zpos (m * Mc) / 2 ^ (dM - 53)), (Zpos (m * Mc) mod 2 ^ (dM - 53)), mr.
  rewrite Hprod, <- Hm.
  repeat match goal with |- _ /\ _ => split end; try assumption; try reflexivity;
    try lia.
  - rewrite <- !Z.pow_add_r by lia. f_equal. lia.
  - destruct HdMr as [E | E]; rewrite E in *; [ right | left ].
    + change (105 - 53) with 52. change (105 - 1) with 104 in HdM.
      change (2 ^ 53 * 2 ^ 53) with (2 * 2 ^ 105).
      change (2 ^ 53) with (2 * 2 ^ 52). lia.
    + change (106 - 53) with 53. change (106 - 1) with 105 in HdM.
      change (2 ^ 53 * 2 ^ 53) with (2 * 2 ^ 105). lia.
  - apply Z.div_mod. lia.
  - apply Z.mod_pos_bound. assumption.
  - apply Z.mod_pos_bound. assumption.
  - unfold pct_index, mul, SFmul. rewrite Hof.
    change (xorb false false) with false. rewrite Hround.
    unfold to_int. f_equal.
    assert (Hg : 0 <= 159 - d - dM) by lia.
    destruct Hres as [[-> ->] | (Hc & -> & ->)].
    + rewrite Z.shiftl_div_pow2 by lia. do 2 f_equal. lia.
    + fold mr in Hc. rewrite Hc, shiftl_carry.
      rewrite Z.shiftl_div_pow2 by lia. do 2 f_equal. lia.
Qed.

End Product.

(** *** The two percentile indices *)





(** Up to [2^53] elements the index stays below the length. *)
Lemma pct_index_below (Mc : positive) (n : Z) :
  2 ^ 52 <= Zpos Mc <= 2 ^ 53 - 3 ->
  1 <= n < 2 ^ 53 ->
  exists i, pct_index n (S754_finite false Mc (-53)) = Ok i /\ 0 <= i < n.
Proof.
  intros HMc Hn.
  destruct n as [|n|n]; try lia.
  destruct (mul_index Mc ltac:(lia) n ltac:(lia))
    as (d & P & S & G & q & r & mr & Hd & HP & HP0 & Hm1 & Hm2 & HSG & HS
        & Hq & Hr & Hmr & Hup & ->).
  exists (mr / G). split; [ reflexivity | ].
  assert (HS' : 0 < S <= 2 ^ 53) by lia.
  assert (HG : 0 < G).
  { assert (0 < 2 ^ 53 * P) by (apply Z.mul_pos_pos; lia).
    destruct (Z.lt_ge_cases 0 G) as [|HG]; [ assumption | exfalso ].
    assert (S * G <= 0) by (apply Z.mul_nonneg_nonpos; lia). lia. }
  assert (Hq0 : 0 <= q).
  { destruct (Z.lt_ge_cases q 0) as [Hneg|]; [ exfalso | assumption ].
    assert (S * q <= S * (-1)) by (apply Z.mul_le_mono_nonneg_l; lia).
    assert (0 < Zpos n * P * Zpos Mc) by lia. lia. }
  split.
  - apply Z.div_pos; lia.
  - apply (index_below (2 ^ 53) (Zpos Mc)) with
      (P := P) (m := Zpos n * P) (M := Zpos n * P * Zpos Mc)
      (S := S) (q := q) (r := r); auto; lia.
Qed.

End Rounding.

(** ** Indexing *)

Lemma py_index_nth {A} (l : list A) (i : Z) :
  0 <= i < Z.of_nat (List.length l) ->
  exists x, py_index l i = Ok x /\ nth_error l (Z.to_nat i) = Some x.
Proof.
  intros Hi. unfold py_index.
  replace (i <? 0) with false by (symmetry; apply Z.ltb_ge; lia).
  replace (0 <=? i) with true by (symmetry; apply Z.leb_le; lia).
  replace (i <? Z.of_nat (List.length l)) with true by (symmetry; apply Z.ltb_lt; lia).
  cbn [andb].
  destruct (nth_error l (Z.to_nat i)) as [x|] eqn:E; [ eauto | ].
  apply nth_error_None in E. lia.
Qed.

Lemma py_index_last {A} (l : list A) :
  l <> [] ->
  exists x, py_index l (-1) = Ok x /\ nth_error l (List.length l - 1) = Some x.
Proof.
  intros Hne. destruct l as [|a t]; [ congruence | ].
  unfold py_index. cbn [Z.ltb Z.compare].
  set (n := Z.of_nat (List.length (a :: t))).
  assert (Hn : 1 <= n) by (unfold n; cbn [List.length]; lia).
  replace (0 <=? -1 + n) with true by (symmetry; apply Z.leb_le; lia).
  replace (-1 + n <? n) with true by (symmetry; apply Z.ltb_lt; lia).
  cbn [andb].
  replace (Z.to_nat (-1 + n)) with (List.length (a :: t) - 1)%nat by (unfold n; lia).
  destruct (nth_error (a :: t) (List.length (a :: t) - 1)) as [x|] eqn:E; [ eauto | ].
  apply nth_error_None in E. cbn [List.length] in E. lia.
Qed.

Lemma py_index_In {A} (l : list A) (i : Z) (x : A) :
  py_index l i = Ok x -> In x l.
Proof.
  unfold py_index. destruct (_ && _); [ | discriminate ].
  destruct (nth_error l _) as [y|] eqn:E; [ | discriminate ].
  intros [= <-]. eapply nth_error_In; eauto.
Qed.

(** ** calculate_stats *)

Lemma of_int_nonzero (n : Z) :
  1 <= n < 2 ^ 53 -> eqb (of_int n) zero = false.
Proof.
  intros Hn. destruct n as [|n|n]; try lia.
  destruct (Rounding.of_int_exact n _ eq_refl (Rounding.digits_le n 53 ltac:(lia)))
    as (m & -> & _).
  reflexivity.
Qed.

Lemma calculate_stats_nonempty (data : list float64) :
  data <> [] ->
  calculate_stats data =
    (let sorted_data := py_sorted ltb data in
     let n := Z.of_nat (List.length sorted_data) in
     v_min <- py_index sorted_data 0 ;;
     v_max <- py_index sorted_data (-1) ;;
     v_mean <- truediv (py_sum data) (of_int n) ;;
     v_median <- py_index sorted_data (n / 2) ;;
     i95 <- pct_index n c_0_95 ;;
     v_p95 <- py_index sorted_data i95 ;;
     v_p99 <- (if 1 <? n
               then i99 <- pct_index n c_0_99 ;; py_index sorted_data i99
               else py_index sorted_data (-1)) ;;
     Ok [("min", v_min); ("max", v_max); ("mean", v_mean);
         ("median", v_median); ("p95", v_p95); ("p99", v_p99)]%string).
Proof. destruct data; [ congruence | reflexivity ]. Qed.

(** Below [2^53] samples every lookup of [calculate_stats] is in range, so
    the dictionary is built from these positions of the sorted data. *)
Lemma calculate_stats_eval (data : list float64) :
  data <> [] -> Z.of_nat (List.length data) < 2 ^ 53 ->
  let s := py_sorted ltb data in
  let n := Z.of_nat (List.length data) in
  exists i95 i99 v_min v_max v_median v_p95 v_p99,
    pct_index n c_0_95 = Ok i95 /\ 0 <= i95 < n /\
    pct_index n c_0_99 = Ok i99 /\ 0 <= i99 < n /\
    nth_error s 0 = Some v_min /\
    nth_error s (List.length data - 1) = Some v_max /\
    nth_error s (Z.to_nat (n / 2)) = Some v_median /\
    nth_error s (Z.to_nat i95) = Some v_p95 /\
    nth_error s (if 1 <? n then Z.to_nat i99 else (List.length data - 1)%nat)
      = Some v_p99 /\
    calculate_stats data =
      Ok [("min", v_min); ("max", v_max);
          ("mean", div (py_sum data) (of_int n));
          ("median", v_median); ("p95", v_p95); ("p99", v_p99)]%string.
Proof.
  intros Hne Hlen s n.
  assert (Hn : 1 <= n < 2 ^ 53).
  { unfold n. destruct data; [ congruence | cbn [List.length] in *; lia ]. }
  assert (Hs : List.length s = List.length data) by apply py_sorted_length.
  assert (Hsn : Z.of_nat (List.length s) = n) by (rewrite Hs; reflexivity).
  assert (Hsne : s <> []) by (intros E; rewrite E in Hs; cbn in Hs; lia).
  destruct (Rounding.pct_index_below 8556839292003942 n ltac:(lia) Hn)
    as (i95 & H95 & Hi95).
  destruct (Rounding.pct_index_below 8917127262193582 n ltac:(lia) Hn)
    as (i99 & H99 & Hi99).
  change (S754_finite false 8556839292003942 (-53)) with c_0_95 in H95.
  change (S754_finite false 8917127262193582 (-53)) with c_0_99 in H99.
  destruct (py_index_nth s 0 ltac:(lia)) as (v_min & Emin & Nmin).
  destruct (py_index_last s Hsne) as (v_max & Emax & Nmax).
  assert (Hhalf : 0 <= n / 2 < n).
  { split; [ apply Z.div_pos; lia | apply Z.div_lt_upper_bound; lia ]. }
  destruct (py_index_nth s (n / 2) ltac:(lia)) as (v_med & Emed & Nmed).
  destruct (py_index_nth s i95 ltac:(lia)) as (v_p95 & Ep95 & Np95).
  destruct (py_index_nth s i99 ltac:(lia)) as (v_p99' & Ep99 & Np99).
  exists i95, i99, v_min, v_max, v_med, v_p95,
    (if 1 <? n then v_p99' else v_max).
  rewrite Hs in Nmax. change (Z.to_nat 0) with 0%nat in Nmin.
  repeat match goal with |- _ /\ _ => split end; try assumption; try lia.
  - destruct (1 <? n); assumption.
  - rewrite (calculate_stats_nonempty data Hne). cbv zeta.
    fold s. rewrite Hsn. rewrite Emin, Emax. cbn [bind].
    unfold truediv. rewrite (of_int_nonzero n Hn). cbn [bind].
    rewrite Emed. cbn [bind]. rewrite H95. cbn [bind]. rewrite Ep95. cbn [bind].
    destruct (1 <? n).
    + rewrite H99. cbn [bind]. rewrite Ep99. reflexivity.
    + reflexivity.
Qed.




(** C8.  For non-empty data of length [n] (below [2^53], as every list
    is) the indices [int(n * 0.95)] and [int(n * 0.99)] computed in
    binary64, and [n // 2], are at least [0] and strictly below [n]; no
    lookup of [calculate_stats] leaves the sorted list and the call returns
    its dictionary, never an exception. *)
Theorem percentile_indices_in_range (data : list float64) :
  data <> [] -> Z.of_nat (List.length data) < 2 ^ 53 ->
  let n := Z.of_nat (List.length data) in
  (exists i95 i99,
     pct_index n c_0_95 = Ok i95 /\ 0 <= i95 < n /\
     pct_index n c_0_99 = Ok i99 /\ 0 <= i99 < n) /\
  0 <= n / 2 < n /\
  (exists stats, calculate_stats data = Ok stats /\ List.length stats = 6%nat) /\
  (forall e, calculate_stats data <> Raise e).
Proof.
  intros Hne Hlen n.
  destruct (calculate_stats_eval data Hne Hlen)
    as (i95 & i99 & v_min & v_max & v_med & v_p95 & v_p99
        & H95 & Hi95 & H99 & Hi99 & _ & _ & _ & _ & _ & Hcalc).
  assert (Hn : 1 <= n).
  { unfold n. destruct data; [ congruence | cbn [List.length]; lia ]. }
  repeat split.
  - exists i95, i99. auto.
  - apply Z.div_pos; lia.
  - apply Z.div_lt_upper_bound; lia.
  - eexists. split; [ exact Hcalc | reflexivity ].
  - intros e. rewrite Hcalc. discriminate.
Qed.

Lemma percentile_indices_in_range_witness :
  let data := map lit [10; 20; 30; 40]%float in
  (exists i95 i99,
     pct_index 4 c_0_95 = Ok i95 /\ 0 <= i95 < 4 /\
     pct_index 4 c_0_99 = Ok i99 /\ 0 <= i99 < 4) /\
  0 <= 4 / 2 < 4 /\
  (exists stats, calculate_stats data = Ok stats /\ List.length stats = 6%nat) /\
  (forall e, calculate_stats data <> Raise e).
Proof.
  intros data.
  exact (percentile_indices_in_range data ltac:(discriminate)
           ltac:(vm_compute; reflexivity)).
Defined.

(** C2, as stated, fails on three equal samples: the binary64 sum of
    [0.1, 0.1, 0.1] is [0.30000000000000004] and a third of it rounds to
    [0.10000000000000002], so the mean exceeds the maximum and differs
    from the common value. *)
Lemma mean_exceeds_max :
  calculate_stats (map lit [0.1; 0.1; 0.1]%float) =
    Ok [("min", lit 0.1); ("max", lit 0.1); ("mean", lit 0.10000000000000002);
        ("median", lit 0.1); ("p95", lit 0.1); ("p99", lit 0.1)]%string%float /\
  leb (lit 0.10000000000000002) (lit 0.1) = false /\
  eqb (lit 0.10000000000000002) (lit 0.1) = false.
Proof. vm_compute. repeat split. Qed.

(** The compensated sum of newer interpreters gives the same mean there. *)
Remark compensated_sum_same_mean :
  py_sum_compensated (map lit [0.1; 0.1; 0.1]%float)
    = py_sum (map lit [0.1; 0.1; 0.1]%float) /\
  div (py_sum_compensated (map lit [0.1; 0.1; 0.1]%float)) (of_int 3)
    = lit 0.10000000000000002%float.
Proof. vm_compute. split; reflexivity. Qed.

Lemma nth_error_sorted_In (data : list float64) (j : nat) (x : float64) :
  nth_error (py_sorted ltb data) j = Some x -> In x data.
Proof.
  intros H. apply nth_error_In in H.
  apply (Permutation_in _ (py_sorted_perm ltb data) H).
Qed.

(** In the sorted list of numbers an element at a lower position is [<=]
    one at a higher position. *)
Lemma sorted_positions_leb (data : list float64) (i j : nat) (a b : float64) :
  Forall (fun x => is_nan x = false) data ->
  (i <= j)%nat ->
  nth_error (py_sorted ltb data) i = Some a ->
  nth_error (py_sorted ltb data) j = Some b ->
  leb a b = true.
Proof.
  intros Hnum Hij Ha Hb. rewrite Forall_forall in Hnum.
  apply Float64Facts.leb_not_ltb.
  - apply Hnum. eapply nth_error_sorted_In; eauto.
  - apply Hnum. eapply nth_error_sorted_In; eauto.
  - apply (ascending_nth ltb Float64Facts.ltb_asym (py_sorted ltb data) i j a b);
      auto.
    apply py_sorted_ascending with (num := fun x => is_nan x = false).
    + apply Float64Facts.ltb_asym.
    + intros x y z. apply Float64Facts.ltb_negtrans.
    + now apply Forall_forall.
Qed.

(** C2, amended.  For non-empty data without NaN the median, p95 and p99
    returned by [calculate_stats] lie between the returned minimum and
    maximum, and when all samples are one value [v] these five statistics
    are [v].  The mean is the rounded binary64 quotient of the rounded sum
    and is not bounded by them. *)
Theorem order_statistics_bounded (data : list float64) :
  data <> [] -> Z.of_nat (List.length data) < 2 ^ 53 ->
  Forall (fun x => is_nan x = false) data ->
  exists v_min v_max v_median v_p95 v_p99,
    calculate_stats data =
      Ok [("min", v_min); ("max", v_max);
          ("mean", div (py_sum data) (of_int (Z.of_nat (List.length data))));
          ("median", v_median); ("p95", v_p95); ("p99", v_p99)]%string /\
    leb v_min v_median = true /\ leb v_median v_max = true /\
    leb v_min v_p95 = true /\ leb v_p95 v_max = true /\
    leb v_min v_p99 = true /\ leb v_p99 v_max = true /\
    leb v_min v_max = true /\
    (forall v, Forall (eq v) data ->
       v_min = v /\ v_max = v /\ v_median = v /\ v_p95 = v /\ v_p99 = v).
Proof.
  intros Hne Hlen Hnum.
  destruct (calculate_stats_eval data Hne Hlen)
    as (i95 & i99 & v_min & v_max & v_med & v_p95 & v_p99
        & _ & _ & _ & _ & Nmin & Nmax & Nmed & Np95 & Np99 & Hcalc).
  exists v_min, v_max, v_med, v_p95, v_p99.
  assert (Hlo : forall j x, nth_error (py_sorted ltb data) j = Some x ->
                            leb v_min x = true).
  { intros j x Hx. apply (sorted_positions_leb data 0 j); auto. lia. }
  assert (Hhi : forall j x, nth_error (py_sorted ltb data) j = Some x ->
                            leb x v_max = true).
  { intros j x Hx.
    apply (sorted_positions_leb data j (List.length data - 1)); auto.
    assert (j < List.length (py_sorted ltb data))%nat
      by (apply nth_error_Some; congruence).
    rewrite py_sorted_length in H. lia. }
  repeat match goal with |- _ /\ _ => split end; eauto.
  intros v Hv. rewrite Forall_forall in Hv.
  repeat split; symmetry; apply Hv; eapply nth_error_sorted_In; eauto.
Qed.

Lemma order_statistics_bounded_witness :
  exists v_min v_max v_median v_p95 v_p99,
    calculate_stats (map lit [3; 1; 2]%float) =
      Ok [("min", v_min); ("max", v_max);
          ("mean", div (py_sum (map lit [3; 1; 2]%float)) (of_int 3));
          ("median", v_median); ("p95", v_p95); ("p99", v_p99)]%string /\
    leb v_min v_median = true /\ leb v_median v_max = true /\
    leb v_min v_p95 = true /\ leb v_p95 v_max = true /\
    leb v_min v_p99 = true /\ leb v_p99 v_max = true /\
    leb v_min v_max = true /\
    (forall v, Forall (eq v) (map lit [3; 1; 2]%float) ->
       v_min = v /\ v_max = v /\ v_median = v /\ v_p95 = v /\ v_p99 = v).
Proof.
  apply (order_statistics_bounded (map lit [3; 1; 2]%float)).
  - discriminate.
  - vm_compute. reflexivity.
  - repeat constructor.
Defined.

(** ** load_cpu_data *)

Section Loader.
Variable float_of_string : string -> option float64.


(** Rows whose [cpu_percent] is a string or absent: the loop keeps exactly
    the values that parse, in row order. *)
Lemma load_rows_values (rows : list (dict cell)) (acc : list float64) :
  (forall row, In row rows -> dict_get row "cpu_percent" <> Ok PyNone) ->
  load_rows float_of_string rows acc = Ok (acc ++ cpu_values float_of_string rows).
Proof.
  revert acc. induction rows as [|row rest IH]; intros acc Hrows.
  - cbn. now rewrite app_nil_r.
  - assert (Hrest : forall r, In r rest -> dict_get r "cpu_percent" <> Ok PyNone)
      by (intros r Hr; apply Hrows; now right).
    pose proof (Hrows row (or_introl eq_refl)) as Hrow.
    cbn [load_rows cpu_values flat_map]. unfold cpu_value.
    destruct (dict_get row "cpu_percent") as [[s|]|e] eqn:E; cbn [bind py_float].
    + destruct (float_of_string s) as [x|].
      * rewrite IH by assumption. now rewrite <- app_assoc.
      * now rewrite IH by assumption.
    + congruence.
    + assert (e = KeyError) as ->.
      { clear -E. induction row as [|[k v] t IHt]; cbn in E.
        - congruence.
        - destruct (String.eqb k "cpu_percent"); [ discriminate | auto ]. }
      now rewrite IH by assumption.
Qed.

Lemma load_cpu_data_values (fs : filesystem) (filename : string) (f : csv_file) :
  fs filename = Some f ->
  (forall row, In row (DictReader f) -> dict_get row "cpu_percent" <> Ok PyNone) ->
  load_cpu_data float_of_string fs filename = Ok (cpu_values float_of_string (DictReader f)).
Proof.
  intros Hf Hrows. unfold load_cpu_data. rewrite Hf.
  now rewrite load_rows_values.
Qed.

(** The rows of the spec's example, as dictionaries. *)
Lemma load_rows_example (x y : float64) :
  float_of_string "12.5" = Some x ->
  float_of_string "bad" = None ->
  float_of_string "30.0" = Some y ->
  load_rows float_of_string
    [[("cpu_percent", Str "12.5")]; [("cpu_percent", Str "bad")];
     [("cpu_percent", Str "30.0")]]%string [] = Ok [x; y].
Proof. intros H1 H2 H3. cbn. rewrite H1. cbn. rewrite H2. cbn. now rewrite H3. Qed.

(** C3.  A record that ends before its [cpu_percent] field is not skipped:
    [csv.DictReader] stores [None] for the field, [float(None)] raises
    [TypeError], which the loop does not catch, and the loader fails
    whatever the other rows hold.  (Rows whose field is a string, and files
    without such a column, are skipped or kept as specified:
    [load_cpu_data_values].) *)
Theorem load_cpu_data_short_row (filename : string) :
  load_cpu_data float_of_string
    (fun _ => Some [["timestamp"; "cpu_percent"]; ["1"; "12.5"]; ["2"];
                    ["3"; "30.0"]]%string)
    filename = Raise TypeError.
Proof.
  unfold load_cpu_data. cbn.
  destruct (float_of_string "12.5"); reflexivity.
Qed.

End Loader.

(** ** main *)

Section Orchestrator.
Variable float_of_string : string -> option float64.
Variable format_float : string -> float64 -> string.

Lemma main_loop_app (fs : filesystem) (pre post : list (string * string))
    (st st1 : main_state) :
  main_loop float_of_string fs pre st = (st1, None) ->
  main_loop float_of_string fs (pre ++ post) st
    = main_loop float_of_string fs post st1.
Proof.
  revert st. induction pre as [|[f l] pre IH]; intros st H; cbn in *.
  - now injection H as ->.
  - destruct (main_entry float_of_string fs st f l) as [st' [e|]];
      [ discriminate | auto ].
Qed.

(** C4.  A path that does not exist makes [load_cpu_data] raise
    [FileNotFoundError]; the loop body of [main] catches it, prints the skip
    notice for that file and leaves the datasets, labels and statistics
    loaded so far as they were; the loop then goes on with the remaining
    entries, wherever in the list the missing file stands. *)
Theorem missing_file_is_skipped (fs : filesystem) (filename label : string)
    (pre post : list (string * string)) (st st1 : main_state) :
  fs filename = None ->
  main_loop float_of_string fs pre st = (st1, None) ->
  let notice := ("✗ File not found: " ++ filename)%string in
  load_cpu_data float_of_string fs filename = Raise FileNotFoundError /\
  main_entry float_of_string fs st1 filename label = (print st1 notice, None) /\
  st_datasets (print st1 notice) = st_datasets st1 /\
  st_labels (print st1 notice) = st_labels st1 /\
  st_stats_list (print st1 notice) = st_stats_list st1 /\
  st_printed (print st1 notice) = st_printed st1 ++ [notice] /\
  main_loop float_of_string fs (pre ++ (filename, label) :: post) st
    = main_loop float_of_string fs post (print st1 notice).
Proof.
  intros Hfs Hpre notice.
  assert (Hload : load_cpu_data float_of_string fs filename = Raise FileNotFoundError)
    by (unfold load_cpu_data; now rewrite Hfs).
  assert (Hentry : main_entry float_of_string fs st1 filename label
                   = (print st1 notice, None))
    by (unfold main_entry; now rewrite Hload).
  repeat split; auto.
  rewrite (main_loop_app fs pre _ st st1 Hpre).
  cbn [main_loop]. now rewrite Hentry.
Qed.

End Orchestrator.

Lemma missing_file_is_skipped_witness :
  let fs : filesystem := fun _ => None in
  let st := mkState [] [] [] [] in
  main_loop (fun _ => None) fs [("a.csv", "A"); ("b.csv", "B")]%string st
    = main_loop (fun _ => None) fs [("b.csv", "B")]%string
        (print st "✗ File not found: a.csv"%string).
Proof.
  intros fs st.
  exact (proj2 (proj2 (proj2 (proj2 (proj2 (proj2
    (missing_file_is_skipped (fun _ => None) fs "a.csv" "A" []
       [("b.csv", "B")]%string st st eq_refl eq_refl))))))).
Defined.

(** ** generate_ascii_chart *)

(** C10.  With no datasets the renderer returns ["No data"], whatever the
    labels and dimensions, and does not reach the minimum and maximum over
    all samples, which have no value on an empty collection ([ValueError]);
    a non-empty list of empty datasets passes the guard and does raise. *)
Theorem chart_of_no_datasets (format_float : string -> float64 -> string)
    (labels : list string) (width height : Z) :
  generate_ascii_chart format_float [] labels width height = Ok "No data"%string /\
  py_min (List.concat []) = Raise ValueError /\
  py_max (List.concat []) = Raise ValueError /\
  generate_ascii_chart format_float [[]] labels width height = Raise ValueError.
Proof. repeat split. Qed.

(** When the samples span a range that is not zero the label of an inner
    row is the interpolation between the two extrema. *)
Lemma y_axis_value_interpolates (height : Z) (global_min global_max : float64) (i : Z) :
  eqb (sub global_max global_min) zero = false ->
  0 < i < height - 1 ->
  y_axis_value height global_min global_max (chart_range global_min global_max) i
    = Ok (sub global_max
            (mul (div (of_int i) (of_int (height - 1)))
                 (sub global_max global_min))).
Proof.
  intros Hrange Hi. unfold y_axis_value, chart_range, int_truediv.
  change (of_int 0) with zero. rewrite Hrange.
  replace (i =? 0) with false by (symmetry; apply Z.eqb_neq; lia).
  replace (i =? height - 1) with false by (symmetry; apply Z.eqb_neq; lia).
  replace (height - 1 =? 0) with false by (symmetry; apply Z.eqb_neq; lia).
  reflexivity.
Qed.

Lemma y_axis_value_ends (height : Z) (global_min global_max value_range : float64) :
  y_axis_value height global_min global_max value_range 0 = Ok global_max /\
  (1 < height ->
   y_axis_value height global_min global_max value_range (height - 1) = Ok global_min).
Proof.
  unfold y_axis_value. split; [ reflexivity | intros H ].
  replace (height - 1 =? 0) with false by (symmetry; apply Z.eqb_neq; lia).
  now rewrite Z.eqb_refl.
Qed.

(** C7.  On samples that are all [5.0] the chart of height 20 labels its
    top and bottom rows [5.0], the global maximum and minimum, but row 1
    [4.947368421052632] and row 18 [4.052631578947368]: the inner rows
    subtract [i / 19] times the range that was replaced by [1], where the
    interpolation between maximum and minimum is [5.0] on every row. *)
Theorem y_axis_labels_of_flat_data :
  let data := map lit [5; 5; 5]%float in
  exists global_min global_max,
    py_min (List.concat [data]) = Ok global_min /\
    py_max (List.concat [data]) = Ok global_max /\
    global_min = lit 5 /\ global_max = lit 5 /\
    let value_range := chart_range global_min global_max in
    y_axis_value 20 global_min global_max value_range 0 = Ok (lit 5) /\
    y_axis_value 20 global_min global_max value_range 19 = Ok (lit 5) /\
    y_axis_value 20 global_min global_max value_range 1
      = Ok (lit 4.947368421052632) /\
    y_axis_value 20 global_min global_max value_range 18
      = Ok (lit 4.052631578947368) /\
    sub global_max (mul (div (of_int 1) (of_int 19)) (sub global_max global_min))
      = lit 5 /\
    sub global_max (mul (div (of_int 18) (of_int 19)) (sub global_max global_min))
      = lit 5.
Proof.
  intros data. exists (lit 5), (lit 5). vm_compute. repeat split.
Qed.

(** *** Zero range *)

Lemma to_int_of_int (k : Z) : 0 <= k < 2 ^ 53 -> to_int (of_int k) = Ok k.
Proof.
  intros Hk. destruct k as [|k|k]; [ reflexivity | | lia ].
  pose proof (Rounding.digits_le k 53 ltac:(lia)) as Hd.
  pose proof (Rounding.digits_bounds k) as Hb.
  destruct (Rounding.of_int_exact k _ eq_refl Hd) as (m & -> & Hm & _).
  unfold to_int. f_equal.
  rewrite Z.shiftl_div_pow2 by lia. rewrite Hm.
  replace (- (Zpos (digits2_pos k) - 53)) with (53 - Zpos (digits2_pos k)) by lia.
  apply Z.div_mul.
  apply Z.pow_nonzero; lia.
Qed.

Lemma of_int_finite (k : Z) :
  0 <= k < 2 ^ 53 ->
  of_int k = S754_zero false \/ exists m e, of_int k = S754_finite false m e.
Proof.
  intros Hk. destruct k as [|k|k]; [ now left | right | lia ].
  destruct (Rounding.of_int_exact k _ eq_refl (Rounding.digits_le k 53 ltac:(lia)))
    as (m & -> & _). eauto.
Qed.

(** Two finite numbers that compare equal differ by a zero. *)
Lemma sub_eqb_zero (d g : float64) :
  eqb d g = true -> is_finite g = true -> exists s, sub d g = S754_zero s.
Proof.
  unfold eqb, SFeqb, sub. intros Heq Hfin.
  destruct d as [sd|sd| |sd md ed], g as [sg|sg| |sg mg eg];
    try discriminate;
    try (destruct sd, sg; cbn in Heq |- *; try discriminate; eauto; fail).
  assert (sd = sg /\ ed = eg /\ md = mg) as (-> & -> & ->).
  { cbn in Heq. rewrite !Float64Facts.compare_cont_Eq in Heq.
    destruct sd, sg; try discriminate;
      destruct (Z.compare_spec ed eg); try discriminate;
      destruct (Pos.compare_spec md mg); try discriminate; auto. }
  exists false. unfold SFsub. rewrite Z.min_id.
  unfold shl_align. rewrite !Z.sub_diag. reflexivity.
Qed.

Section Extrema.

Let num (x : float64) : Prop := is_nan x = false.

Lemma fold_min_spec (t : list float64) (m0 : float64) :
  num m0 -> Forall num t ->
  let m := fold_left (fun m y => if ltb y m then y else m) t m0 in
  (m = m0 \/ In m t) /\ ltb m0 m = false /\ forall z, In z t -> ltb z m = false.
Proof.
  revert m0. induction t as [|y t IH]; intros m0 Hm0 Ht; cbn [fold_left].
  - repeat split; [ now left | apply Float64Facts.ltb_irrefl | intros z [] ].
  - inversion Ht as [|? ? Hy Ht']; subst.
    set (m1 := if ltb y m0 then y else m0).
    assert (Hm1 : num m1) by (unfold m1; destruct (ltb y m0); assumption).
    assert (H01 : ltb m0 m1 = false).
    { unfold m1. destruct (ltb y m0) eqn:E;
        [ now apply Float64Facts.ltb_asym | apply Float64Facts.ltb_irrefl ]. }
    assert (Hy1 : ltb y m1 = false).
    { unfold m1. destruct (ltb y m0) eqn:E;
        [ apply Float64Facts.ltb_irrefl | assumption ]. }
    destruct (IH m1 Hm1 Ht') as (Hin & Hle & Hall).
    repeat split.
    + destruct Hin as [-> | Hin]; [ | right; now right ].
      unfold m1. destruct (ltb y m0); [ right; now left | now left ].
    + apply Float64Facts.ltb_negtrans with m1; assumption.
    + intros z [<- | Hz]; [ | now apply Hall ].
      apply Float64Facts.ltb_negtrans with m1; assumption.
Qed.

Lemma fold_max_spec (t : list float64) (m0 : float64) :
  num m0 -> Forall num t ->
  let m := fold_left (fun m y => if ltb m y then y else m) t m0 in
  (m = m0 \/ In m t) /\ ltb m m0 = false /\ forall z, In z t -> ltb m z = false.
Proof.
  revert m0. induction t as [|y t IH]; intros m0 Hm0 Ht; cbn [fold_left].
  - repeat split; [ now left | apply Float64Facts.ltb_irrefl | intros z [] ].
  - inversion Ht as [|? ? Hy Ht']; subst.
    set (m1 := if ltb m0 y then y else m0).
    assert (Hm1 : num m1) by (unfold m1; destruct (ltb m0 y); assumption).
    assert (H01 : ltb m1 m0 = false).
    { unfold m1. destruct (ltb m0 y) eqn:E;
        [ now apply Float64Facts.ltb_asym | apply Float64Facts.ltb_irrefl ]. }
    assert (Hy1 : ltb m1 y = false).
    { unfold m1. destruct (ltb m0 y) eqn:E;
        [ apply Float64Facts.ltb_irrefl | assumption ]. }
    destruct (IH m1 Hm1 Ht') as (Hin & Hle & Hall).
    repeat split.
    + destruct Hin as [-> | Hin]; [ | right; now right ].
      unfold m1. destruct (ltb m0 y); [ right; now left | now left ].
    + apply Float64Facts.ltb_negtrans with m1; assumption.
    + intros z [<- | Hz]; [ | now apply Hall ].
      apply Float64Facts.ltb_negtrans with m1; assumption.
Qed.

(** [min] and [max] of numbers are elements that bound every element. *)
Lemma py_min_spec (l : list float64) (m : float64) :
  Forall num l -> py_min l = Ok m ->
  In m l /\ forall z, In z l -> ltb z m = false.
Proof.
  intros Hl Hm. destruct l as [|x t]; [ discriminate | ].
  injection Hm as <-. inversion Hl; subst.
  destruct (fold_min_spec t x) as (Hin & Hle & Hall); auto.
  split; [ destruct Hin as [-> | ?]; [ now left | now right ] | ].
  intros z [<- | Hz]; auto.
Qed.

Lemma py_max_spec (l : list float64) (m : float64) :
  Forall num l -> py_max l = Ok m ->
  In m l /\ forall z, In z l -> ltb m z = false.
Proof.
  intros Hl Hm. destruct l as [|x t]; [ discriminate | ].
  injection Hm as <-. inversion Hl; subst.
  destruct (fold_max_spec t x) as (Hin & Hle & Hall); auto.
  split; [ destruct Hin as [-> | ?]; [ now left | now right ] | ].
  intros z [<- | Hz]; auto.
Qed.

End Extrema.

(** The divisor of the normalisation is never zero. *)
Lemma chart_range_nonzero (global_min global_max : float64) :
  eqb (chart_range global_min global_max) zero = false.
Proof.
  unfold chart_range. change (of_int 0) with zero.
  destruct (eqb (sub global_max global_min) zero) eqn:E; [ reflexivity | exact E ].
Qed.

(** The chart of the single dataset [[0, 0, 0]]: no exception, and the
    three samples sit on the bottom row. *)
Example chart_of_zeros (format_float : string -> float64 -> string) :
  (exists chart, generate_ascii_chart format_float [map lit [0; 0; 0]%float]
                   ["zeros"%string] 80 20 = Ok chart) /\
  exists g, plot_datasets 80 20 (lit 0) (chart_range (lit 0) (lit 0))
              (enumerate [map lit [0; 0; 0]%float]) (blank_grid 80 20) = Ok g /\
            map (fun x => grid_get g 19 x) [0; 1; 2; 3] = ["█"; "█"; "█"; " "]%string /\
            forall y, In y (py_range 19) ->
              map (fun x => grid_get g y x) [0; 1; 2; 3] = [" "; " "; " "; " "]%string.
Proof.
  split.
  - eexists. vm_compute. reflexivity.
  - eexists. split; [ vm_compute; reflexivity | ]. split; [ reflexivity | ].
    intros y Hy. vm_compute in Hy.
    repeat (destruct Hy as [<- | Hy]; [ reflexivity | ]). destruct Hy.
Qed.

(** ** generate_comparison_insights *)

Section Insights.


Lemma with_keys_ok {A} (key : A -> result float64) (l : list A) :
  Forall (fun a => exists k, key a = Ok k /\ is_nan k = false) l ->
  exists keyed, with_keys key l = Ok keyed /\ map snd keyed = l /\
    Forall (fun p => key (snd p) = Ok (fst p) /\ is_nan (fst p) = false) keyed.
Proof.
  induction l as [|a t IH]; intros Hl.
  - exists []. repeat split; constructor.
  - inversion Hl as [|? ? (k & Hk & Hnan) Ht]; subst.
    destruct (IH Ht) as (kt & Hkt & Hmap & Hall).
    exists ((k, a) :: kt). cbn [with_keys]. rewrite Hk, Hkt. cbn.
    repeat split; [ now rewrite Hmap | constructor; auto ].
Qed.

Let klt (p q : float64 * entry) : bool := ltb (fst p) (fst q).
Let knum (p : float64 * entry) : Prop := is_nan (fst p) = false.

Lemma klt_asym p q : klt p q = true -> klt q p = false.
Proof. apply Float64Facts.ltb_asym. Qed.

Lemma klt_negtrans p q r :
  knum q -> klt p q = false -> klt q r = false -> klt p r = false.
Proof. apply Float64Facts.ltb_negtrans. Qed.

Lemma sorted_by_extrema (key : entry -> result float64) (entries : list entry) :
  entries <> [] ->
  Forall (fun e => exists k, key e = Ok k /\ is_nan k = false) entries ->
  exists sorted lo hi,
    sorted_by key entries = Ok sorted /\
    py_index sorted 0 = Ok lo /\ py_index sorted (-1) = Ok hi /\
    earliest_least key entries lo /\ latest_greatest key entries hi.
Proof.
  intros Hne Hall.
  destruct (with_keys_ok key entries Hall) as (keyed & Hkeyed & Hmap & Hk).
  set (srt := py_sorted klt keyed).
  assert (Hknum : Forall knum keyed)
    by (eapply Forall_impl; [ | exact Hk ]; intros p [_ H]; exact H).
  assert (Hkne : keyed <> []) by (intros E; rewrite E in Hmap; cbn in Hmap; congruence).
  assert (Hlen : List.length srt = List.length keyed) by apply py_sorted_length.
  destruct srt as [|h s'] eqn:Es.
  { destruct keyed; [ congruence | cbn in Hlen; lia ]. }
  destruct (py_sorted_head klt knum klt_asym klt_negtrans keyed h s' Hknum Es)
    as (i & Hi & Hmin & Hearly).
  set (g := last (py_sorted klt keyed) h).
  destruct (py_sorted_last klt knum klt_asym klt_negtrans keyed h g Hknum Hkne eq_refl)
    as (i' & Hi' & Hmax & Hlate).
  assert (Hkey : forall p, In p keyed -> key (snd p) = Ok (fst p) /\ is_nan (fst p) = false)
    by (now apply Forall_forall).
  assert (Hentry : forall j e, nth_error entries j = Some e ->
            exists p, nth_error keyed j = Some p /\ snd p = e).
  { intros j e Hj. rewrite <- Hmap in Hj. rewrite nth_error_map in Hj.
    destruct (nth_error keyed j) as [p|]; [ | discriminate ].
    exists p. split; [ reflexivity | now injection Hj ]. }
  assert (Hin : forall e, In e entries -> exists p, In p keyed /\ snd p = e).
  { intros e He. rewrite <- Hmap in He. apply in_map_iff in He.
    destruct He as (p & Hp & Hp'). eauto. }
  exists (map snd (py_sorted klt keyed)), (snd h), (snd g).
  repeat split.
  - unfold sorted_by. rewrite Hkeyed. reflexivity.
  - fold srt. rewrite Es. reflexivity.
  - destruct (py_index_last (map snd (py_sorted klt keyed))) as (x & Hx & Hnth).
    { fold srt. rewrite Es. discriminate. }
    rewrite Hx. f_equal.
    rewrite length_map in Hnth. rewrite nth_error_map in Hnth.
    destruct (nth_error (py_sorted klt keyed) _) as [p|] eqn:Ep; [ | discriminate ].
    injection Hnth as <-. f_equal. unfold g.
    apply nth_error_split in Ep. destruct Ep as (l1 & l2 & Hsplit & Hl1).
    assert (l2 = []) as ->.
    { apply (f_equal (@List.length _)) in Hsplit.
      rewrite length_app in Hsplit. cbn [List.length] in Hsplit.
      destruct l2; [ reflexivity | cbn [List.length] in Hsplit; lia ]. }
    rewrite Hsplit. now rewrite last_last.
  - exists i, (fst h). destruct (Hkey h (nth_error_In _ _ Hi)) as (Hkh & Hnh).
    repeat split; auto.
    + rewrite <- Hmap, nth_error_map, Hi. reflexivity.
    + intros e' k' He' Hk'. destruct (Hin e' He') as (p & Hp & <-).
      destruct (Hkey p Hp) as (Hkp & Hnp). assert (fst p = k') as <- by congruence.
      apply Float64Facts.leb_not_ltb; auto. now apply Hmin.
    + intros j e' k' Hj He' Hk'. destruct (Hentry j e' He') as (p & Hp & <-).
      destruct (Hkey p (nth_error_In _ _ Hp)) as (Hkp & _).
      assert (fst p = k') as <- by congruence. now apply (Hearly j p).
  - exists i', (fst g). destruct (Hkey g (nth_error_In _ _ Hi')) as (Hkg & Hng).
    repeat split; auto.
    + rewrite <- Hmap, nth_error_map, Hi'. reflexivity.
    + intros e' k' He' Hk'. destruct (Hin e' He') as (p & Hp & <-).
      destruct (Hkey p Hp) as (Hkp & Hnp). assert (fst p = k') as <- by congruence.
      apply Float64Facts.leb_not_ltb; auto. now apply Hmax.
    + intros j e' k' Hj He' Hk'. destruct (Hentry j e' He') as (p & Hp & <-).
      destruct (Hkey p (nth_error_In _ _ Hp)) as (Hkp & _).
      assert (fst p = k') as <- by congruence. now apply (Hlate j p).
Qed.

End Insights.

Section InsightReport.
Variable format_float : string -> float64 -> string.


Lemma headroom_lines_ok (entries : list entry) :
  Forall (fun e => exists m, mean_of e = Ok m) entries ->
  exists eff, headroom_lines format_float entries = Ok eff /\
              Forall2 (headroom_line format_float) entries eff.
Proof.
  induction entries as [|[label stats] t IH]; intros Hall.
  - exists []. split; [ reflexivity | constructor ].
  - inversion Hall as [|? ? (m & Hm) Ht]; subst.
    destruct (IH Ht) as (eff & Heff & Hall2).
    unfold mean_of in Hm. cbn [snd] in Hm.
    eexists. cbn [headroom_lines]. unfold headroom at 1. rewrite Hm. cbn [bind].
    rewrite Heff. cbn [bind]. split; [ reflexivity | ].
    constructor; [ | assumption ].
    exists m. unfold mean_of, headroom. cbn [fst snd]. rewrite Hm. auto.
Qed.

(** C9, amended.  For at least one dataset, each with a mean and a maximum
    that are numbers (not NaN),
    the report names as lowest average the first dataset, in input order,
    of least mean, as highest average the last dataset of greatest mean,
    and likewise for the peaks by [max] (the order a stable ascending sort
    leaves at its two ends); and it lists for every dataset, in input order,
    the headroom [400 - mean].  For means [10, 50, 30] the lowest average is
    the first dataset with headroom 390.0 and the highest the second with
    headroom 350.0. *)
Theorem insights_report (stats_list : list (dict float64)) (labels : list string) :
  let entries := combine labels stats_list in
  entries <> [] ->
  Forall (fun e => exists m p, mean_of e = Ok m /\ peak_of e = Ok p /\
                               is_nan m = false /\ is_nan p = false) entries ->
  (exists lo_mean hi_mean lo_peak hi_peak m_lo m_hi p_lo p_hi eff,
     earliest_least mean_of entries lo_mean /\ mean_of lo_mean = Ok m_lo /\
     latest_greatest mean_of entries hi_mean /\ mean_of hi_mean = Ok m_hi /\
     earliest_least peak_of entries lo_peak /\ peak_of lo_peak = Ok p_lo /\
     latest_greatest peak_of entries hi_peak /\ peak_of hi_peak = Ok p_hi /\
     Forall2 (headroom_line format_float) entries eff /\
     insight_lines format_float stats_list labels =
       Ok ([str_repeat "=" 90; "KEY INSIGHTS"%string; str_repeat "=" 90; ""%string;
            ("🟢 LOWEST AVG CPU:  " ++ fst lo_mean ++ " ("
               ++ format_float ".1f" m_lo ++ "%)")%string;
            ("🔴 HIGHEST AVG CPU: " ++ fst hi_mean ++ " ("
               ++ format_float ".1f" m_hi ++ "%)")%string;
            ""%string;
            ("🟢 LOWEST PEAK CPU:  " ++ fst lo_peak ++ " ("
               ++ format_float ".1f" p_lo ++ "%)")%string;
            ("🔴 HIGHEST PEAK CPU: " ++ fst hi_peak ++ " ("
               ++ format_float ".1f" p_hi ++ "%)")%string;
            ""%string; "CPU EFFICIENCY:"%string]
           ++ eff ++ [""%string; str_repeat "=" 90])) /\
  (forall max1 max2 max3,
     is_nan max1 = false -> is_nan max2 = false -> is_nan max3 = false ->
     exists l3 l4,
     insight_lines format_float
       [[("mean", lit 10); ("max", max1)]; [("mean", lit 50); ("max", max2)];
        [("mean", lit 30); ("max", max3)]]%string%float
       ["A"; "B"; "C"]%string =
       Ok ([str_repeat "=" 90; "KEY INSIGHTS"%string; str_repeat "=" 90; ""%string;
            ("🟢 LOWEST AVG CPU:  A (" ++ format_float ".1f" (lit 10) ++ "%)")%string;
            ("🔴 HIGHEST AVG CPU: B (" ++ format_float ".1f" (lit 50) ++ "%)")%string;
            ""%string; l3; l4; ""%string; "CPU EFFICIENCY:"%string;
            ("  A: " ++ format_float ".1f" (lit 390) ++ "% headroom remaining")%string;
            ("  B: " ++ format_float ".1f" (lit 350) ++ "% headroom remaining")%string;
            ("  C: " ++ format_float ".1f" (lit 370) ++ "% headroom remaining")%string;
            ""%string; str_repeat "=" 90])).
Proof.
  intros entries Hne Hall. split.
  - assert (Hmeans : Forall (fun e => exists k, mean_of e = Ok k /\ is_nan k = false) entries)
      by (eapply Forall_impl; [ | exact Hall ]; intros e (m & p & ? & ? & ? & ?); eauto).
    assert (Hpeaks : Forall (fun e => exists k, peak_of e = Ok k /\ is_nan k = false) entries)
      by (eapply Forall_impl; [ | exact Hall ]; intros e (m & p & ? & ? & ? & ?); eauto).
    destruct (sorted_by_extrema mean_of entries Hne Hmeans)
      as (by_mean & lo_mean & hi_mean & Hsm & Hlm & Hhm & Hel & Hlg).
    destruct (sorted_by_extrema peak_of entries Hne Hpeaks)
      as (by_peak & lo_peak & hi_peak & Hsp & Hlp & Hhp & Hel' & Hlg').
    destruct (headroom_lines_ok entries) as (eff & Heff & Hall2).
    { eapply Forall_impl; [ | exact Hall ]; intros e (m & p & ? & ?). eauto. }
    pose proof Hel as (? & m_lo & _ & Hmlo & _).
    pose proof Hlg as (? & m_hi & _ & Hmhi & _).
    pose proof Hel' as (? & p_lo & _ & Hplo & _).
    pose proof Hlg' as (? & p_hi & _ & Hphi & _).
    exists lo_mean, hi_mean, lo_peak, hi_peak, m_lo, m_hi, p_lo, p_hi, eff.
    repeat match goal with |- _ /\ _ => split end; try assumption.
    unfold insight_lines. fold entries.
    change (fun x : entry => dict_get (snd x) "mean") with mean_of.
    change (fun x : entry => dict_get (snd x) "max") with peak_of.
    rewrite Hsm, Hsp. cbn [bind]. rewrite Hlm, Hhm, Hlp, Hhp. cbn [bind].
    unfold extremum_line.
    unfold mean_of in Hmlo, Hmhi. unfold peak_of in Hplo, Hphi.
    rewrite Hmlo, Hmhi, Hplo, Hphi. cbn [bind]. rewrite Heff. reflexivity.
  - intros max1 max2 max3 H1 H2 H3.
    set (sl := [[("mean", lit 10); ("max", max1)]; [("mean", lit 50); ("max", max2)];
                [("mean", lit 30); ("max", max3)]]%string%float).
    set (ls := ["A"; "B"; "C"]%string).
    assert (Hpk : Forall (fun e => exists k, peak_of e = Ok k /\ is_nan k = false)
                         (combine ls sl))
      by (repeat (apply Forall_cons; [ eexists; split; [ reflexivity | assumption ] | ]);
          apply Forall_nil).
    destruct (sorted_by_extrema peak_of (combine ls sl) ltac:(discriminate) Hpk)
      as (by_peak & lo_peak & hi_peak & Hsp & Hlp & Hhp & Hel' & Hlg').
    pose proof Hel' as (? & p_lo & _ & Hplo & _).
    pose proof Hlg' as (? & p_hi & _ & Hphi & _).
    do 2 eexists. unfold insight_lines.
    change (fun x : entry => dict_get (snd x) "max") with peak_of.
    match goal with
    | |- bind (sorted_by ?k ?l) _ = _ =>
        assert (Hsm : sorted_by k l
                      = Ok [("A", [("mean", lit 10); ("max", max1)]);
                            ("C", [("mean", lit 30); ("max", max3)]);
                            ("B", [("mean", lit 50); ("max", max2)])]%string%float)
          by reflexivity;
        rewrite Hsm
    end.
    cbn [bind].
    match goal with
    | |- bind (sorted_by ?k ?l) _ = _ =>
        assert (Hsp' : sorted_by k l = Ok by_peak) by exact Hsp; rewrite Hsp'
    end.
    cbn [bind].
    change (py_index [("A", [("mean", lit 10); ("max", max1)]);
                      ("C", [("mean", lit 30); ("max", max3)]);
                      ("B", [("mean", lit 50); ("max", max2)])]%string%float 0)
      with (Ok ("A", [("mean", lit 10); ("max", max1)])%string%float : result entry).
    change (py_index [("A", [("mean", lit 10); ("max", max1)]);
                      ("C", [("mean", lit 30); ("max", max3)]);
                      ("B", [("mean", lit 50); ("max", max2)])]%string%float (-1))
      with (Ok ("B", [("mean", lit 50); ("max", max2)])%string%float : result entry).
    cbn [bind]. 
    change (extremum_line format_float "🟢 LOWEST AVG CPU:  " "mean"
              ("A", [("mean", lit 10); ("max", max1)])%string%float)
      with (Ok ("🟢 LOWEST AVG CPU:  A (" ++ format_float ".1f" (lit 10) ++ "%)")%string).
    change (extremum_line format_float "🔴 HIGHEST AVG CPU: " "mean"
              ("B", [("mean", lit 50); ("max", max2)])%string%float)
      with (Ok ("🔴 HIGHEST AVG CPU: B (" ++ format_float ".1f" (lit 50) ++ "%)")%string).
    cbn [bind]. rewrite Hlp. cbn [bind].
    unfold extremum_line at 1. unfold peak_of in Hplo, Hphi. rewrite Hplo.
    cbn [bind]. rewrite Hhp. cbn [bind].
    unfold extremum_line at 1. rewrite Hphi. cbn [bind].
    reflexivity.
Qed.

End InsightReport.

Lemma insights_report_witness :
  exists l3 l4,
    insight_lines (fun _ _ => "?"%string)
      [[("mean", lit 10); ("max", lit 1)]; [("mean", lit 50); ("max", lit 2)];
       [("mean", lit 30); ("max", lit 3)]]%string%float
      ["A"; "B"; "C"]%string =
      Ok ([str_repeat "=" 90; "KEY INSIGHTS"%string; str_repeat "=" 90; ""%string;
           ("🟢 LOWEST AVG CPU:  A (" ++ "?" ++ "%)")%string;
           ("🔴 HIGHEST AVG CPU: B (" ++ "?" ++ "%)")%string;
           ""%string; l3; l4; ""%string; "CPU EFFICIENCY:"%string;
           ("  A: " ++ "?" ++ "% headroom remaining")%string;
           ("  B: " ++ "?" ++ "% headroom remaining")%string;
           ("  C: " ++ "?" ++ "% headroom remaining")%string;
           ""%string; str_repeat "=" 90]).
Proof.
  exact (proj2 (insights_report (fun _ _ => "?"%string)
                  [[("mean", lit 10); ("max", lit 1)]; [("mean", lit 50); ("max", lit 2)];
                   [("mean", lit 30); ("max", lit 3)]]%string%float
                  ["A"; "B"; "C"]%string
                  ltac:(discriminate)
                  ltac:(repeat (apply Forall_cons;
                                [ do 2 eexists; repeat split; reflexivity | ]);
                        apply Forall_nil))
               (lit 1) (lit 2) (lit 3) eq_refl eq_refl eq_refl).
Defined.

(** C9, as stated for every list of datasets, fails without a dataset and
    with a mean that is NaN.  With nothing to compare the generator raises
    [IndexError].  For the means [[2, nan, 1]] no comparison with the NaN
    holds, the sort by mean leaves the three entries in their order, and
    the report names the first dataset, of mean 2, as lowest average and
    the third, of mean 1, as highest average (and likewise for the peaks):
    the dataset reported lowest does not have the least mean. *)
Lemma insights_of_nan_mean :
  (forall format_float,
     generate_comparison_insights format_float [] [] = Raise IndexError) /\
  (forall format_float,
     exists lines,
       insight_lines format_float
         [[("mean", lit 2); ("max", lit 2)]; [("mean", S754_nan); ("max", S754_nan)];
          [("mean", lit 1); ("max", lit 1)]]%string%float
         ["A"; "B"; "C"]%string = Ok lines /\
       nth_error lines 4
         = Some ("🟢 LOWEST AVG CPU:  A (" ++ format_float ".1f" (lit 2) ++ "%)")%string /\
       nth_error lines 5
         = Some ("🔴 HIGHEST AVG CPU: C (" ++ format_float ".1f" (lit 1) ++ "%)")%string /\
       nth_error lines 7
         = Some ("🟢 LOWEST PEAK CPU:  A (" ++ format_float ".1f" (lit 2) ++ "%)")%string /\
       nth_error lines 8
         = Some ("🔴 HIGHEST PEAK CPU: C (" ++ format_float ".1f" (lit 1) ++ "%)")%string) /\
  ltb (lit 1) (lit 2) = true /\
  ~ earliest_least mean_of
      [("A", [("mean", lit 2); ("max", lit 2)]);
       ("B", [("mean", S754_nan); ("max", S754_nan)]);
       ("C", [("mean", lit 1); ("max", lit 1)])]%string%float
      ("A", [("mean", lit 2); ("max", lit 2)])%string%float.
Proof.
  split; [ intros format_float; reflexivity | ].
  split; [ intros format_float; eexists; split; [ vm_compute; reflexivity | ];
           repeat split | ].
  split; [ vm_compute; reflexivity | ].
  intros (i & k & _ & Hk & Hall & _).
  vm_compute in Hk. injection Hk as <-.
  specialize (Hall ("C", [("mean", lit 1); ("max", lit 1)])%string%float (lit 1)
                ltac:(right; right; now left) eq_refl).
  vm_compute in Hall. discriminate.
Qed.

(** ** The plotting pass *)

Section Grid.

Lemma length_list_set {A} (l : list A) (i : nat) (a : A) :
  List.length (list_set l i a) = List.length l.
Proof.
  revert i. induction l as [|x t IH]; intros [|i]; cbn; auto.
Qed.

Lemma nth_list_set_same {A} (l : list A) (i : nat) (a d : A) :
  (i < List.length l)%nat -> nth i (list_set l i a) d = a.
Proof.
  revert i. induction l as [|x t IH]; intros [|i] Hi; cbn in *; try lia; auto.
  apply IH. lia.
Qed.

Lemma nth_list_set_other {A} (l : list A) (i j : nat) (a d : A) :
  i <> j -> nth j (list_set l i a) d = nth j l d.
Proof.
  revert i j. induction l as [|x t IH]; intros [|i] [|j] Hij; cbn; auto; try lia.
Qed.

Lemma list_set_beyond {A} (l : list A) (i : nat) (a : A) :
  (List.length l <= i)%nat -> list_set l i a = l.
Proof.
  revert i. induction l as [|x t IH]; intros [|i] Hi; cbn in *; try lia; auto.
  f_equal. apply IH. lia.
Qed.


Lemma blank_grid_wf (width height : Z) :
  grid_wf (Z.to_nat width) (Z.to_nat height) (blank_grid width height).
Proof.
  unfold grid_wf, blank_grid. split; [ apply repeat_length | ].
  intros r Hr. apply repeat_spec in Hr. subst. apply repeat_length.
Qed.

Lemma blank_grid_get (width height y x : Z) :
  0 <= y < height -> 0 <= x < width ->
  grid_get (blank_grid width height) y x = blank.
Proof.
  intros Hy Hx. unfold grid_get, blank_grid.
  rewrite nth_repeat_lt by lia. now rewrite nth_repeat_lt by lia.
Qed.

Lemma grid_set_wf (w h : nat) (g : grid) (y x : Z) (s : string) :
  grid_wf w h g -> grid_wf w h (grid_set g y x s).
Proof.
  intros [Hlen Hrows]. unfold grid_set. split.
  - now rewrite length_list_set.
  - intros r Hr. apply In_nth with (d := []) in Hr.
    destruct Hr as (j & Hj & <-). rewrite length_list_set in Hj.
    destruct (Nat.eq_dec (Z.to_nat y) j) as [<- | Hne].
    + rewrite nth_list_set_same by assumption. rewrite length_list_set.
      apply Hrows, nth_In. assumption.
    + rewrite nth_list_set_other by assumption. apply Hrows, nth_In. assumption.
Qed.

Lemma grid_get_set_same (w h : nat) (g : grid) (y x : Z) (s : string) :
  grid_wf w h g -> (Z.to_nat y < h)%nat -> (Z.to_nat x < w)%nat ->
  grid_get (grid_set g y x s) y x = s.
Proof.
  intros [Hlen Hrows] Hy Hx. unfold grid_get, grid_set.
  rewrite nth_list_set_same by lia. apply nth_list_set_same.
  rewrite (Hrows (nth (Z.to_nat y) g [])); [ assumption | ].
  apply nth_In. lia.
Qed.

Lemma grid_get_set_other (g : grid) (y x y' x' : Z) (s : string) :
  0 <= y -> 0 <= x -> 0 <= y' -> 0 <= x' -> (y', x') <> (y, x) ->
  grid_get (grid_set g y x s) y' x' = grid_get g y' x'.
Proof.
  intros Hy Hx Hy' Hx' Hne. unfold grid_get, grid_set.
  destruct (Nat.eq_dec (Z.to_nat y) (Z.to_nat y')) as [E | E].
  - assert (y = y') as <- by lia.
    destruct (Nat.lt_ge_cases (Z.to_nat y) (List.length g)) as [Hlt | Hge].
    + rewrite nth_list_set_same by assumption.
      apply nth_list_set_other. intros E'. apply Hne. f_equal. lia.
    + now rewrite list_set_beyond by assumption.
  - now rewrite nth_list_set_other by assumption.
Qed.

End Grid.

Lemma symbol_at_not_blank (k : nat) : symbol_at k <> blank.
Proof.
  unfold symbol_at.
  pose proof (Nat.mod_upper_bound k 3 ltac:(lia)) as H.
  destruct (k mod 3)%nat as [|[|[|n]]]; cbn; try discriminate. lia.
Qed.

Section Plotting.
Variables (width height : Z) (global_min value_range : float64).

Let W := Z.to_nat width.
Let H := Z.to_nat height.


Lemma plot_cell_wf symbol g y x : grid_wf W H g -> grid_wf W H (plot_cell height symbol g y x).
Proof.
  intros Hwf. unfold plot_cell.
  destruct (_ && _); [ | assumption ].
  destruct (String.eqb _ _); [ now apply grid_set_wf | assumption ].
Qed.

(** One guarded write: a cell that is not blank keeps its glyph; the blank
    target cell takes the symbol; every other cell is untouched. *)
Lemma plot_cell_get symbol g y x y' x' :
  grid_wf W H g -> 0 <= x < width -> 0 <= y' < height -> 0 <= x' < width ->
  grid_get (plot_cell height symbol g y x) y' x' =
    if String.eqb (grid_get g y' x') blank
    then (if (y =? y') && (x =? x') then symbol else blank)
    else grid_get g y' x'.
Proof.
  intros Hwf Hx Hy' Hx'. unfold plot_cell.
  destruct ((0 <=? y) && (y <? height)) eqn:Hin.
  - apply andb_true_iff in Hin. destruct Hin as [Hy0 Hy1].
    apply Z.leb_le in Hy0. apply Z.ltb_lt in Hy1.
    destruct (Z.eqb_spec y y') as [<- | Hne].
    + destruct (Z.eqb_spec x x') as [<- | Hne]; cbn [andb].
      * destruct (String.eqb_spec (grid_get g y x) blank) as [E | E];
          [ | reflexivity ].
        apply (grid_get_set_same W H); auto; unfold W, H; lia.
      * destruct (String.eqb_spec (grid_get g y x) blank) as [E | E].
        -- rewrite grid_get_set_other by (try lia; congruence).
           destruct (String.eqb_spec (grid_get g y x') blank); auto.
        -- destruct (String.eqb_spec (grid_get g y x') blank); auto.
    + cbn [andb].
      destruct (String.eqb_spec (grid_get g y x) blank) as [E | E].
      * rewrite grid_get_set_other by (try lia; congruence).
        destruct (String.eqb_spec (grid_get g y' x') blank); auto.
      * destruct (String.eqb_spec (grid_get g y' x') blank); auto.
  - assert (Hne : (y =? y') = false).
    { apply Z.eqb_neq. intros <-.
      apply andb_false_iff in Hin. destruct Hin as [Hin | Hin];
        [ apply Z.leb_gt in Hin | apply Z.ltb_ge in Hin ]; lia. }
    rewrite Hne. cbn [andb].
    destruct (String.eqb_spec (grid_get g y' x') blank); auto.
Qed.


Lemma at_cell_In y' x' cells :
  existsb (at_cell y' x') cells = true <-> In (y', x') cells.
Proof.
  rewrite existsb_exists. split.
  - intros ([y x] & Hin & Hc). cbn in Hc. apply andb_true_iff in Hc.
    destruct Hc as [Hy Hx]. apply Z.eqb_eq in Hy, Hx. now subst.
  - intros Hin. exists (y', x'). split; [ assumption | ].
    cbn. now rewrite !Z.eqb_refl.
Qed.

Lemma paint_wf symbol cells g : grid_wf W H g -> grid_wf W H (paint height symbol cells g).
Proof.
  revert g. induction cells as [|[y x] t IH]; intros g Hwf; cbn; auto.
  apply IH. now apply plot_cell_wf.
Qed.

(** All the writes of one dataset: a cell that was not blank keeps its
    glyph, a blank cell the dataset maps a sample to takes the dataset's
    symbol, any other cell stays blank. *)
Lemma paint_get symbol cells g y' x' :
  symbol <> blank ->
  grid_wf W H g ->
  (forall y x, In (y, x) cells -> 0 <= x < width) ->
  0 <= y' < height -> 0 <= x' < width ->
  grid_get (paint height symbol cells g) y' x' =
    if String.eqb (grid_get g y' x') blank
    then (if existsb (at_cell y' x') cells then symbol else blank)
    else grid_get g y' x'.
Proof.
  intros Hsym Hwf Hxs Hy' Hx'. revert g Hwf.
  induction cells as [|[y x] t IH]; intros g Hwf.
  - cbn. destruct (String.eqb_spec (grid_get g y' x') blank); auto.
  - cbn [paint fold_left]. fold (paint height symbol t (plot_cell height symbol g y x)).
    rewrite IH.
    + rewrite (plot_cell_get symbol g y x y' x') by (auto; apply (Hxs y); now left).
      cbn [existsb at_cell].
      destruct (String.eqb_spec (grid_get g y' x') blank) as [E | E].
      * destruct ((y =? y') && (x =? x')); cbn [orb].
        -- destruct (String.eqb_spec symbol blank); [ contradiction | reflexivity ].
        -- now rewrite String.eqb_refl.
      * destruct (String.eqb_spec (grid_get g y' x') blank); [ contradiction | ].
        reflexivity.
    + intros y0 x0 Hin. apply (Hxs y0). now right.
    + now apply plot_cell_wf.
Qed.

(** The inner loop is the painting of the cells it visits. *)
Lemma plot_columns_paint data step symbol xs g :
  plot_columns height global_min value_range data step symbol xs g =
    (cells <- column_cells height global_min value_range data step xs ;;
     Ok (paint height symbol cells g)).
Proof.
  revert g. induction xs as [|x rest IH]; intros g; cbn [plot_columns column_cells].
  - reflexivity.
  - destruct (sample_index step x) as [idx|e]; cbn [bind]; [ | reflexivity ].
    destruct (Z.of_nat (List.length data) <=? idx); [ reflexivity | ].
    destruct (py_index data idx) as [d|e]; cbn [bind]; [ | reflexivity ].
    destruct (plot_row height global_min value_range d) as [y|e]; cbn [bind];
      [ | reflexivity ].
    rewrite IH.
    destruct (column_cells height global_min value_range data step rest);
      reflexivity.
Qed.

Lemma plot_dataset_paint dataset_idx data g :
  plot_dataset width height global_min value_range dataset_idx data g =
    (cells <- dataset_cells width height global_min value_range data ;;
     Ok (paint height (symbol_at dataset_idx) cells g)).
Proof.
  unfold plot_dataset, dataset_cells.
  destruct (chart_step _ width) as [step|e]; cbn [bind]; [ | reflexivity ].
  apply plot_columns_paint.
Qed.

Lemma column_cells_columns data step xs cells :
  column_cells height global_min value_range data step xs = Ok cells ->
  forall y x, In (y, x) cells -> In x xs.
Proof.
  revert cells. induction xs as [|x0 rest IH]; intros cells Hc y x Hin;
    cbn [column_cells] in Hc.
  - injection Hc as <-. destruct Hin.
  - destruct (sample_index step x0) as [idx|e]; cbn [bind] in Hc; [ | discriminate ].
    destruct (Z.of_nat (List.length data) <=? idx);
      [ injection Hc as <-; destruct Hin | ].
    destruct (py_index data idx) as [d|e]; cbn [bind] in Hc; [ | discriminate ].
    destruct (plot_row height global_min value_range d) as [y0|e]; cbn [bind] in Hc;
      [ | discriminate ].
    destruct (column_cells height global_min value_range data step rest) as [tl|e];
      cbn [bind] in Hc; [ | discriminate ].
    injection Hc as <-. destruct Hin as [[= <- <-] | Hin]; [ now left | right ].
    eapply IH; eauto.
Qed.

Lemma py_range_In (k x : Z) : In x (py_range k) -> 0 <= x < k.
Proof.
  unfold py_range. intros Hin. apply in_map_iff in Hin.
  destruct Hin as (i & <- & Hi). apply in_seq in Hi. lia.
Qed.

(** A dataset is only plotted on columns of the grid. *)
Lemma dataset_cells_columns data cells :
  dataset_cells width height global_min value_range data = Ok cells ->
  forall y x, In (y, x) cells -> 0 <= x < width.
Proof.
  unfold dataset_cells. intros Hc y x Hin.
  destruct (chart_step _ width) as [step|e]; cbn [bind] in Hc; [ | discriminate ].
  pose proof (column_cells_columns _ _ _ _ Hc y x Hin) as Hx.
  apply py_range_In in Hx. lia.
Qed.


Lemma plot_datasets_cells ds g g' :
  plot_datasets width height global_min value_range ds g = Ok g' ->
  exists cells, cells_of width height global_min value_range ds cells.
Proof.
  revert g. induction ds as [|[k data] rest IH]; intros g Hp.
  - exists []. constructor.
  - cbn [plot_datasets] in Hp. rewrite plot_dataset_paint in Hp.
    destruct (dataset_cells width height global_min value_range data) as [c|e] eqn:Ec;
      cbn [bind] in Hp; [ | discriminate ].
    destruct (IH _ Hp) as (cells & Hcells).
    exists (c :: cells). constructor; assumption.
Qed.

(** The whole pass, from any well-formed grid: it returns a grid; what was
    not blank is kept; a blank cell takes the symbol of the first dataset
    that maps a sample to it and stays blank when none does. *)
Lemma plot_datasets_get ds cells g :
  cells_of width height global_min value_range ds cells -> grid_wf W H g ->
  exists g', plot_datasets width height global_min value_range ds g = Ok g' /\
    grid_wf W H g' /\
    forall y x, 0 <= y < height -> 0 <= x < width ->
      (grid_get g y x <> blank -> grid_get g' y x = grid_get g y x) /\
      (grid_get g y x = blank ->
       (forall j c, nth_error cells j = Some c -> ~ In (y, x) c) ->
       grid_get g' y x = blank) /\
      (grid_get g y x = blank ->
       forall j kd c, nth_error ds j = Some kd -> nth_error cells j = Some c ->
         In (y, x) c ->
         (forall i c', (i < j)%nat -> nth_error cells i = Some c' -> ~ In (y, x) c') ->
         grid_get g' y x = symbol_at (fst kd)).
Proof.
  intros Hcells. revert g.
  induction Hcells as [|[k data] c rest cells Hc Hrest IH]; intros g Hwf.
  - exists g. split; [ reflexivity | split; [ assumption | ] ].
    intros y x _ _. repeat split; auto.
    intros _ j kd c Hj. destruct j; discriminate.
  - cbn [snd] in Hc.
    pose proof (dataset_cells_columns data c Hc) as Hcols.
    pose proof (symbol_at_not_blank k) as Hsym.
    destruct (IH (paint height (symbol_at k) c g) (paint_wf _ _ _ Hwf))
      as (g' & Hp & Hwf' & Hget).
    exists g'. split; [ | split; [ assumption | ] ].
    { cbn [plot_datasets]. rewrite plot_dataset_paint, Hc. cbn [bind]. exact Hp. }
    intros y x Hy Hx. destruct (Hget y x Hy Hx) as (Hkeep & Hnone & Hfirst).
    pose proof (paint_get (symbol_at k) c g y x Hsym Hwf Hcols Hy Hx) as Hpaint.
    repeat split.
    + intros Hnb. rewrite Hkeep.
      * rewrite Hpaint.
        destruct (String.eqb_spec (grid_get g y x) blank); [ contradiction | reflexivity ].
      * rewrite Hpaint.
        destruct (String.eqb_spec (grid_get g y x) blank); [ contradiction | assumption ].
    + intros Hb Hno. rewrite Hb, String.eqb_refl in Hpaint.
      assert (Hex : existsb (at_cell y x) c = false).
      { destruct (existsb (at_cell y x) c) eqn:E; [ exfalso | reflexivity ].
        apply at_cell_In in E. exact (Hno 0%nat c eq_refl E). }
      rewrite Hex in Hpaint. apply Hnone; [ assumption | ].
      intros j c' Hj. exact (Hno (S j) c' Hj).
    + intros Hb j kd c0 Hj Hcj Hin Hbefore. rewrite Hb, String.eqb_refl in Hpaint.
      destruct j as [|j]; cbn in Hj, Hcj.
      * injection Hj as <-. injection Hcj as <-. cbn [fst].
        apply at_cell_In in Hin. rewrite Hin in Hpaint.
        rewrite Hkeep; rewrite Hpaint; auto.
      * assert (Hex : existsb (at_cell y x) c = false).
        { destruct (existsb (at_cell y x) c) eqn:E; [ exfalso | reflexivity ].
          apply at_cell_In in E. exact (Hbefore 0%nat c ltac:(lia) eq_refl E). }
        rewrite Hex in Hpaint.
        apply (Hfirst Hpaint j kd c0 Hj Hcj Hin).
        intros i c' Hi Hci. apply (Hbefore (S i) c'); [ lia | exact Hci ].
Qed.

End Plotting.

Lemma nth_error_enumerate_from {A} (l : list A) (s k : nat) (kd : nat * A) :
  nth_error (combine (seq s (List.length l)) l) k = Some kd -> fst kd = (s + k)%nat.
Proof.
  revert s k. induction l as [|a t IH]; intros s k Hk; cbn in Hk.
  - destruct k; discriminate.
  - destruct k as [|k]; cbn in Hk.
    + injection Hk as <-. cbn. lia.
    + apply IH in Hk. lia.
Qed.

Lemma nth_error_enumerate {A} (l : list A) (k : nat) (kd : nat * A) :
  nth_error (enumerate l) k = Some kd -> fst kd = k.
Proof. intros Hk. now apply nth_error_enumerate_from in Hk. Qed.

Lemma Forall2_combine_snd {A B C} (P : A -> B -> Prop) (ks : list C)
    (l : list A) (l' : list B) :
  List.length ks = List.length l -> Forall2 P l l' ->
  Forall2 (fun kd c => P (snd kd) c) (combine ks l) l'.
Proof.
  intros Hlen HF. revert ks Hlen.
  induction HF as [|a b l l' Hab HF IH]; intros [|k ks] Hlen; cbn in *;
    try discriminate; constructor; auto.
Qed.

Lemma Forall2_nth_error_right {A B} (R : A -> B -> Prop) (l : list A) (l' : list B)
    (j : nat) (b : B) :
  Forall2 R l l' -> nth_error l' j = Some b ->
  exists a, nth_error l j = Some a /\ R a b.
Proof.
  intros HF. revert j. induction HF as [|a0 b0 l l' Hab HF IH]; intros j Hj.
  - destruct j; discriminate.
  - destruct j as [|j]; cbn in *; [ injection Hj as <-; eauto | auto ].
Qed.

Lemma plot_datasets_app (width height : Z) (global_min value_range : float64)
    (ds1 ds2 : list (nat * list float64)) (g : grid) :
  plot_datasets width height global_min value_range (ds1 ++ ds2) g =
    (g1 <- plot_datasets width height global_min value_range ds1 g ;;
     plot_datasets width height global_min value_range ds2 g1).
Proof.
  revert g. induction ds1 as [|[k data] rest IH]; intros g; cbn [app plot_datasets].
  - reflexivity.
  - destruct (plot_dataset width height global_min value_range k data g);
      cbn [bind]; auto.
Qed.

(** C5.  Let every dataset's samples be mapped to cells without an
    exception ([cells] lists them per dataset, in input order).  Then the
    plotting pass over the blank grid returns a grid in which each cell that
    no dataset maps a sample to is blank and each other cell carries the
    glyph of the first dataset, in input order, that maps a sample to it.
    A single write leaves a grid unchanged when its target is not blank, and
    what is not blank after the first [n] datasets is the same in the final
    grid, for every [n]. *)
Theorem first_writer_wins (width height : Z) (global_min value_range : float64)
    (datasets : list (list float64)) (cells : list (list (Z * Z))) :
  Forall2 (fun data c => dataset_cells width height global_min value_range data = Ok c)
          datasets cells ->
  exists g',
    plot_datasets width height global_min value_range (enumerate datasets)
      (blank_grid width height) = Ok g' /\
    (forall y x, 0 <= y < height -> 0 <= x < width ->
       ((forall k c, nth_error cells k = Some c -> ~ In (y, x) c) ->
        grid_get g' y x = blank) /\
       (forall k c, nth_error cells k = Some c -> In (y, x) c ->
          (forall j c', (j < k)%nat -> nth_error cells j = Some c' -> ~ In (y, x) c') ->
          grid_get g' y x = symbol_at k)) /\
    (forall symbol g y x,
       grid_get g y x <> blank -> plot_cell height symbol g y x = g) /\
    (forall n g1,
       plot_datasets width height global_min value_range
         (firstn n (enumerate datasets)) (blank_grid width height) = Ok g1 ->
       forall y x, 0 <= y < height -> 0 <= x < width ->
         grid_get g1 y x <> blank -> grid_get g' y x = grid_get g1 y x).
Proof.
  intros Hcells.
  assert (Hof : cells_of width height global_min value_range (enumerate datasets) cells).
  { unfold cells_of, enumerate.
    apply (Forall2_combine_snd
             (fun data c => dataset_cells width height global_min value_range data = Ok c));
      [ apply length_seq | assumption ]. }
  destruct (plot_datasets_get width height global_min value_range
              (enumerate datasets) cells (blank_grid width height) Hof
              (blank_grid_wf width height)) as (g' & Hp & Hwf & Hget).
  exists g'. split; [ exact Hp | ]. split; [ | split ].
  - intros y x Hy Hx. destruct (Hget y x Hy Hx) as (_ & Hnone & Hfirst).
    pose proof (blank_grid_get width height y x Hy Hx) as Hb.
    split; [ now apply Hnone | ].
    intros k c Hk Hin Hbefore.
    destruct (Forall2_nth_error_right _ _ _ k c Hof Hk) as (kd & Hkd & _).
    rewrite <- (nth_error_enumerate datasets k kd Hkd).
    apply (Hfirst Hb k kd c); auto.
  - intros symbol g y x Hnb. unfold plot_cell.
    destruct (_ && _); [ | reflexivity ].
    destruct (String.eqb_spec (grid_get g y x) blank); [ contradiction | reflexivity ].
  - intros n g1 Hp1 y x Hy Hx Hnb.
    rewrite <- (firstn_skipn n (enumerate datasets)) in Hp, Hof.
    rewrite plot_datasets_app, Hp1 in Hp. cbn [bind] in Hp.
    apply Forall2_app_inv_l in Hof.
    destruct Hof as (c1 & c2 & Hof1 & Hof2 & _).
    destruct (plot_datasets_get width height global_min value_range _ c1
                (blank_grid width height) Hof1 (blank_grid_wf width height))
      as (g1' & Hp1' & Hwf1 & _).
    assert (g1' = g1) as -> by congruence.
    destruct (plot_datasets_get width height global_min value_range _ c2 g1 Hof2 Hwf1)
      as (g2 & Hp2 & _ & Hget2).
    assert (g2 = g') as -> by congruence.
    destruct (Hget2 y x Hy Hx) as (Hkeep & _). now apply Hkeep.
Qed.

Lemma first_writer_wins_witness :
  exists g',
    plot_datasets 3 2 (lit 0) (lit 1)
      (enumerate [map lit [0; 1]%float; map lit [0; 0; 0]%float])
      (blank_grid 3 2) = Ok g' /\
    grid_get g' 1 0 = symbol_at 0 /\ grid_get g' 0 1 = symbol_at 0 /\
    grid_get g' 1 1 = symbol_at 1 /\ grid_get g' 1 2 = symbol_at 1 /\
    grid_get g' 0 0 = blank /\ grid_get g' 0 2 = blank.
Proof.
  destruct (first_writer_wins 3 2 (lit 0) (lit 1)
              [map lit [0; 1]%float; map lit [0; 0; 0]%float]
              [[(1, 0); (0, 1)]; [(1, 0); (1, 1); (1, 2)]])
    as (g' & Hp & Hcells & _).
  { repeat constructor. }
  exists g'. split; [ exact Hp | ].
  vm_compute in Hp. injection Hp as <-.
  repeat split.
Defined.

(** ** No division by zero *)

Definition no_zero_division {A} (r : result A) : Prop := r <> Raise ZeroDivisionError.

Lemma bind_no_zero_division {A B} (r : result A) (k : A -> result B) :
  no_zero_division r -> (forall a, r = Ok a -> no_zero_division (k a)) ->
  no_zero_division (bind r k).
Proof.
  intros Hr Hk. destruct r as [a|e]; cbn [bind]; [ now apply Hk | ].
  intros E. apply Hr. congruence.
Qed.

Lemma to_int_no_zero_division (x : float64) : no_zero_division (to_int x).
Proof. destruct x; discriminate. Qed.

Lemma py_index_no_zero_division {A} (l : list A) (i : Z) :
  no_zero_division (py_index l i).
Proof.
  unfold py_index. destruct (_ && _); [ | discriminate ].
  destruct (nth_error l _); discriminate.
Qed.

Section NoZeroDivision.
Variables (width height : Z) (global_min value_range : float64).
Hypothesis width_nonzero : width <> 0.
Hypothesis range_nonzero : eqb value_range zero = false.

Lemma plot_row_no_zero_division (d : float64) :
  no_zero_division (plot_row height global_min value_range d).
Proof.
  unfold plot_row, truediv. rewrite range_nonzero. cbn [bind].
  apply to_int_no_zero_division.
Qed.

Lemma sample_index_no_zero_division (step : float64) (x : Z) :
  no_zero_division (sample_index step x).
Proof.
  unfold sample_index. destruct (ltb _ _);
    [ apply to_int_no_zero_division | discriminate ].
Qed.

Lemma plot_columns_no_zero_division data step symbol xs g :
  no_zero_division
    (plot_columns height global_min value_range data step symbol xs g).
Proof.
  revert g. induction xs as [|x rest IH]; intros g; cbn [plot_columns].
  - discriminate.
  - apply bind_no_zero_division; [ apply sample_index_no_zero_division | intros idx _ ].
    destruct (_ <=? idx); [ discriminate | ].
    apply bind_no_zero_division; [ apply py_index_no_zero_division | intros d _ ].
    apply bind_no_zero_division; [ apply plot_row_no_zero_division | intros y _ ].
    apply IH.
Qed.

Lemma plot_datasets_no_zero_division ds g :
  no_zero_division (plot_datasets width height global_min value_range ds g).
Proof.
  revert g. induction ds as [|[k data] rest IH]; intros g; cbn [plot_datasets].
  - discriminate.
  - apply bind_no_zero_division; [ | intros g' _; apply IH ].
    unfold plot_dataset. apply bind_no_zero_division.
    + unfold chart_step, int_truediv. destruct (width <? _); [ | discriminate ].
      replace (width =? 0) with false by (symmetry; now apply Z.eqb_neq).
      discriminate.
    + intros step _. apply plot_columns_no_zero_division.
Qed.

Lemma y_axis_value_no_zero_division global_max (i : nat) :
  (i < Z.to_nat height)%nat ->
  no_zero_division
    (y_axis_value height global_min global_max value_range (Z.of_nat i)).
Proof.
  intros Hi. unfold y_axis_value.
  destruct (Z.eqb_spec (Z.of_nat i) 0); [ discriminate | ].
  destruct (Z.eqb_spec (Z.of_nat i) (height - 1)); [ discriminate | ].
  unfold int_truediv.
  replace (height - 1 =? 0) with false by (symmetry; apply Z.eqb_neq; lia).
  discriminate.
Qed.

Lemma grid_lines_no_zero_division format_float global_max rows :
  (forall i row, In (i, row) rows -> (i < Z.to_nat height)%nat) ->
  no_zero_division
    (grid_lines format_float height global_min global_max value_range rows).
Proof.
  induction rows as [|[i row] rest IH]; intros Hrows; cbn [grid_lines].
  - discriminate.
  - apply bind_no_zero_division.
    + apply y_axis_value_no_zero_division. apply (Hrows i row). now left.
    + intros y_val _. apply bind_no_zero_division; [ | intros tl _; discriminate ].
      apply IH. intros j r Hj. apply (Hrows j r). now right.
Qed.

End NoZeroDivision.

Lemma enumerate_index_bound {A} (l : list A) (i : nat) (a : A) :
  In (i, a) (enumerate l) -> (i < List.length l)%nat.
Proof.
  unfold enumerate. intros Hin. apply in_combine_l in Hin.
  apply in_seq in Hin. lia.
Qed.

(** For a width other than zero the renderer never raises
    [ZeroDivisionError], whatever the data. *)
Lemma generate_ascii_chart_no_zero_division
    (format_float : string -> float64 -> string)
    (datasets : list (list float64)) (labels : list string) (width height : Z) :
  width <> 0 ->
  no_zero_division (generate_ascii_chart format_float datasets labels width height).
Proof.
  intros Hw. unfold generate_ascii_chart.
  destruct datasets as [|d0 rest]; [ discriminate | ].
  set (ds := d0 :: rest).
  apply bind_no_zero_division.
  { unfold py_min. destruct (List.concat ds); discriminate. }
  intros global_min _. apply bind_no_zero_division.
  { unfold py_max. destruct (List.concat ds); discriminate. }
  intros global_max _. apply bind_no_zero_division; [ discriminate | ].
  intros max_len _. apply bind_no_zero_division.
  { apply (plot_datasets_no_zero_division width height global_min _ Hw
             (chart_range_nonzero global_min global_max)). }
  intros g Hg. apply bind_no_zero_division; [ | intros body _; discriminate ].
  apply grid_lines_no_zero_division.
  intros i row Hin. apply enumerate_index_bound in Hin.
  destruct (plot_datasets_cells _ _ _ _ _ _ _ Hg) as (cells & Hcells).
  destruct (plot_datasets_get _ _ _ _ _ _ _ Hcells (blank_grid_wf width height))
    as (g' & Hg' & (Hlen & _) & _).
  assert (g' = g) as -> by congruence. lia.
Qed.

(** * Further properties *)

(** ** Dictionaries *)

Lemma dict_get_set_same {V} (d : dict V) (k : string) (v : V) :
  dict_get (dict_set d k v) k = Ok v.
Proof.
  induction d as [|[k0 v0] t IH]; cbn.
  - now rewrite String.eqb_refl.
  - destruct (String.eqb k0 k) eqn:E; cbn; now rewrite E.
Qed.

Lemma dict_get_set_other {V} (d : dict V) (k k' : string) (v : V) :
  k <> k' -> dict_get (dict_set d k v) k' = dict_get d k'.
Proof.
  intros Hne. induction d as [|[k0 v0] t IH]; cbn.
  - destruct (String.eqb_spec k k'); [ contradiction | reflexivity ].
  - destruct (String.eqb_spec k0 k) as [-> | Hk]; cbn.
    + destruct (String.eqb_spec k k'); [ contradiction | reflexivity ].
    + now rewrite IH.
Qed.

Lemma dict_get_raises {V} (d : dict V) (k : string) (e : exn) :
  dict_get d k = Raise e -> e = KeyError.
Proof.
  induction d as [|[k0 v0] t IH]; cbn.
  - congruence.
  - destruct (String.eqb k0 k); [ discriminate | assumption ].
Qed.

(** ** The rows of csv.DictReader *)

Lemma dict_of_zip_other (keys vals : list string) (d : dict cell) (k : string) :
  ~ In k keys -> dict_get (dict_of_zip keys vals d) k = dict_get d k.
Proof.
  revert vals d. induction keys as [|k0 ks IH]; intros vals d Hk; [ reflexivity | ].
  destruct vals as [|v0 vs]; [ reflexivity | ]. cbn [dict_of_zip].
  rewrite IH by (intros H; apply Hk; now right).
  apply dict_get_set_other. intros ->. apply Hk. now left.
Qed.

Lemma dict_of_zip_field (keys vals : list string) (d : dict cell) (j : nat)
    (k v : string) :
  NoDup keys -> nth_error keys j = Some k -> nth_error vals j = Some v ->
  dict_get (dict_of_zip keys vals d) k = Ok (Str v).
Proof.
  revert vals d j. induction keys as [|k0 ks IH]; intros vals d j Hnd Hk Hv.
  - destruct j; discriminate.
  - destruct vals as [|v0 vs]; [ destruct j; discriminate | ].
    inversion Hnd as [|? ? Hk0 Hnd']; subst. cbn [dict_of_zip].
    destruct j as [|j]; cbn in Hk, Hv.
    + injection Hk as <-. injection Hv as <-.
      rewrite dict_of_zip_other by assumption. apply dict_get_set_same.
    + eapply IH; eauto.
Qed.

Lemma dict_of_zip_no_None (keys vals : list string) (d : dict cell) (k : string) :
  dict_get (dict_of_zip keys vals d) k = Ok PyNone -> dict_get d k = Ok PyNone.
Proof.
  revert vals d. induction keys as [|k0 ks IH]; intros vals d H; [ exact H | ].
  destruct vals as [|v0 vs]; [ exact H | ]. cbn [dict_of_zip] in H.
  apply IH in H. destruct (String.eqb_spec k0 k) as [-> | Hne].
  - rewrite dict_get_set_same in H. discriminate.
  - now rewrite dict_get_set_other in H.
Qed.

Lemma restval_in (ks : list string) (d : dict cell) (k : string) :
  In k ks -> dict_get (fold_left (fun d key => dict_set d key PyNone) ks d) k = Ok PyNone.
Proof.
  revert d. induction ks as [|k0 t IH]; intros d Hin; [ destruct Hin | ].
  cbn [fold_left]. destruct (in_dec string_dec k t) as [Ht | Ht]; [ now apply IH | ].
  destruct Hin as [-> | Hin]; [ | contradiction ].
  clear IH. assert (Hget : dict_get (dict_set d k PyNone) k = Ok PyNone)
    by apply dict_get_set_same.
  revert Hget. generalize (dict_set d k PyNone). induction t as [|k1 t IH]; intros d' Hget.
  - exact Hget.
  - cbn [fold_left]. apply IH.
    + intros H. apply Ht. now right.
    + rewrite dict_get_set_other; [ exact Hget | ]. intros ->. apply Ht. now left.
Qed.

Lemma restval_other (ks : list string) (d : dict cell) (k : string) :
  ~ In k ks -> dict_get (fold_left (fun d key => dict_set d key PyNone) ks d) k = dict_get d k.
Proof.
  revert d. induction ks as [|k0 t IH]; intros d Hk; [ reflexivity | ].
  cbn [fold_left]. rewrite IH by (intros H; apply Hk; now right).
  apply dict_get_set_other. intros ->. apply Hk. now left.
Qed.

Lemma In_skipn_nth_error {A} (n : nat) (l : list A) (a : A) :
  In a (skipn n l) <-> exists j, (n <= j)%nat /\ nth_error l j = Some a.
Proof.
  split.
  - intros Hin. apply In_nth_error in Hin. destruct Hin as (i & Hi).
    rewrite nth_error_skipn in Hi. exists (n + i)%nat. split; [ lia | exact Hi ].
  - intros (j & Hj & Hnth). apply nth_error_In with (n := (j - n)%nat).
    rewrite nth_error_skipn. now replace (n + (j - n))%nat with j by lia.
Qed.

Lemma NoDup_nth_error_eq {A} (l : list A) (i j : nat) (a : A) :
  NoDup l -> nth_error l i = Some a -> nth_error l j = Some a -> i = j.
Proof.
  intros Hnd Hi Hj. rewrite NoDup_nth_error in Hnd. apply Hnd.
  - apply nth_error_Some. congruence.
  - congruence.
Qed.

(** A record long enough to reach a column gives its field under the
    column's name. *)
Lemma DictReader_row_field (fieldnames row : list string) (j : nat) (k v : string) :
  NoDup fieldnames -> nth_error fieldnames j = Some k -> nth_error row j = Some v ->
  dict_get (DictReader_row fieldnames row) k = Ok (Str v).
Proof.
  intros Hnd Hk Hv. unfold DictReader_row. rewrite restval_other.
  - eapply dict_of_zip_field; eauto.
  - intros Hin. apply In_skipn_nth_error in Hin. destruct Hin as (i & Hi & Hki).
    assert (i = j) as -> by (eapply NoDup_nth_error_eq; eauto).
    assert (j < List.length row)%nat by (apply nth_error_Some; congruence). lia.
Qed.

(** A record that ends before a column has [None] under the column's name,
    and only such a record has. *)
Lemma DictReader_row_None (fieldnames row : list string) (k : string) :
  dict_get (DictReader_row fieldnames row) k = Ok PyNone <->
  exists j, (List.length row <= j)%nat /\ nth_error fieldnames j = Some k.
Proof.
  unfold DictReader_row. rewrite <- In_skipn_nth_error. split.
  - intros H. destruct (in_dec string_dec k (skipn (List.length row) fieldnames))
      as [Hin | Hout]; [ assumption | exfalso ].
    rewrite restval_other in H by assumption.
    apply dict_of_zip_no_None in H. discriminate.
  - apply restval_in.
Qed.

(** A name that is not in the header is not a key of any row. *)
Lemma DictReader_row_absent (fieldnames row : list string) (k : string) :
  ~ In k fieldnames -> dict_get (DictReader_row fieldnames row) k = Raise KeyError.
Proof.
  intros Hk. unfold DictReader_row. rewrite restval_other.
  - now rewrite dict_of_zip_other.
  - intros Hin. apply Hk. apply In_skipn_nth_error in Hin.
    destruct Hin as (j & _ & Hj). eapply nth_error_In; eauto.
Qed.

(** ** load_cpu_data on the records of a file *)

Section LoaderRecords.
Variable float_of_string : string -> option float64.

Lemma load_rows_raises (rows : list (dict cell)) (acc : list float64) (e : exn) :
  load_rows float_of_string rows acc = Raise e ->
  e = TypeError /\
  exists row, In row rows /\ dict_get row "cpu_percent" = Ok PyNone.
Proof.
  revert acc. induction rows as [|row rest IH]; intros acc H; cbn [load_rows] in H.
  - discriminate.
  - destruct (dict_get row "cpu_percent") as [[s|]|e0] eqn:E; cbn [bind py_float] in H.
    + destruct (float_of_string s);
        (destruct (IH _ H) as (He & r & Hr & Hnone); split; [ exact He | ];
         exists r; split; [ now right | exact Hnone ]).
    + injection H as <-. split; [ reflexivity | ]. exists row. split; [ now left | exact E ].
    + apply dict_get_raises in E. subst e0.
      destruct (IH _ H) as (He & r & Hr & Hnone). split; [ exact He | ].
      exists r. split; [ now right | exact Hnone ].
Qed.

Lemma load_rows_None (rows : list (dict cell)) (acc : list float64) (row : dict cell) :
  In row rows -> dict_get row "cpu_percent" = Ok PyNone ->
  load_rows float_of_string rows acc = Raise TypeError.
Proof.
  intros Hin Hnone. revert acc.
  induction rows as [|row0 rest IH]; intros acc; [ destruct Hin | ].
  cbn [load_rows].
  destruct (dict_get row0 "cpu_percent") as [[s|]|e0] eqn:E; cbn [bind py_float].
  - assert (Hrest : In row rest) by (destruct Hin as [<- | Hin]; [ congruence | exact Hin ]).
    destruct (float_of_string s); now apply IH.
  - reflexivity.
  - assert (Hrest : In row rest) by (destruct Hin as [<- | Hin]; [ congruence | exact Hin ]).
    apply dict_get_raises in E. subst e0. now apply IH.
Qed.

Lemma cpu_values_column (fieldnames : list string) (records : list (list string))
    (j : nat) :
  NoDup fieldnames -> nth_error fieldnames j = Some "cpu_percent"%string ->
  (forall r, In r records -> r <> [] -> (j < List.length r)%nat) ->
  cpu_values float_of_string (DictReader (fieldnames :: records))
    = column_values float_of_string j records.
Proof.
  intros Hnd Hj Hlong. cbn [DictReader].
  induction records as [|r rest IH]; [ reflexivity | ].
  assert (IH' : cpu_values float_of_string
                  (map (DictReader_row fieldnames)
                     (filter (fun r => match r with [] => false | _ => true end) rest))
                = column_values float_of_string j rest)
    by (apply IH; intros r' Hr'; apply Hlong; now right).
  destruct r as [|f fs].
  - cbn [filter]. rewrite IH'. unfold column_values. cbn [flat_map nth_error].
    destruct j; reflexivity.
  - cbn [filter map]. unfold cpu_values, column_values in *. cbn [flat_map].
    rewrite IH'. f_equal.
    assert (Hlen : (j < List.length (f :: fs))%nat)
      by (apply Hlong; [ now left | discriminate ]).
    destruct (nth_error (f :: fs) j) as [v|] eqn:Ev;
      [ | apply nth_error_None in Ev; lia ].
    unfold cpu_value. now rewrite (DictReader_row_field fieldnames (f :: fs) j _ v).
Qed.

(** X1.  For a file whose header names its columns once, with
    [cpu_percent] as column [j], and whose records (empty lines apart) all
    reach that column, the loader returns the fields of the column that
    parse as floats, in record order.  Fields of other columns, unparseable
    fields and empty lines leave no trace. *)
Theorem load_cpu_data_column (fs : filesystem) (filename : string)
    (fieldnames : list string) (records : list (list string)) (j : nat) :
  fs filename = Some (fieldnames :: records) ->
  NoDup fieldnames ->
  nth_error fieldnames j = Some "cpu_percent"%string ->
  (forall r, In r records -> r <> [] -> (j < List.length r)%nat) ->
  load_cpu_data float_of_string fs filename
    = Ok (column_values float_of_string j records).
Proof.
  intros Hfs Hnd Hj Hlong.
  rewrite (load_cpu_data_values float_of_string fs filename _ Hfs).
  - now rewrite (cpu_values_column fieldnames records j).
  - intros row Hrow Hnone. cbn [DictReader] in Hrow.
    apply in_map_iff in Hrow. destruct Hrow as (r & <- & Hr).
    apply filter_In in Hr. destruct Hr as [Hr Hne].
    apply DictReader_row_None in Hnone. destruct Hnone as (i & Hi & Hki).
    assert (i = j) as -> by (eapply NoDup_nth_error_eq; eauto).
    assert (j < List.length r)%nat; [ | lia ].
    apply Hlong; [ exact Hr | ]. intros ->. discriminate.
Qed.

(** X2.  One record that is not empty and ends before a column named
    [cpu_percent] makes the whole load fail with [TypeError], whatever the
    other records hold and wherever the record stands. *)
Theorem load_cpu_data_short_record (fs : filesystem) (filename : string)
    (fieldnames : list string) (records : list (list string)) (j : nat)
    (r : list string) :
  fs filename = Some (fieldnames :: records) ->
  nth_error fieldnames j = Some "cpu_percent"%string ->
  In r records -> r <> [] -> (List.length r <= j)%nat ->
  load_cpu_data float_of_string fs filename = Raise TypeError.
Proof.
  intros Hfs Hj Hr Hne Hshort. unfold load_cpu_data. rewrite Hfs.
  apply load_rows_None with (row := DictReader_row fieldnames r).
  - cbn [DictReader]. apply in_map. apply filter_In. split; [ exact Hr | ].
    destruct r; [ congruence | reflexivity ].
  - apply DictReader_row_None. eauto.
Qed.

(** X3.  The loop over the rows fails on short records only: on the rows
    [csv.DictReader] builds from the records the reader delivers, it raises
    an exception exactly when a record that is not empty ends before a
    column named [cpu_percent], and the exception is [TypeError].  A field
    that does not parse, a column that is missing and an empty line never
    make it fail.  (What [open] and the reader themselves may raise is not
    part of this statement.) *)
Theorem row_loop_fails_on_short_records_only (fieldnames : list string)
    (records : list (list string)) (acc : list float64) (e : exn) :
  load_rows float_of_string (DictReader (fieldnames :: records)) acc = Raise e <->
  e = TypeError /\
  exists r j,
    In r records /\ r <> [] /\
    nth_error fieldnames j = Some "cpu_percent"%string /\
    (List.length r <= j)%nat.
Proof.
  split.
  - intros H. apply load_rows_raises in H.
    destruct H as (-> & row & Hrow & Hnone). split; [ reflexivity | ].
    cbn [DictReader] in Hrow. apply in_map_iff in Hrow.
    destruct Hrow as (r & <- & Hr). apply filter_In in Hr. destruct Hr as [Hr Hne].
    apply DictReader_row_None in Hnone. destruct Hnone as (j & Hshort & Hj).
    exists r, j. repeat split; auto.
    intros ->. discriminate.
  - intros (-> & r & j & Hr & Hne & Hj & Hshort).
    apply load_rows_None with (row := DictReader_row fieldnames r).
    + cbn [DictReader]. apply in_map. apply filter_In. split; [ exact Hr | ].
      destruct r; [ congruence | reflexivity ].
    + apply DictReader_row_None. eauto.
Qed.

(** X4.  A file whose header has no [cpu_percent] column loads as no data
    at all, without an error, whatever its records; [main] then prints the
    no-data notice for the entry and keeps what it has loaded so far. *)
Theorem load_cpu_data_no_column (fs : filesystem) (filename label : string)
    (fieldnames : list string) (records : list (list string)) (st : main_state) :
  fs filename = Some (fieldnames :: records) ->
  ~ In "cpu_percent"%string fieldnames ->
  load_cpu_data float_of_string fs filename = Ok [] /\
  main_entry float_of_string fs st filename label
    = (print st ("✗ No data in: " ++ label)%string, None).
Proof.
  intros Hfs Hcol.
  assert (Hload : load_cpu_data float_of_string fs filename = Ok []).
  { rewrite (load_cpu_data_values float_of_string fs filename _ Hfs).
    - f_equal. cbn [DictReader].
      induction (filter (fun r => match r with [] => false | _ => true end) records)
        as [|r rest IH]; [ reflexivity | ].
      cbn [map]. unfold cpu_values in *. cbn [flat_map]. rewrite IH.
      unfold cpu_value. now rewrite DictReader_row_absent.
    - intros row Hrow. cbn [DictReader] in Hrow. apply in_map_iff in Hrow.
      destruct Hrow as (r & <- & _). now rewrite DictReader_row_absent. }
  split; [ exact Hload | ]. unfold main_entry. now rewrite Hload.
Qed.

End LoaderRecords.

Lemma load_cpu_data_column_witness :
  let float_of_string := fun s => if String.eqb s "12.5" then Some (lit 12.5) else None in
  load_cpu_data float_of_string
    (fun _ => Some [["timestamp"; "cpu_percent"]; ["1"; "12.5"]; []; ["2"; "bad"];
                    ["3"; "12.5"; "more"]]%string)
    "a.csv" = Ok [lit 12.5; lit 12.5].
Proof.
  intros float_of_string.
  apply (load_cpu_data_column float_of_string _ "a.csv"
           ["timestamp"; "cpu_percent"]%string
           [["1"; "12.5"]; []; ["2"; "bad"]; ["3"; "12.5"; "more"]]%string 1).
  - reflexivity.
  - repeat constructor; cbn; intuition discriminate.
  - reflexivity.
  - intros r [<- | [<- | [<- | [<- | []]]]] Hne; cbn; try lia. congruence.
Defined.

Lemma load_cpu_data_short_record_witness :
  load_cpu_data (fun _ => Some zero)
    (fun _ => Some [["timestamp"; "cpu_percent"]; ["1"; "12.5"]; ["2"]]%string)
    "a.csv" = Raise TypeError.
Proof.
  apply (load_cpu_data_short_record (fun _ => Some zero) _ "a.csv"
           ["timestamp"; "cpu_percent"]%string [["1"; "12.5"]; ["2"]]%string 1
           ["2"]%string).
  - reflexivity.
  - reflexivity.
  - right. now left.
  - discriminate.
  - cbn. lia.
Defined.

Lemma load_cpu_data_no_column_witness :
  let fs : filesystem := fun _ => Some [["timestamp"; "cpu"]; ["1"; "12.5"]]%string in
  let st := mkState [] [] [] [] in
  load_cpu_data (fun _ => Some zero) fs "a.csv" = Ok [] /\
  main_entry (fun _ => Some zero) fs st "a.csv" "A"
    = (print st "✗ No data in: A"%string, None).
Proof.
  intros fs st.
  apply (load_cpu_data_no_column (fun _ => Some zero) fs "a.csv" "A"
           ["timestamp"; "cpu"]%string [["1"; "12.5"]]%string st).
  - reflexivity.
  - cbn. intuition discriminate.
Defined.

(** ** What the functions can raise *)

Lemma py_index_raises {A} (l : list A) (i : Z) (e : exn) :
  py_index l i = Raise e -> e = IndexError.
Proof.
  unfold py_index. destruct (_ && _); [ | congruence ].
  destruct (nth_error l _); congruence.
Qed.

Lemma to_int_raises (x : float64) (e : exn) :
  to_int x = Raise e -> e = ValueError \/ e = OverflowError.
Proof. destruct x; cbn; intros [= <-]; auto. Qed.

Lemma truediv_raises (x y : float64) (e : exn) :
  truediv x y = Raise e -> e = ZeroDivisionError.
Proof. unfold truediv. destruct (eqb y zero); congruence. Qed.

Lemma calculate_stats_raises (data : list float64) (e : exn) :
  calculate_stats data = Raise e ->
  e = IndexError \/ e = ZeroDivisionError \/ e = ValueError \/ e = OverflowError.
Proof.
  destruct data as [|x t]; [ discriminate | ].
  rewrite calculate_stats_nonempty by discriminate. cbv zeta.
  generalize (py_sorted ltb (x :: t)). intros s.
  unfold pct_index.
  repeat match goal with
    | |- bind ?r _ = Raise _ -> _ =>
        let E := fresh "E" in destruct r eqn:E; cbn [bind]
    end; try discriminate; intros [= <-];
    repeat match goal with
      | H : (if ?c then _ else _) = Raise _ |- _ => destruct c
      | H : bind ?r _ = Raise _ |- _ =>
          let E := fresh "E" in destruct r eqn:E; cbn [bind] in H
      | H : Raise _ = Raise _ |- _ => injection H as <-
      | H : Ok _ = Raise _ |- _ => discriminate H
      | H : py_index _ _ = Raise _ |- _ => apply py_index_raises in H
      | H : truediv _ _ = Raise _ |- _ => apply truediv_raises in H
      | H : to_int _ = Raise _ |- _ => apply to_int_raises in H
      end; tauto.
Qed.

(** The dictionary of a dataset that is not empty has the six keys. *)
Lemma calculate_stats_keys (data : list float64) (stats : dict float64) :
  data <> [] -> calculate_stats data = Ok stats -> has_keys stat_keys stats.
Proof.
  intros Hne. rewrite calculate_stats_nonempty by assumption. cbv zeta.
  repeat match goal with
    | |- bind ?r _ = Ok _ -> _ =>
        let E := fresh "E" in destruct r eqn:E; cbn [bind]
    end; try discriminate.
  intros [= <-] k Hk. unfold stat_keys in Hk. cbn [In] in Hk.
  repeat (destruct Hk as [<- | Hk]; [ eexists; reflexivity | ]).
  destruct Hk.
Qed.

(** ** The loop of main *)

Section MainLoop.
Variable float_of_string : string -> option float64.

Lemma load_cpu_data_missing (fs : filesystem) (filename : string) :
  load_cpu_data float_of_string fs filename = Raise FileNotFoundError <->
  fs filename = None.
Proof.
  unfold load_cpu_data. destruct (fs filename) as [f|]; split; try congruence; auto.
  intros H. apply load_rows_raises in H. destruct H as [H _]. discriminate.
Qed.

Lemma skip_notice_missing (fs : filesystem) (filename label : string) :
  load_cpu_data float_of_string fs filename = Raise FileNotFoundError ->
  skip_notice fs (filename, label) = ("✗ File not found: " ++ filename)%string.
Proof.
  intros H. apply load_cpu_data_missing in H. unfold skip_notice. cbn [fst]. now rewrite H.
Qed.

Lemma skip_notice_empty (fs : filesystem) (filename label : string) :
  load_cpu_data float_of_string fs filename = Ok [] ->
  skip_notice fs (filename, label) = ("✗ No data in: " ++ label)%string.
Proof.
  unfold load_cpu_data, skip_notice. cbn [fst snd].
  destruct (fs filename); [ reflexivity | discriminate ].
Qed.

(** One pass of the loop body that raises nothing: the entry is skipped
    with its notice, or its samples, label and statistics are appended. *)
Lemma main_entry_None (fs : filesystem) (st st' : main_state) (filename label : string) :
  main_entry float_of_string fs st filename label = (st', None) ->
  (loaded float_of_string fs [(filename, label)] = [] /\
   (load_cpu_data float_of_string fs filename = Raise FileNotFoundError \/
    load_cpu_data float_of_string fs filename = Ok []) /\
   st' = print st (skip_notice fs (filename, label))) \/
  (exists data stats,
     loaded float_of_string fs [(filename, label)] = [(label, data)] /\
     load_cpu_data float_of_string fs filename = Ok data /\
     data <> [] /\ calculate_stats data = Ok stats /\
     st' = mkState (st_datasets st ++ [data]) (st_labels st ++ [label])
             (st_stats_list st ++ [stats])
             (st_printed st
                ++ [("✓ Loaded " ++ str_of_Z (Z.of_nat (List.length data))
                       ++ " samples from: " ++ label)%string])).
Proof.
  unfold main_entry, loaded. cbn [flat_map fst snd].
  destruct (load_cpu_data float_of_string fs filename) as [[|x t]|e] eqn:Hload.
  - intros [= <-]. left. rewrite (skip_notice_empty fs filename label Hload). auto.
  - destruct (calculate_stats (x :: t)) as [stats|e] eqn:Hstats.
    + intros [= <-]. right. exists (x :: t), stats.
      repeat split; auto. discriminate.
    + apply calculate_stats_raises in Hstats.
      destruct Hstats as [-> | [-> | [-> | ->]]]; discriminate.
  - destruct e; try discriminate.
    intros [= <-]. left. rewrite (skip_notice_missing fs filename label Hload). auto.
Qed.

Lemma loaded_cons (fs : filesystem) (e : string * string)
    (rest : list (string * string)) :
  loaded float_of_string fs (e :: rest)
    = (loaded float_of_string fs [e] ++ loaded float_of_string fs rest)%list.
Proof. unfold loaded. cbn [flat_map]. now rewrite app_nil_r. Qed.

(** The loop, when it raises nothing. *)
Lemma main_loop_None (fs : filesystem) (entries : list (string * string))
    (st st' : main_state) :
  main_loop float_of_string fs entries st = (st', None) ->
  st_datasets st' = (st_datasets st ++ map snd (loaded float_of_string fs entries))%list /\
  st_labels st' = (st_labels st ++ map fst (loaded float_of_string fs entries))%list /\
  (exists new,
     st_stats_list st' = (st_stats_list st ++ new)%list /\
     Forall2 (fun data stats => data <> [] /\ calculate_stats data = Ok stats)
       (map snd (loaded float_of_string fs entries)) new) /\
  List.length (st_printed st') = (List.length (st_printed st) + List.length entries)%nat.
Proof.
  revert st. induction entries as [|[filename label] rest IH]; intros st H.
  - cbn in H. injection H as <-. cbn. rewrite !app_nil_r.
    repeat split; auto. exists []. rewrite app_nil_r. split; [ reflexivity | constructor ].
  - cbn [main_loop] in H.
    destruct (main_entry float_of_string fs st filename label) as [st1 [e|]] eqn:Hentry;
      [ discriminate | ].
    destruct (IH _ H) as (Hd & Hl & (new & Hs & Hnew) & Hp).
    rewrite (loaded_cons fs (filename, label) rest).
    apply main_entry_None in Hentry.
    destruct Hentry as [(-> & _ & ->) | (data & stats & -> & _ & Hne & Hstats & ->)].
    + cbn [app]. cbn [print st_datasets st_labels st_stats_list st_printed] in *.
      repeat split; auto.
      * exists new. auto.
      * rewrite Hp, length_app. cbn [List.length]. lia.
    + cbn [app map fst snd]. cbn [st_datasets st_labels st_stats_list st_printed] in *.
      rewrite <- !app_assoc in *. cbn [app] in *.
      repeat split; auto.
      * exists (stats :: new). split; [ assumption | ]. constructor; auto.
      * rewrite Hp, length_app. cbn [List.length]. lia.
Qed.

Lemma main_loop_skips (fs : filesystem) (entries : list (string * string))
    (st : main_state) :
  (forall e, In e entries ->
     load_cpu_data float_of_string fs (fst e) = Raise FileNotFoundError \/
     load_cpu_data float_of_string fs (fst e) = Ok []) ->
  main_loop float_of_string fs entries st
    = (mkState (st_datasets st) (st_labels st) (st_stats_list st)
         (st_printed st ++ map (skip_notice fs) entries), None).
Proof.
  revert st. induction entries as [|[filename label] rest IH]; intros st Hall.
  - cbn. rewrite app_nil_r. now destruct st.
  - cbn [main_loop].
    assert (Hentry : main_entry float_of_string fs st filename label
                     = (print st (skip_notice fs (filename, label)), None)).
    { unfold main_entry.
      destruct (Hall (filename, label) (or_introl eq_refl)) as [H | H]; cbn [fst] in H.
      - rewrite H. now rewrite (skip_notice_missing fs filename label H).
      - rewrite H. now rewrite (skip_notice_empty fs filename label H). }
    rewrite Hentry. rewrite IH by (intros e He; apply Hall; now right).
    cbn [print st_datasets st_labels st_stats_list st_printed map].
    now rewrite <- app_assoc.
Qed.

Lemma loaded_nil (fs : filesystem) (entries : list (string * string)) :
  loaded float_of_string fs entries = [] ->
  forall e, In e entries ->
    match load_cpu_data float_of_string fs (fst e) with
    | Ok (_ :: _) => False
    | _ => True
    end.
Proof.
  induction entries as [|e0 rest IH]; intros Hnil e He; [ destruct He | ].
  unfold loaded in Hnil. cbn [flat_map] in Hnil. apply app_eq_nil in Hnil.
  destruct Hnil as [H0 Hrest]. destruct He as [<- | He].
  - destruct (load_cpu_data float_of_string fs (fst e0)) as [[|x t]|err]; auto.
    discriminate.
  - now apply IH.
Qed.

Lemma main_loop_inv (fs : filesystem) (entries : list (string * string))
    (st st' : main_state) :
  main_inv st -> main_loop float_of_string fs entries st = (st', None) -> main_inv st'.
Proof.
  intros [Hlen Hstats] H.
  destruct (main_loop_None fs entries st st' H) as (Hd & Hl & (new & Hs & Hnew) & _).
  split.
  - rewrite Hd, Hl, !length_app, !length_map. lia.
  - rewrite Hd, Hs. now apply Forall2_app.
Qed.

Lemma main_start_inv : main_inv main_start.
Proof. split; [ reflexivity | constructor ]. Qed.

(** X5.  When the loop of [main] ends without an exception, its lists
    are these: the datasets are the loads that are not empty, in the order
    of the entries, after those held before; the labels are the labels of
    the same entries; the three lists stay aligned, no dataset is empty and
    the statistics at each position are those of the dataset there; and one
    line was printed per entry. *)
Theorem main_loop_lists (fs : filesystem) (entries : list (string * string))
    (st st' : main_state) :
  main_inv st ->
  main_loop float_of_string fs entries st = (st', None) ->
  st_datasets st' = (st_datasets st ++ map snd (loaded float_of_string fs entries))%list /\
  st_labels st' = (st_labels st ++ map fst (loaded float_of_string fs entries))%list /\
  main_inv st' /\
  List.length (st_printed st') = (List.length (st_printed st) + List.length entries)%nat.
Proof.
  intros Hinv H.
  destruct (main_loop_None fs entries st st' H) as (Hd & Hl & _ & Hp).
  repeat split; auto; now apply (main_loop_inv fs entries st st').
Qed.

(** X6.  When every entry is a missing file or a file without samples,
    [main] prints the opening line, the notice of each entry in order and
    the error line, and returns 1. *)
Theorem main_without_data (fs : filesystem) (entries : list (string * string)) :
  (forall e, In e entries ->
     load_cpu_data float_of_string fs (fst e) = Raise FileNotFoundError \/
     load_cpu_data float_of_string fs (fst e) = Ok []) ->
  forall format_float,
  main_with float_of_string format_float fs entries
    = ([("Loading CPU data from test runs..." ++ nl)%string]
         ++ map (skip_notice fs) entries
         ++ [(nl ++ "Error: No data loaded!")%string], Ok 1).
Proof.
  intros Hall format_float. unfold main_with.
  rewrite main_loop_skips by assumption.
  cbn [st_datasets st_printed]. now rewrite <- app_assoc.
Qed.

(** X7.  [main] returns 1 in no other case: a status is 0 or 1, it is 1 only
    if no entry gave a sample, and 0 only if one did. *)
Theorem main_exit_status (fs : filesystem) (entries : list (string * string))
    (format_float : string -> float64 -> string) (out : list string) (status : Z) :
  main_with float_of_string format_float fs entries = (out, Ok status) ->
  (status = 1 /\
   forall e, In e entries ->
     load_cpu_data float_of_string fs (fst e) = Raise FileNotFoundError \/
     load_cpu_data float_of_string fs (fst e) = Ok []) \/
  (status = 0 /\ loaded float_of_string fs entries <> []).
Proof.
  unfold main_with.
  destruct (main_loop float_of_string fs entries _) as [st [e|]] eqn:Hloop;
    [ discriminate | ].
  destruct (main_loop_None fs entries _ st Hloop) as (Hd & _).
  cbn [st_datasets app] in Hd.
  destruct (st_datasets st) as [|d ds] eqn:Hds.
  - intros [= <- <-]. left. split; [ reflexivity | ].
    intros e He.
    assert (Hnil : loaded float_of_string fs entries = [])
      by (destruct (loaded float_of_string fs entries); [ reflexivity | discriminate ]).
    pose proof (loaded_nil fs entries Hnil e He) as Hl.
    destruct (load_cpu_data float_of_string fs (fst e)) as [[|x t]|err] eqn:Hload;
      [ now right | destruct Hl | ].
    left. f_equal.
    (* the loop ended without an exception, so no load raised another one *)
    clear -Hloop He Hload. revert Hloop. generalize (mkState [] [] []
      [("Loading CPU data from test runs..." ++ nl)%string]).
    induction entries as [|[f l] rest IH]; intros st0 Hloop; [ destruct He | ].
    cbn [main_loop] in Hloop.
    destruct (main_entry float_of_string fs st0 f l) as [st1 [e1|]] eqn:Hentry;
      [ discriminate | ].
    destruct He as [<- | He]; [ | eapply IH; eauto ].
    cbn [fst] in Hload. unfold main_entry in Hentry. rewrite Hload in Hentry.
    destruct err; try discriminate. reflexivity.
  - intros H. right. split.
    + destruct (generate_ascii_chart format_float (d :: ds) (st_labels st) 80 20);
        [ | discriminate ].
      destruct (generate_statistics_table format_float (st_stats_list st) (st_labels st));
        [ | discriminate ].
      destruct (generate_comparison_insights format_float (st_stats_list st) (st_labels st));
        [ | discriminate ].
      now injection H.
    + intros Hnil. rewrite Hnil in Hd. discriminate.
Qed.

End MainLoop.

(** ** The table and the insights *)

Section Reports.
Variable format_float : string -> float64 -> string.

Lemma table_rows_total (rows : list (string * dict float64)) :
  Forall (fun e => has_keys stat_keys (snd e)) rows ->
  exists lines, table_rows format_float rows = Ok lines.
Proof.
  induction rows as [|[label stats] rest IH]; intros Hall.
  - exists []. reflexivity.
  - inversion Hall as [|? ? Hk Hrest]; subst. cbn [snd] in Hk.
    destruct (IH Hrest) as (tl & Htl). cbn [table_rows].
    destruct (Hk "min"%string) as (v1 & ->); [ cbn; tauto | ].
    destruct (Hk "mean"%string) as (v2 & ->); [ cbn; tauto | ].
    destruct (Hk "median"%string) as (v3 & ->); [ cbn; tauto | ].
    destruct (Hk "p95"%string) as (v4 & ->); [ cbn; tauto | ].
    destruct (Hk "p99"%string) as (v5 & ->); [ cbn; tauto | ].
    destruct (Hk "max"%string) as (v6 & ->); [ cbn; tauto | ].
    rewrite Htl. cbn [bind]. eexists. reflexivity.
Qed.

Lemma table_rows_Ok (rows : list (string * dict float64)) (lines : list string) :
  table_rows format_float rows = Ok lines ->
  Forall (fun e => has_keys stat_keys (snd e)) rows /\
  List.length lines = List.length rows.
Proof.
  revert lines. induction rows as [|[label stats] rest IH]; intros lines H.
  - injection H as <-. split; [ constructor | reflexivity ].
  - cbn [table_rows] in H.
    destruct (dict_get stats "min") as [v1|] eqn:E1; cbn [bind] in H; [ | discriminate ].
    destruct (dict_get stats "mean") as [v2|] eqn:E2; cbn [bind] in H; [ | discriminate ].
    destruct (dict_get stats "median") as [v3|] eqn:E3; cbn [bind] in H; [ | discriminate ].
    destruct (dict_get stats "p95") as [v4|] eqn:E4; cbn [bind] in H; [ | discriminate ].
    destruct (dict_get stats "p99") as [v5|] eqn:E5; cbn [bind] in H; [ | discriminate ].
    destruct (dict_get stats "max") as [v6|] eqn:E6; cbn [bind] in H; [ | discriminate ].
    destruct (table_rows format_float rest) as [tl|] eqn:Etl; cbn [bind] in H;
      [ | discriminate ].
    injection H as <-. destruct (IH tl eq_refl) as [Hrest Hlen]. split.
    + constructor; [ | assumption ]. intros k Hk. cbn [snd].
      unfold stat_keys in Hk. cbn [In] in Hk.
      repeat (destruct Hk as [<- | Hk]; [ eauto | ]). destruct Hk.
    + cbn [List.length]. now rewrite Hlen.
Qed.

Lemma table_rows_raises (rows : list (string * dict float64)) (e : exn) :
  table_rows format_float rows = Raise e -> e = KeyError.
Proof.
  induction rows as [|[label stats] rest IH]; cbn [table_rows]; [ discriminate | ].
  repeat match goal with
    | |- bind (dict_get ?d ?k) _ = Raise _ -> _ =>
        let E := fresh "E" in
        destruct (dict_get d k) eqn:E; cbn [bind];
        [ | intros [= <-]; now apply dict_get_raises in E ]
    end.
  destruct (table_rows format_float rest); cbn [bind]; [ discriminate | ].
  intros [= <-]. now apply IH.
Qed.

(** X8.  The table is rendered exactly when each statistics dictionary
    that is paired with a label has the six keys; the only failure is
    [KeyError]; and there is one row per pair, so that labels or
    dictionaries in excess of the other list are left out silently. *)
Theorem statistics_table_renders (stats_list : list (dict float64))
    (labels : list string) :
  ((exists table, generate_statistics_table format_float stats_list labels = Ok table)
   <-> Forall (fun e => has_keys stat_keys (snd e)) (combine labels stats_list)) /\
  (forall e, generate_statistics_table format_float stats_list labels = Raise e ->
             e = KeyError) /\
  (forall rows, table_rows format_float (combine labels stats_list) = Ok rows ->
     List.length rows = Nat.min (List.length labels) (List.length stats_list)).
Proof.
  unfold generate_statistics_table. repeat split.
  - intros (table & H).
    destruct (table_rows format_float (combine labels stats_list)) as [rows|] eqn:E;
      [ | discriminate ].
    now apply table_rows_Ok in E.
  - intros Hall. destruct (table_rows_total _ Hall) as (rows & ->).
    cbn [bind]. eexists. reflexivity.
  - intros e H.
    destruct (table_rows format_float (combine labels stats_list)) as [rows|e'] eqn:E;
      cbn [bind] in H; [ discriminate | ].
    injection H as <-. now apply table_rows_raises in E.
  - intros rows H. apply table_rows_Ok in H. destruct H as [_ ->].
    apply length_combine.
Qed.

Lemma with_keys_total {A} (key : A -> result float64) (l : list A) :
  Forall (fun a => exists k, key a = Ok k) l ->
  exists keyed, with_keys key l = Ok keyed /\ map snd keyed = l.
Proof.
  induction l as [|a t IH]; intros Hl.
  - exists []. split; reflexivity.
  - inversion Hl as [|? ? (k & Hk) Ht]; subst.
    destruct (IH Ht) as (kt & Hkt & Hmap).
    exists ((k, a) :: kt). cbn [with_keys]. rewrite Hk, Hkt. cbn.
    split; [ reflexivity | now rewrite Hmap ].
Qed.

Lemma with_keys_Ok {A} (key : A -> result float64) (l : list A)
    (keyed : list (float64 * A)) :
  with_keys key l = Ok keyed ->
  map snd keyed = l /\ Forall (fun a => exists k, key a = Ok k) l.
Proof.
  revert keyed. induction l as [|a t IH]; intros keyed H; cbn [with_keys] in H.
  - injection H as <-. split; [ reflexivity | constructor ].
  - destruct (key a) as [k|] eqn:Hk; cbn [bind] in H; [ | discriminate ].
    destruct (with_keys key t) as [kt|]; cbn [bind] in H; [ | discriminate ].
    injection H as <-. destruct (IH kt eq_refl) as [Hmap Hall].
    split; [ cbn; now rewrite Hmap | constructor; eauto ].
Qed.

Lemma with_keys_raises {A} (key : A -> result float64) (l : list A) (e : exn) :
  with_keys key l = Raise e -> exists a, In a l /\ key a = Raise e.
Proof.
  induction l as [|a t IH]; cbn [with_keys]; [ discriminate | ].
  destruct (key a) as [k|e'] eqn:Hk; cbn [bind].
  - destruct (with_keys key t) as [kt|e']; cbn [bind]; [ discriminate | ].
    intros [= <-]. destruct (IH eq_refl) as (a' & Ha' & Hka'). exists a'. split; auto.
    now right.
  - intros [= <-]. exists a. split; auto. now left.
Qed.

Lemma sorted_by_Ok {A} (key : A -> result float64) (l sorted : list A) :
  sorted_by key l = Ok sorted -> Forall (fun a => exists k, key a = Ok k) l.
Proof.
  unfold sorted_by. destruct (with_keys key l) as [keyed|] eqn:E; [ | discriminate ].
  intros _. now apply with_keys_Ok in E.
Qed.

Lemma sorted_by_raises {A} (key : A -> result float64) (l : list A) (e : exn) :
  sorted_by key l = Raise e -> exists a, In a l /\ key a = Raise e.
Proof.
  unfold sorted_by. destruct (with_keys key l) as [keyed|e'] eqn:E; [ discriminate | ].
  intros [= <-]. now apply with_keys_raises.
Qed.

(** The sort of a list that is not empty has a first and a last element,
    both elements of the list. *)
Lemma sorted_by_ends {A} (key : A -> result float64) (l : list A) :
  l <> [] -> Forall (fun a => exists k, key a = Ok k) l ->
  exists sorted lo hi,
    sorted_by key l = Ok sorted /\
    py_index sorted 0 = Ok lo /\ py_index sorted (-1) = Ok hi /\
    In lo l /\ In hi l.
Proof.
  intros Hne Hall. destruct (with_keys_total key l Hall) as (keyed & Hkeyed & Hmap).
  unfold sorted_by. rewrite Hkeyed. cbn [bind].
  set (lt := fun p q : float64 * A => ltb (fst p) (fst q)).
  set (sorted := map snd (py_sorted lt keyed)).
  assert (Hlen : List.length sorted = List.length l).
  { unfold sorted. rewrite length_map, py_sorted_length, <- Hmap. now rewrite length_map. }
  assert (Hin : forall a, In a sorted -> In a l).
  { intros a Ha. unfold sorted in Ha. apply in_map_iff in Ha.
    destruct Ha as (p & <- & Hp). apply py_sorted_In in Hp.
    rewrite <- Hmap. now apply in_map. }
  assert (Hlen0 : (0 < List.length l)%nat) by (destruct l; [ congruence | cbn; lia ]).
  destruct (py_index_nth sorted 0 ltac:(lia)) as (lo & Hlo & _).
  destruct (py_index_last sorted) as (hi & Hhi & _).
  { intros E. rewrite E in Hlen. cbn in Hlen. lia. }
  exists sorted, lo, hi. repeat split; auto.
  - apply Hin. eapply py_index_In; eauto.
  - apply Hin. eapply py_index_In; eauto.
Qed.

Lemma headroom_lines_total (entries : list entry) :
  Forall (fun e => exists m, mean_of e = Ok m) entries ->
  exists eff, headroom_lines format_float entries = Ok eff.
Proof.
  intros Hall. destruct (headroom_lines_ok format_float entries Hall) as (eff & H & _).
  eauto.
Qed.

Lemma insight_lines_total (stats_list : list (dict float64)) (labels : list string) :
  combine labels stats_list <> [] ->
  Forall (fun e : entry => has_keys ["mean"; "max"]%string (snd e))
    (combine labels stats_list) ->
  exists lines, insight_lines format_float stats_list labels = Ok lines.
Proof.
  intros Hne Hall. unfold insight_lines.
  assert (Hmean : Forall (fun e : entry => exists k, mean_of e = Ok k)
                    (combine labels stats_list)).
  { eapply Forall_impl; [ | exact Hall ]. intros e Hk. apply Hk. cbn. tauto. }
  assert (Hpeak : Forall (fun e : entry => exists k, peak_of e = Ok k)
                    (combine labels stats_list)).
  { eapply Forall_impl; [ | exact Hall ]. intros e Hk. apply Hk. cbn. tauto. }
  destruct (sorted_by_ends mean_of _ Hne Hmean)
    as (by_mean & lo_mean & hi_mean & Hbm & Hlm & Hhm & Ilm & Ihm).
  destruct (sorted_by_ends peak_of _ Hne Hpeak)
    as (by_peak & lo_peak & hi_peak & Hbp & Hlp & Hhp & Ilp & Ihp).
  unfold mean_of in Hbm. unfold peak_of in Hbp.
  rewrite Forall_forall in Hmean, Hpeak.
  destruct (Hmean _ Ilm) as (m1 & Hm1). destruct (Hmean _ Ihm) as (m2 & Hm2).
  destruct (Hpeak _ Ilp) as (p1 & Hp1). destruct (Hpeak _ Ihp) as (p2 & Hp2).
  unfold mean_of in Hm1, Hm2. unfold peak_of in Hp1, Hp2.
  destruct (headroom_lines_total (combine labels stats_list)) as (eff & Heff).
  { apply Forall_forall. exact Hmean. }
  match goal with
  | |- exists _, bind ?r _ = _ => replace r with (Ok by_mean) by (symmetry; exact Hbm)
  end.
  cbn [bind].
  match goal with
  | |- exists _, bind ?r _ = _ => replace r with (Ok by_peak) by (symmetry; exact Hbp)
  end.
  cbn [bind]. rewrite Hlm. cbn [bind]. unfold extremum_line. rewrite Hm1. cbn [bind].
  rewrite Hhm. cbn [bind]. rewrite Hm2. cbn [bind].
  rewrite Hlp. cbn [bind]. rewrite Hp1. cbn [bind].
  rewrite Hhp. cbn [bind]. rewrite Hp2. cbn [bind].
  rewrite Heff. cbn [bind]. eexists. reflexivity.
Qed.

Lemma mean_and_max_keys (entries by_mean by_peak : list entry) :
  sorted_by (fun x : entry => dict_get (snd x) "mean") entries = Ok by_mean ->
  sorted_by (fun x : entry => dict_get (snd x) "max") entries = Ok by_peak ->
  Forall (fun e : entry => has_keys ["mean"; "max"]%string (snd e)) entries.
Proof.
  intros Ekm Ekp. apply sorted_by_Ok in Ekm, Ekp.
  rewrite Forall_forall in *. intros e He k Hk. cbn [In] in Hk.
  destruct Hk as [<- | [<- | []]]; [ now apply Ekm | now apply Ekp ].
Qed.

(** X9.  The insights are rendered exactly when there is at least one
    labelled dictionary and each has the keys [mean] and [max].  With
    nothing to compare the generator fails with [IndexError], where the
    table still renders; with something to compare its only failure is
    [KeyError]. *)
Theorem insights_render (stats_list : list (dict float64)) (labels : list string) :
  let entries := combine labels stats_list in
  ((exists text, generate_comparison_insights format_float stats_list labels = Ok text)
   <-> entries <> [] /\
       Forall (fun e : entry => has_keys ["mean"; "max"]%string (snd e)) entries) /\
  (entries = [] ->
   generate_comparison_insights format_float stats_list labels = Raise IndexError /\
   exists table, generate_statistics_table format_float stats_list labels = Ok table) /\
  (forall e, entries <> [] ->
     generate_comparison_insights format_float stats_list labels = Raise e ->
     e = KeyError).
Proof.
  intros entries.
  assert (Hnil : entries = [] ->
            generate_comparison_insights format_float stats_list labels
              = Raise IndexError).
  { unfold entries, generate_comparison_insights, insight_lines. intros ->. reflexivity. }
  split; [ split | split ].
  - intros (text & H). split.
    + intros E. rewrite (Hnil E) in H. discriminate.
    + unfold generate_comparison_insights in H.
      destruct (insight_lines format_float stats_list labels) as [lines|] eqn:El;
        [ | discriminate ].
      unfold insight_lines in El. fold entries in El.
      destruct (sorted_by (fun x : entry => dict_get (snd x) "mean") entries)
        as [by_mean|] eqn:Em; [ | discriminate ].
      cbn [bind] in El.
      destruct (sorted_by (fun x : entry => dict_get (snd x) "max") entries)
        as [by_peak|] eqn:Ep; [ | discriminate ].
      eapply mean_and_max_keys; eauto.
  - intros [Hne Hall]. unfold generate_comparison_insights.
    destruct (insight_lines_total stats_list labels Hne Hall) as (lines & ->).
    cbn [bind]. eexists. reflexivity.
  - intros E. split; [ now apply Hnil | ].
    unfold generate_statistics_table. fold entries. rewrite E. cbn. eexists. reflexivity.
  - intros e Hne H.
    unfold generate_comparison_insights in H.
    destruct (insight_lines format_float stats_list labels) as [lines|e'] eqn:El;
      cbn [bind] in H; [ discriminate | ]. injection H as <-.
    pose proof El as El'. unfold insight_lines in El. fold entries in El.
    destruct (sorted_by (fun x : entry => dict_get (snd x) "mean") entries)
      as [by_mean|e1] eqn:Em.
    + cbn [bind] in El.
      destruct (sorted_by (fun x : entry => dict_get (snd x) "max") entries)
        as [by_peak|e2] eqn:Ep.
      * pose proof (mean_and_max_keys _ _ _ Em Ep) as Hall.
        destruct (insight_lines_total stats_list labels Hne Hall) as (lines & Hl).
        congruence.
      * cbn [bind] in El. injection El as <-. apply sorted_by_raises in Ep.
        destruct Ep as (a & _ & Ha). now apply dict_get_raises in Ha.
    + cbn [bind] in El. injection El as <-. apply sorted_by_raises in Em.
      destruct Em as (a & _ & Ha). now apply dict_get_raises in Ha.
Qed.

End Reports.

(** ** main after the loop *)

Section MainReports.
Variable float_of_string : string -> option float64.
Variable format_float : string -> float64 -> string.

Lemma main_inv_entries (st : main_state) :
  main_inv st -> st_datasets st <> [] ->
  combine (st_labels st) (st_stats_list st) <> [] /\
  Forall (fun e : entry => has_keys stat_keys (snd e))
    (combine (st_labels st) (st_stats_list st)).
Proof.
  intros [Hlen Hstats] Hne. split.
  - apply Forall2_length in Hstats.
    destruct (st_datasets st); [ congruence | ].
    destruct (st_labels st); [ discriminate | ].
    destruct (st_stats_list st); discriminate.
  - apply Forall_forall. intros [label stats] Hin. apply in_combine_r in Hin. cbn [snd].
    apply In_nth_error in Hin. destruct Hin as (i & Hi).
    destruct (Forall2_nth_error_right _ _ _ i stats Hstats Hi) as (data & _ & Hd & Hs).
    eapply calculate_stats_keys; eauto.
Qed.

(** X10.  Once the loop has ended without an exception with a dataset
    loaded and the chart has rendered, nothing can fail any more: the
    statistics the loop stored have every key the table and the insights
    read, so both render, and [main] prints the count line, the chart, the
    table and the insights after the lines of the loop and returns 0. *)
Theorem main_completes_once_chart_renders (fs : filesystem)
    (entries : list (string * string)) (st : main_state) (chart : string) :
  main_loop float_of_string fs entries main_start = (st, None) ->
  st_datasets st <> [] ->
  generate_ascii_chart format_float (st_datasets st) (st_labels st) 80 20 = Ok chart ->
  exists table insights,
    generate_statistics_table format_float (st_stats_list st) (st_labels st) = Ok table /\
    generate_comparison_insights format_float (st_stats_list st) (st_labels st)
      = Ok insights /\
    main_with float_of_string format_float fs entries
      = ((st_printed st
            ++ [(nl ++ str_of_Z (Z.of_nat (List.length (st_datasets st)))
                   ++ " test variants loaded successfully!" ++ nl)%string])
           ++ [chart; table; insights], Ok 0).
Proof.
  intros Hloop Hne Hchart.
  pose proof (main_loop_inv float_of_string fs entries _ st main_start_inv Hloop) as Hinv.
  destruct (main_inv_entries st Hinv Hne) as [Hentries Hkeys].
  destruct (table_rows_total format_float _ Hkeys) as (rows & Hrows).
  destruct (insight_lines_total format_float (st_stats_list st) (st_labels st) Hentries)
    as (lines & Hlines).
  { eapply Forall_impl; [ | exact Hkeys ]. intros e Hk k Hin. apply Hk.
    unfold stat_keys. cbn [In] in *. tauto. }
  assert (Htable : exists table,
             generate_statistics_table format_float (st_stats_list st) (st_labels st)
               = Ok table).
  { unfold generate_statistics_table. rewrite Hrows. cbn [bind]. eexists. reflexivity. }
  assert (Hins : exists insights,
             generate_comparison_insights format_float (st_stats_list st) (st_labels st)
               = Ok insights).
  { unfold generate_comparison_insights. rewrite Hlines. cbn [bind]. eexists. reflexivity. }
  destruct Htable as (table & Htable). destruct Hins as (insights & Hins).
  exists table, insights. repeat split; auto.
  unfold main_with. fold main_start. rewrite Hloop.
  destruct (st_datasets st) as [|d ds] eqn:Hds; [ congruence | ].
  rewrite Hchart, Htable, Hins. reflexivity.
Qed.

End MainReports.

Lemma main_loop_lists_witness :
  let float_of_string := fun s => if String.eqb s "12.5" then Some (lit 12.5) else None in
  let fs : filesystem := fun name =>
    if String.eqb name "a.csv"
    then Some [["cpu_percent"]; ["12.5"]; ["bad"]]%string else None in
  let st' := fst (main_loop float_of_string fs
                    [("a.csv", "A"); ("b.csv", "B")]%string main_start) in
  st_datasets st' = [[lit 12.5]] /\ st_labels st' = ["A"%string] /\
  main_inv st' /\ List.length (st_printed st') = 3%nat.
Proof.
  intros float_of_string fs st'.
  apply (main_loop_lists float_of_string fs [("a.csv", "A"); ("b.csv", "B")]%string
           main_start st').
  - split; [ reflexivity | constructor ].
  - vm_compute. reflexivity.
Defined.

Lemma main_without_data_witness :
  main_with (fun _ => None) (fun _ _ => "0.0"%string)
    (fun name => if String.eqb name "b.csv" then Some [["cpu_percent"]; ["bad"]]%string
                 else None)
    [("a.csv", "A"); ("b.csv", "B")]%string
  = ([("Loading CPU data from test runs..." ++ nl)%string;
      "✗ File not found: a.csv"%string; "✗ No data in: B"%string;
      (nl ++ "Error: No data loaded!")%string], Ok 1).
Proof.
  apply (main_without_data (fun _ => None)
           (fun name => if String.eqb name "b.csv"
                        then Some [["cpu_percent"]; ["bad"]]%string else None)
           [("a.csv", "A"); ("b.csv", "B")]%string).
  intros e [<- | [<- | []]]; [ left | right ]; reflexivity.
Defined.

Lemma main_exit_status_witness :
  let float_of_string := fun s => if String.eqb s "12.5" then Some (lit 12.5) else None in
  let fs : filesystem := fun name =>
    if String.eqb name "a.csv" then Some [["cpu_percent"]; ["12.5"]]%string else None in
  loaded float_of_string fs [("a.csv", "A"); ("b.csv", "B")]%string <> [].
Proof.
  intros float_of_string fs.
  destruct (main_exit_status float_of_string fs [("a.csv", "A"); ("b.csv", "B")]%string
              (fun _ _ => "0.0"%string)
              (fst (main_with float_of_string (fun _ _ => "0.0"%string) fs
                      [("a.csv", "A"); ("b.csv", "B")]%string)) 0)
    as [[H _] | [_ H]].
  - vm_compute. reflexivity.
  - discriminate H.
  - exact H.
Defined.

Lemma main_completes_once_chart_renders_witness :
  let float_of_string := fun s => if String.eqb s "12.5" then Some (lit 12.5) else None in
  let fs : filesystem := fun name =>
    if String.eqb name "a.csv" then Some [["cpu_percent"]; ["12.5"]]%string else None in
  snd (main_with float_of_string (fun _ _ => "0.0"%string) fs
         [("a.csv", "A"); ("b.csv", "B")]%string) = Ok 0.
Proof.
  intros float_of_string fs.
  destruct (main_completes_once_chart_renders float_of_string (fun _ _ => "0.0"%string)
              fs [("a.csv", "A"); ("b.csv", "B")]%string
              (fst (main_loop float_of_string fs
                      [("a.csv", "A"); ("b.csv", "B")]%string main_start))
              (match generate_ascii_chart (fun _ _ => "0.0"%string)
                       [[lit 12.5]] ["A"%string] 80 20 with
               | Ok chart => chart
               | Raise _ => ""%string
               end))
    as (table & insights & _ & _ & ->).
  - vm_compute. reflexivity.
  - vm_compute. discriminate.
  - vm_compute. reflexivity.
  - reflexivity.
Defined.

(** ** generate_ascii_chart: dimensions *)

Lemma map_snd_enumerate {A} (l : list A) : map snd (enumerate l) = l.
Proof.
  unfold enumerate. generalize 0%nat. induction l as [|a t IH]; intros s; cbn.
  - reflexivity.
  - now rewrite IH.
Qed.

Lemma length_enumerate {A} (l : list A) : List.length (enumerate l) = List.length l.
Proof. unfold enumerate. rewrite length_combine, length_seq. lia. Qed.

Lemma plot_datasets_width_zero (height : Z) (global_min value_range : float64)
    (ds : list (nat * list float64)) (g : grid) :
  List.concat (map snd ds) <> [] ->
  plot_datasets 0 height global_min value_range ds g = Raise ZeroDivisionError.
Proof.
  revert g. induction ds as [|[k data] rest IH]; intros g Hne; cbn in Hne.
  - congruence.
  - cbn [plot_datasets]. unfold plot_dataset, chart_step.
    destruct data as [|x t].
    + cbn. apply IH. exact Hne.
    + replace (0 <? Z.of_nat (List.length (x :: t))) with true
        by (symmetry; apply Z.ltb_lt; cbn [List.length]; lia).
      reflexivity.
Qed.

(** X11.  A chart of width 0 cannot be drawn: as soon as there is one
    sample, the renderer raises [ZeroDivisionError] (the step of the first
    dataset that is not empty divides by the width), for any height and
    labels. *)
Theorem chart_of_width_zero (format_float : string -> float64 -> string)
    (datasets : list (list float64)) (labels : list string) (height : Z) :
  List.concat datasets <> [] ->
  generate_ascii_chart format_float datasets labels 0 height = Raise ZeroDivisionError.
Proof.
  intros Hne. unfold generate_ascii_chart.
  destruct datasets as [|d0 rest]; [ now cbn in Hne | ].
  set (ds := d0 :: rest) in *.
  destruct (List.concat ds) as [|x t] eqn:Hall; [ congruence | ].
  cbn [py_min py_max bind max_len_of]. unfold ds at 1. cbn [bind].
  rewrite plot_datasets_width_zero; [ reflexivity | ].
  rewrite map_snd_enumerate. now rewrite Hall.
Qed.

Lemma chart_of_width_zero_witness :
  generate_ascii_chart (fun _ _ => "0.0"%string) [[]; [lit 1]] ["A"; "B"]%string 0 20
    = Raise ZeroDivisionError.
Proof.
  apply (chart_of_width_zero (fun _ _ => "0.0"%string) [[]; [lit 1]] ["A"; "B"]%string 20).
  discriminate.
Defined.

Section GridShape.
Variables (width height : Z) (global_min value_range : float64).

(** Every cell of a grid is blank or holds the glyph of one of the first
    [n] datasets. *)
Let glyphs_below (n : nat) (g : grid) : Prop :=
  forall y x, 0 <= y < height -> 0 <= x < width ->
    grid_get g y x = blank \/ exists k, (k < n)%nat /\ grid_get g y x = symbol_at k.

Lemma plot_datasets_glyphs (ds : list (nat * list float64)) (n : nat) (g g' : grid) :
  (forall kd, In kd ds -> (fst kd < n)%nat) ->
  grid_wf (Z.to_nat width) (Z.to_nat height) g -> glyphs_below n g ->
  plot_datasets width height global_min value_range ds g = Ok g' ->
  grid_wf (Z.to_nat width) (Z.to_nat height) g' /\ glyphs_below n g'.
Proof.
  revert g. induction ds as [|[k data] rest IH]; intros g Hks Hwf Hg H.
  - injection H as <-. auto.
  - cbn [plot_datasets] in H. rewrite plot_dataset_paint in H.
    destruct (dataset_cells width height global_min value_range data) as [cells|] eqn:Ec;
      cbn [bind] in H; [ | discriminate ].
    apply IH in H; auto.
    + intros kd Hkd. apply Hks. now right.
    + now apply paint_wf.
    + intros y x Hy Hx.
      rewrite (paint_get width height (symbol_at k) cells g y x
                 (symbol_at_not_blank k) Hwf
                 (dataset_cells_columns width height global_min value_range data cells Ec)
                 Hy Hx).
      destruct (String.eqb_spec (grid_get g y x) blank) as [Hb | Hnb].
      * destruct (existsb (at_cell y x) cells); [ right | now left ].
        exists k. split; [ apply (Hks (k, data)); now left | reflexivity ].
      * destruct (Hg y x Hy Hx) as [Hb | Hk]; [ contradiction | now right ].
Qed.

Lemma grid_lines_total (format_float : string -> float64 -> string)
    (global_max : float64) (rows : list (nat * list string)) :
  (forall i row, In (i, row) rows -> (i < Z.to_nat height)%nat) ->
  exists body,
    grid_lines format_float height global_min global_max value_range rows = Ok body /\
    List.length body = List.length rows.
Proof.
  induction rows as [|[i row] rest IH]; intros Hrows.
  - exists []. split; reflexivity.
  - destruct IH as (tl & Htl & Hlen); [ intros j r Hj; apply (Hrows j r); now right | ].
    assert (Hi : (i < Z.to_nat height)%nat) by (apply (Hrows i row); now left).
    cbn [grid_lines]. unfold y_axis_value, int_truediv.
    destruct (Z.eqb_spec (Z.of_nat i) 0).
    + cbn [bind]. rewrite Htl. cbn [bind]. eexists. split; [ reflexivity | ].
      cbn [List.length]. now rewrite Hlen.
    + destruct (Z.eqb_spec (Z.of_nat i) (height - 1)).
      * cbn [bind]. rewrite Htl. cbn [bind]. eexists. split; [ reflexivity | ].
        cbn [List.length]. now rewrite Hlen.
      * replace (height - 1 =? 0) with false by (symmetry; apply Z.eqb_neq; lia).
        cbn [bind]. rewrite Htl. cbn [bind]. eexists. split; [ reflexivity | ].
        cbn [List.length]. now rewrite Hlen.
Qed.

(** X12.  Whatever the datasets, a plotting pass that ends leaves a grid of
    the dimensions it started with, [height] rows of [width] cells, in which
    every cell is blank or holds the glyph of one of the datasets; and the
    rows of such a grid always render, into [height] lines. *)
Theorem plotted_grid_shape (format_float : string -> float64 -> string)
    (global_max : float64) (datasets : list (list float64)) (g : grid) :
  plot_datasets width height global_min value_range (enumerate datasets)
    (blank_grid width height) = Ok g ->
  grid_wf (Z.to_nat width) (Z.to_nat height) g /\
  (forall y x, 0 <= y < height -> 0 <= x < width ->
     grid_get g y x = blank \/
     exists k, (k < List.length datasets)%nat /\ grid_get g y x = symbol_at k) /\
  exists body,
    grid_lines format_float height global_min global_max value_range (enumerate g)
      = Ok body /\
    List.length body = Z.to_nat height.
Proof.
  intros H.
  destruct (plot_datasets_glyphs (enumerate datasets) (List.length datasets)
              (blank_grid width height) g) as [Hwf Hglyphs]; auto.
  - intros kd Hkd. destruct kd as [k d]. now apply enumerate_index_bound in Hkd.
  - apply blank_grid_wf.
  - intros y x Hy Hx. left. now apply blank_grid_get.
  - split; [ exact Hwf | ]. split; [ exact Hglyphs | ].
    destruct (grid_lines_total format_float global_max (enumerate g)) as (body & Hb & Hlen).
    + intros i row Hin. apply enumerate_index_bound in Hin. destruct Hwf as [Hh _]. lia.
    + exists body. split; [ exact Hb | ]. rewrite Hlen, length_enumerate. apply Hwf.
Qed.

End GridShape.

Lemma plotted_grid_shape_witness :
  exists g,
    plot_datasets 3 2 (lit 0) (lit 1) (enumerate [map lit [0; 1]%float])
      (blank_grid 3 2) = Ok g /\
    grid_wf 3 2 g /\
    exists body,
      grid_lines (fun _ _ => "0.0"%string) 2 (lit 0) (lit 1) (lit 1) (enumerate g)
        = Ok body /\
      List.length body = 2%nat.
Proof.
  eexists. split; [ vm_compute; reflexivity | ].
  destruct (plotted_grid_shape 3 2 (lit 0) (lit 1) (fun _ _ => "0.0"%string) (lit 1)
              [map lit [0; 1]%float]
              [[" "; "█"; " "]; ["█"; " "; " "]]%string) as (Hwf & _ & Hbody).
  - vm_compute. reflexivity.
  - split; [ exact Hwf | exact Hbody ].
Defined.

(** ** generate_ascii_chart: columns, glyphs and the footer *)

Lemma sample_index_unit (x : Z) : sample_index (of_int 1) x = Ok x.
Proof. reflexivity. Qed.

Lemma py_index_app {A} (pre rest : list A) (a : A) :
  py_index (pre ++ a :: rest) (Z.of_nat (List.length pre)) = Ok a.
Proof.
  destruct (py_index_nth (pre ++ a :: rest) (Z.of_nat (List.length pre)))
    as (x & Hx & Hnth).
  - rewrite length_app. cbn [List.length]. lia.
  - rewrite Hx. f_equal. rewrite Nat2Z.id in Hnth.
    rewrite nth_error_app2 in Hnth by lia. rewrite Nat.sub_diag in Hnth.
    now injection Hnth.
Qed.

Section Columns.
Variables (width height : Z) (global_min value_range : float64).

Lemma column_cells_direct (pre rest : list float64) (ys : list Z) :
  Forall2 (fun d y => plot_row height global_min value_range d = Ok y) rest ys ->
  column_cells height global_min value_range (pre ++ rest) (of_int 1)
    (map Z.of_nat (seq (List.length pre) (List.length rest)))
  = Ok (combine ys (map Z.of_nat (seq (List.length pre) (List.length rest)))).
Proof.
  intros Hrows. revert pre.
  induction Hrows as [|d y rest ys Hd Hrest IH]; intros pre; [ reflexivity | ].
  cbn [List.length seq map column_cells combine].
  rewrite sample_index_unit. cbn [bind].
  replace (Z.of_nat (List.length (pre ++ d :: rest)) <=? Z.of_nat (List.length pre))
    with false
    by (symmetry; apply Z.leb_gt; rewrite length_app; cbn [List.length]; lia).
  rewrite py_index_app. cbn [bind]. rewrite Hd. cbn [bind].
  specialize (IH (pre ++ [d])%list).
  rewrite <- app_assoc in IH. cbn [app] in IH.
  rewrite length_app in IH. cbn [List.length] in IH.
  replace (List.length pre + 1)%nat with (S (List.length pre)) in IH by lia.
  rewrite IH. reflexivity.
Qed.

(** X13.  A dataset with no more samples than the chart has columns is
    plotted index to index: sample [x] goes to column [x], on the row
    computed from its value; no sample is left out and no column beyond the
    last sample is written. *)
Theorem short_dataset_plots_index_to_index (dataset_idx : nat)
    (data : list float64) (ys : list Z) (g : grid) :
  Z.of_nat (List.length data) <= width ->
  Forall2 (fun d y => plot_row height global_min value_range d = Ok y) data ys ->
  let cells := combine ys (py_range (Z.of_nat (List.length data))) in
  dataset_cells width height global_min value_range data = Ok cells /\
  plot_dataset width height global_min value_range dataset_idx data g
    = Ok (paint height (symbol_at dataset_idx) cells g).
Proof.
  intros Hlen Hrows cells.
  assert (Hcells : dataset_cells width height global_min value_range data = Ok cells).
  { unfold dataset_cells, chart_step.
    replace (width <? Z.of_nat (List.length data)) with false
      by (symmetry; apply Z.ltb_ge; lia).
    cbn [bind]. rewrite Z.min_r by lia.
    unfold cells, py_range. rewrite Nat2Z.id.
    exact (column_cells_direct [] data ys Hrows). }
  split; [ exact Hcells | ].
  rewrite plot_dataset_paint, Hcells. reflexivity.
Qed.

End Columns.

Lemma short_dataset_plots_index_to_index_witness :
  plot_dataset 3 2 (lit 0) (lit 1) 0 (map lit [0; 1]%float) (blank_grid 3 2)
    = Ok (paint 2 (symbol_at 0) [(1, 0); (0, 1)] (blank_grid 3 2)).
Proof.
  apply (short_dataset_plots_index_to_index 3 2 (lit 0) (lit 1) 0
           (map lit [0; 1]%float) [1; 0] (blank_grid 3 2)).
  - cbn. lia.
  - repeat constructor.
Defined.

Lemma nth_error_legend_from (labels : list string) (s i : nat) (label : string) :
  nth_error labels i = Some label ->
  nth_error (map (fun '(i, label) => (symbol_at i ++ " = " ++ label)%string)
               (combine (seq s (List.length labels)) labels)) i
    = Some (symbol_at (s + i) ++ " = " ++ label)%string.
Proof.
  revert s i. induction labels as [|l t IH]; intros s i Hi.
  - destruct i; discriminate.
  - destruct i as [|i]; cbn [List.length seq combine map nth_error] in Hi |- *.
    + injection Hi as <-. now rewrite Nat.add_0_r.
    + rewrite (IH (S s) i Hi). now rewrite Nat.add_succ_r.
Qed.

(** X14.  The palette has three glyphs, none of them the blank of the
    grid, and is used in a cycle: two datasets are drawn with the same
    glyph exactly when their positions are congruent modulo 3, so a fourth
    dataset cannot be told from the first.  The legend has one line per
    label, and line [i] shows the glyph dataset [i] is drawn with. *)
Theorem glyphs_cycle_and_legend :
  (forall i j, symbol_at i = symbol_at j <-> (i mod 3 = j mod 3)%nat) /\
  (forall i, symbol_at i <> blank) /\
  (forall labels, List.length (legend labels) = List.length labels) /\
  (forall labels i label,
     nth_error labels i = Some label ->
     nth_error (legend labels) i = Some (symbol_at i ++ " = " ++ label)%string).
Proof.
  repeat split.
  - unfold symbol_at. intros H.
    pose proof (Nat.mod_upper_bound i 3 ltac:(lia)) as Hi.
    pose proof (Nat.mod_upper_bound j 3 ltac:(lia)) as Hj.
    destruct (i mod 3)%nat as [|[|[|?]]]; destruct (j mod 3)%nat as [|[|[|?]]];
      try lia; try reflexivity; cbn in H; discriminate.
  - unfold symbol_at. now intros ->.
  - apply symbol_at_not_blank.
  - intros labels. unfold legend. now rewrite length_map, length_enumerate.
  - intros labels i label Hi. unfold legend, enumerate.
    now rewrite (nth_error_legend_from labels 0 i label Hi).
Qed.

Lemma fold_max_len (t : list (list float64)) (m0 : Z) :
  let m := fold_left (fun m d' => Z.max m (Z.of_nat (List.length d'))) t m0 in
  m0 <= m /\ (forall d, In d t -> Z.of_nat (List.length d) <= m) /\
  (m = m0 \/ exists d, In d t /\ m = Z.of_nat (List.length d)).
Proof.
  revert m0. induction t as [|d t IH]; intros m0; cbn [fold_left].
  - repeat split; [ lia | intros d [] | now left ].
  - destruct (IH (Z.max m0 (Z.of_nat (List.length d)))) as (Hle & Hall & Hex).
    cbv zeta in *. repeat split.
    + lia.
    + intros d' [<- | Hd']; [ lia | now apply Hall ].
    + destruct Hex as [-> | (d' & Hd' & ->)].
      * destruct (Z.max_spec m0 (Z.of_nat (List.length d))) as [[_ ->] | [_ ->]];
          [ right; exists d; split; [ now left | reflexivity ] | now left ].
      * right. exists d'. split; [ now right | reflexivity ].
Qed.

Lemma max_len_of_total (datasets : list (list float64)) :
  datasets <> [] -> exists m, max_len_of datasets = Ok m.
Proof. destruct datasets; [ congruence | intros _; eexists; reflexivity ]. Qed.

(** X15.  The number printed at the right end of the X axis is the sample
    count of a longest dataset: no dataset has more samples, and one has
    exactly that many.  It is computed for every list of datasets that is
    not empty. *)
Theorem max_len_of_spec (datasets : list (list float64)) :
  datasets <> [] ->
  exists m, max_len_of datasets = Ok m /\
    (forall d, In d datasets -> Z.of_nat (List.length d) <= m) /\
    (exists d, In d datasets /\ m = Z.of_nat (List.length d)).
Proof.
  intros Hne. destruct datasets as [|d0 t]; [ congruence | ].
  cbn [max_len_of]. eexists. split; [ reflexivity | ].
  destruct (fold_max_len t (Z.of_nat (List.length d0))) as (Hle & Hall & Hex).
  cbv zeta in *. split.
  - intros d [<- | Hd]; [ exact Hle | now apply Hall ].
  - destruct Hex as [-> | (d & Hd & ->)].
    + exists d0. split; [ now left | reflexivity ].
    + exists d. split; [ now right | reflexivity ].
Qed.

Lemma max_len_of_spec_witness :
  exists m, max_len_of [[lit 1]; [lit 1; lit 2]; []] = Ok m /\
    (forall d, In d [[lit 1]; [lit 1; lit 2]; []] -> Z.of_nat (List.length d) <= m) /\
    (exists d, In d [[lit 1]; [lit 1; lit 2]; []] /\ m = Z.of_nat (List.length d)).
Proof.
  apply (max_len_of_spec [[lit 1]; [lit 1; lit 2]; []]). discriminate.
Defined.

(** ** generate_statistics_table: the label field *)

Lemma py_len_app (s1 s2 : string) : py_len (s1 ++ s2) = (py_len s1 + py_len s2)%nat.
Proof.
  induction s1 as [|c t IH]; [ reflexivity | ].
  cbn [String.append py_len]. rewrite IH. lia.
Qed.

Lemma append_empty_r (s : string) : (s ++ "")%string = s.
Proof. induction s as [|c t IH]; [ reflexivity | cbn; now rewrite IH ]. Qed.

Lemma concat_empty_cons (x : string) (l : list string) :
  String.concat "" (x :: l) = (x ++ String.concat "" l)%string.
Proof. destruct l; cbn; [ now rewrite append_empty_r | reflexivity ]. Qed.

Lemma py_len_spaces (n : nat) : py_len (String.concat "" (repeat " "%string n)) = n.
Proof.
  induction n as [|n IH]; [ reflexivity | ].
  cbn [repeat]. rewrite concat_empty_cons, py_len_app, IH. reflexivity.
Qed.

(** X16.  The label field of a table row is padded, never cut: the field
    is the label followed by blanks only, its length is the larger of 25
    and the label's, and a label of 25 characters or more is printed as it
    is, which moves the numbers of that row to the right of their headers.
    Each of the three labels of [main] is such a label. *)
Theorem label_field_is_padded_not_cut (w : nat) (label : string) :
  py_len (ljust w label) = Nat.max w (py_len label) /\
  (exists pad, ljust w label = (label ++ pad)%string /\
               pad = String.concat "" (repeat " "%string (w - py_len label))) /\
  ((w <= py_len label)%nat -> ljust w label = label) /\
  Forall (fun e => (25 < py_len (snd e))%nat /\ ljust 25 (snd e) = snd e) tests.
Proof.
  repeat split.
  - unfold ljust. rewrite py_len_app, py_len_spaces. lia.
  - eexists. split; reflexivity.
  - intros Hw. unfold ljust. replace (w - py_len label)%nat with 0%nat by lia.
    cbn. apply append_empty_r.
  - unfold tests. repeat (apply Forall_cons; [ split; [ vm_compute; lia | reflexivity ] | ]).
    apply Forall_nil.
Qed.

(** ** calculate_stats and the order of the samples *)

Lemma filter_length_perm {A} (f : A -> bool) (l l' : list A) :
  Permutation l l' -> List.length (filter f l) = List.length (filter f l').
Proof.
  induction 1 as [|x l l' _ IH|x y l|l l' l'' _ IH1 _ IH2]; cbn.
  - reflexivity.
  - destruct (f x); cbn; now rewrite IH.
  - destruct (f x), (f y); reflexivity.
  - congruence.
Qed.

Lemma filter_length_incl {A} (f g : A -> bool) (l : list A) :
  (forall y, In y l -> f y = true -> g y = true) ->
  (List.length (filter f l) <= List.length (filter g l))%nat.
Proof.
  induction l as [|x t IH]; intros Hfg; cbn; [ lia | ].
  assert (IH' : (List.length (filter f t) <= List.length (filter g t))%nat)
    by (apply IH; intros y Hy; apply Hfg; now right).
  destruct (f x) eqn:Ef.
  - rewrite (Hfg x (or_introl eq_refl) Ef). cbn. lia.
  - destruct (g x); cbn; lia.
Qed.

Lemma filter_none {A} (f : A -> bool) (l : list A) :
  (forall y, In y l -> f y = false) -> filter f l = [].
Proof.
  induction l as [|x t IH]; intros Hf; cbn; [ reflexivity | ].
  rewrite (Hf x (or_introl eq_refl)). apply IH. intros y Hy. apply Hf. now right.
Qed.

Lemma filter_all {A} (f : A -> bool) (l : list A) :
  (forall y, In y l -> f y = true) -> filter f l = l.
Proof.
  induction l as [|x t IH]; intros Hf; cbn; [ reflexivity | ].
  rewrite (Hf x (or_introl eq_refl)). f_equal. apply IH. intros y Hy. apply Hf. now right.
Qed.

Section SortedPermutation.

Let num (x : float64) : Prop := is_nan x = false.
Let ascending : list float64 -> Prop :=
  StronglySorted (fun a b : float64 => ltb b a = false).

(** In an ascending list fewer than [i + 1] elements are smaller than the
    one at position [i], and more than [i] are not greater. *)
Lemma smaller_count (s : list float64) (i : nat) (a : float64) :
  ascending s -> nth_error s i = Some a ->
  (List.length (filter (fun y => ltb y a) s) <= i)%nat.
Proof.
  intros Hs Hi. rewrite <- (firstn_skipn i s), filter_app, length_app.
  rewrite (filter_none _ (skipn i s)).
  - pose proof (filter_length_incl (fun y => ltb y a) (fun _ => true) (firstn i s)
                  ltac:(auto)) as H.
    rewrite (filter_all (fun _ => true)) in H by auto.
    rewrite length_firstn in H. cbn [List.length]. lia.
  - intros y Hy. apply In_skipn_nth_error in Hy. destruct Hy as (j & Hj & Hy).
    apply (ascending_nth ltb Float64Facts.ltb_asym s i j a y); auto.
Qed.

Lemma not_greater_count (s : list float64) (i : nat) (a : float64) :
  ascending s -> nth_error s i = Some a ->
  (i < List.length (filter (fun y => negb (ltb a y)) s))%nat.
Proof.
  intros Hs Hi. rewrite <- (firstn_skipn (S i) s), filter_app, length_app.
  rewrite (filter_all _ (firstn (S i) s)).
  - rewrite length_firstn.
    assert (i < List.length s)%nat by (apply nth_error_Some; congruence). lia.
  - intros y Hy. apply In_nth_error in Hy. destruct Hy as (j & Hy).
    rewrite nth_error_firstn in Hy.
    destruct (Nat.ltb_spec j (S i)); [ | discriminate ].
    rewrite (ascending_nth ltb Float64Facts.ltb_asym s j i y a); auto. lia.
Qed.

Lemma sorted_permutation_not_lt (s1 s2 : list float64) (i : nat) (a b : float64) :
  ascending s1 -> ascending s2 -> Forall num s2 -> Permutation s1 s2 ->
  nth_error s1 i = Some a -> nth_error s2 i = Some b -> ltb a b = false.
Proof.
  intros H1 H2 Hnum Hperm Ha Hb.
  destruct (ltb a b) eqn:E; [ exfalso | reflexivity ].
  pose proof (not_greater_count s1 i a H1 Ha) as Hup.
  pose proof (smaller_count s2 i b H2 Hb) as Hlow.
  rewrite (filter_length_perm _ s1 s2 Hperm) in Hup.
  pose proof (filter_length_incl (fun y => negb (ltb a y)) (fun y => ltb y b) s2) as Hincl.
  rewrite Forall_forall in Hnum.
  assert (List.length (filter (fun y => negb (ltb a y)) s2)
          <= List.length (filter (fun y => ltb y b) s2))%nat; [ | lia ].
  apply Hincl. intros y Hy Hay. apply negb_true_iff in Hay.
  destruct (ltb y b) eqn:Eyb; [ reflexivity | ].
  rewrite (Float64Facts.ltb_negtrans a y b (Hnum y Hy) Hay Eyb) in E. discriminate.
Qed.

(** Two ascending arrangements of the same numbers hold values that
    compare equal at every position. *)
Lemma sorted_permutation_nth (s1 s2 : list float64) (i : nat) (a b : float64) :
  ascending s1 -> ascending s2 -> Forall num s1 -> Permutation s1 s2 ->
  nth_error s1 i = Some a -> nth_error s2 i = Some b -> eqb a b = true.
Proof.
  intros H1 H2 Hnum1 Hperm Ha Hb.
  assert (Hnum2 : Forall num s2) by (eapply Permutation_Forall; eauto).
  pose proof (sorted_permutation_not_lt s1 s2 i a b H1 H2 Hnum2 Hperm Ha Hb) as Hab.
  pose proof (sorted_permutation_not_lt s2 s1 i b a H2 H1 Hnum1
                (Permutation_sym Hperm) Hb Ha) as Hba.
  rewrite Forall_forall in Hnum1, Hnum2.
  destruct (Float64Facts.ltb_total a b) as [H | [H | H]]; try congruence.
  - apply Hnum1. eapply nth_error_In; eauto.
  - apply Hnum2. eapply nth_error_In; eauto.
Qed.

Lemma py_sorted_positions (data1 data2 : list float64) (i : nat) (a b : float64) :
  Permutation data1 data2 -> Forall num data1 ->
  nth_error (py_sorted ltb data1) i = Some a ->
  nth_error (py_sorted ltb data2) i = Some b ->
  eqb a b = true.
Proof.
  intros Hperm Hnum Ha Hb.
  assert (Hnum2 : Forall num data2) by (eapply Permutation_Forall; eauto).
  apply (sorted_permutation_nth (py_sorted ltb data1) (py_sorted ltb data2) i); auto.
  - apply py_sorted_ascending with (num := num); auto.
    + apply Float64Facts.ltb_asym.
    + intros x y z. apply Float64Facts.ltb_negtrans.
  - apply py_sorted_ascending with (num := num); auto.
    + apply Float64Facts.ltb_asym.
    + intros x y z. apply Float64Facts.ltb_negtrans.
  - eapply Permutation_Forall; [ apply Permutation_sym, py_sorted_perm | exact Hnum ].
  - eapply Permutation_trans; [ apply py_sorted_perm | ].
    eapply Permutation_trans; [ exact Hperm | apply Permutation_sym, py_sorted_perm ].
Qed.

(** X17.  The order statistics do not depend on the order of the samples:
    for the same numbers in another order, [min], [max], [median], [p95]
    and [p99] compare equal to those of the given order.  (They may differ
    as values, in the sign of a zero.  The mean, a float sum taken in the
    given order, does depend on it: [mean_depends_on_order].) *)
Theorem order_statistics_of_reordered_data (data1 data2 : list float64) :
  Permutation data1 data2 ->
  data1 <> [] -> Z.of_nat (List.length data1) < 2 ^ 53 ->
  Forall (fun x => is_nan x = false) data1 ->
  exists stats1 stats2,
    calculate_stats data1 = Ok stats1 /\ calculate_stats data2 = Ok stats2 /\
    forall k, In k ["min"; "max"; "median"; "p95"; "p99"]%string ->
      exists v1 v2,
        dict_get stats1 k = Ok v1 /\ dict_get stats2 k = Ok v2 /\ eqb v1 v2 = true.
Proof.
  intros Hperm Hne Hlen Hnum.
  pose proof (Permutation_length Hperm) as Hlen12.
  assert (Hne2 : data2 <> []).
  { intros ->. apply Permutation_sym, Permutation_nil in Hperm. contradiction. }
  pose proof (calculate_stats_eval data1 Hne Hlen) as E1.
  pose proof (calculate_stats_eval data2 Hne2 ltac:(lia)) as E2.
  cbv zeta in E1, E2. rewrite <- Hlen12 in E2.
  destruct E1 as (i95 & i99 & a1 & a2 & a3 & a4 & a5
                  & H95 & _ & H99 & _ & A1 & A2 & A3 & A4 & A5 & ->).
  destruct E2 as (j95 & j99 & b1 & b2 & b3 & b4 & b5
                  & K95 & _ & K99 & _ & B1 & B2 & B3 & B4 & B5 & ->).
  assert (j95 = i95) as -> by congruence.
  assert (j99 = i99) as -> by congruence.
  eexists. eexists. split; [ reflexivity | ]. split; [ reflexivity | ].
  intros k Hk. cbn [In] in Hk.
  destruct Hk as [<- | [<- | [<- | [<- | [<- | []]]]]];
    eexists; eexists; (split; [ reflexivity | ]); (split; [ reflexivity | ]);
    eapply py_sorted_positions; eauto.
Qed.

End SortedPermutation.

Lemma order_statistics_of_reordered_data_witness :
  exists stats1 stats2,
    calculate_stats (map lit [3; 1; 2; 1]%float) = Ok stats1 /\
    calculate_stats (map lit [1; 2; 1; 3]%float) = Ok stats2 /\
    forall k, In k ["min"; "max"; "median"; "p95"; "p99"]%string ->
      exists v1 v2,
        dict_get stats1 k = Ok v1 /\ dict_get stats2 k = Ok v2 /\ eqb v1 v2 = true.
Proof.
  apply (order_statistics_of_reordered_data
           (map lit [3; 1; 2; 1]%float) (map lit [1; 2; 1; 3]%float)).
  - cbn [map]. apply Permutation_cons_app with (l1 := [lit 1; lit 2; lit 1]) (l2 := []).
    rewrite app_nil_r. apply Permutation_refl.
  - discriminate.
  - vm_compute. reflexivity.
  - repeat constructor.
Defined.

(** The mean of the same three samples in two orders: 0 and 1/3. *)
Remark mean_depends_on_order :
  let data1 := map lit [1e16; 1; -1e16]%float in
  let data2 := map lit [1e16; -1e16; 1]%float in
  Permutation data1 data2 /\
  exists stats1 stats2 m1 m2,
    calculate_stats data1 = Ok stats1 /\ calculate_stats data2 = Ok stats2 /\
    dict_get stats1 "mean" = Ok m1 /\ dict_get stats2 "mean" = Ok m2 /\
    eqb m1 m2 = false /\ m1 = zero.
Proof.
  split.
  - cbn [map]. apply perm_skip. apply perm_swap.
  - vm_compute. do 4 eexists. repeat split.
Qed.

(** ** main: when the loop returns, and when the chart renders *)

Section MainReturns.
Variable float_of_string : string -> option float64.

(** X18.  The loop of [main] ends without an exception whenever each entry
    is a missing file or a file that loads (to fewer than [2^53] samples):
    a missing file is skipped, and the statistics of a loaded dataset are
    always computed. *)
Theorem main_loop_returns (fs : filesystem) (entries : list (string * string))
    (st : main_state) :
  (forall e, In e entries ->
     load_cpu_data float_of_string fs (fst e) = Raise FileNotFoundError \/
     exists data, load_cpu_data float_of_string fs (fst e) = Ok data /\
                  Z.of_nat (List.length data) < 2 ^ 53) ->
  exists st', main_loop float_of_string fs entries st = (st', None).
Proof.
  revert st. induction entries as [|[filename label] rest IH]; intros st Hall.
  - exists st. reflexivity.
  - cbn [main_loop].
    assert (Hentry : exists st1,
               main_entry float_of_string fs st filename label = (st1, None)).
    { unfold main_entry.
      destruct (Hall (filename, label) (or_introl eq_refl)) as [H | (data & H & Hlen)];
        cbn [fst] in H; rewrite H.
      - eexists. reflexivity.
      - destruct data as [|x t]; [ eexists; reflexivity | ].
        pose proof (calculate_stats_eval (x :: t) ltac:(discriminate) Hlen) as E.
        cbv zeta in E.
        destruct E as (i95 & i99 & a1 & a2 & a3 & a4 & a5 & _ & _ & _ & _ & _ & _ & _
                       & _ & _ & ->).
        eexists. reflexivity. }
    destruct Hentry as (st1 & ->).
    apply IH. intros e He. apply Hall. now right.
Qed.

End MainReturns.

Lemma main_loop_returns_witness :
  let float_of_string := fun s => if String.eqb s "12.5" then Some (lit 12.5) else None in
  let fs : filesystem := fun name =>
    if String.eqb name "a.csv" then Some [["cpu_percent"]; ["12.5"]]%string else None in
  exists st',
    main_loop float_of_string fs [("a.csv", "A"); ("b.csv", "B")]%string main_start
      = (st', None).
Proof.
  intros float_of_string fs.
  apply (main_loop_returns float_of_string fs [("a.csv", "A"); ("b.csv", "B")]%string
           main_start).
  intros e [<- | [<- | []]].
  - right. exists [lit 12.5]. split; [ reflexivity | vm_compute; reflexivity ].
  - left. reflexivity.
Defined.

(** X19.  Plotting is the only step of the renderer that can fail once
    there is a sample: when the pass over the datasets ends, the rows of the
    grid, the header and the footer are always produced and the chart is
    returned. *)
Theorem chart_renders_when_plotted (format_float : string -> float64 -> string)
    (datasets : list (list float64)) (labels : list string) (width height : Z)
    (global_min global_max : float64) (g : grid) :
  py_min (List.concat datasets) = Ok global_min ->
  py_max (List.concat datasets) = Ok global_max ->
  plot_datasets width height global_min (chart_range global_min global_max)
    (enumerate datasets) (blank_grid width height) = Ok g ->
  exists chart,
    generate_ascii_chart format_float datasets labels width height = Ok chart.
Proof.
  intros Hmin Hmax Hplot. unfold generate_ascii_chart.
  destruct datasets as [|d0 rest]; [ discriminate | ].
  set (ds := d0 :: rest) in *.
  rewrite Hmin, Hmax. cbn [bind].
  destruct (max_len_of_total ds ltac:(discriminate)) as (m & ->). cbn [bind].
  rewrite Hplot. cbn [bind].
  destruct (grid_lines_total height global_min (chart_range global_min global_max)
              format_float global_max (enumerate g)) as (body & -> & _).
  - intros i row Hin. apply enumerate_index_bound in Hin.
    destruct (plot_datasets_glyphs width height global_min
                (chart_range global_min global_max) (enumerate ds) (List.length ds)
                (blank_grid width height) g) as [[Hh _] _]; auto.
    + intros [k d] Hkd. now apply enumerate_index_bound in Hkd.
    + apply blank_grid_wf.
    + intros y x Hy Hx. left. now apply blank_grid_get.
    + lia.
  - cbn [bind]. eexists. reflexivity.
Qed.

Lemma chart_renders_when_plotted_witness :
  exists chart,
    generate_ascii_chart (fun _ _ => "0.0"%string) [map lit [0; 1]%float] ["A"%string] 3 2
      = Ok chart.
Proof.
  apply (chart_renders_when_plotted (fun _ _ => "0.0"%string) [map lit [0; 1]%float]
           ["A"%string] 3 2 (lit 0) (lit 1)
           [[" "; "█"; " "]; ["█"; " "; " "]]%string).
  - reflexivity.
  - reflexivity.
  - vm_compute. reflexivity.
Defined.

(** ** generate_ascii_chart: the columns of one dataset *)

Section ColumnOrder.
Variables (width height : Z) (global_min value_range : float64).

Lemma column_cells_prefix (data : list float64) (step : float64) (xs : list Z)
    (cells : list (Z * Z)) :
  column_cells height global_min value_range data step xs = Ok cells ->
  map snd cells = firstn (List.length cells) xs /\
  (List.length cells <= List.length xs)%nat.
Proof.
  revert cells. induction xs as [|x rest IH]; intros cells H; cbn [column_cells] in H.
  - injection H as <-. split; [ reflexivity | cbn; lia ].
  - destruct (sample_index step x) as [idx|]; cbn [bind] in H; [ | discriminate ].
    destruct (Z.of_nat (List.length data) <=? idx).
    { injection H as <-. split; [ reflexivity | cbn; lia ]. }
    destruct (py_index data idx) as [d|]; cbn [bind] in H; [ | discriminate ].
    destruct (plot_row height global_min value_range d) as [y|]; cbn [bind] in H;
      [ | discriminate ].
    destruct (column_cells height global_min value_range data step rest) as [tl|];
      cbn [bind] in H; [ | discriminate ].
    injection H as <-. destruct (IH tl eq_refl) as [Hmap Hlen].
    cbn [map snd List.length firstn]. split; [ now rewrite Hmap | lia ].
Qed.

Lemma firstn_seq_le (m s n : nat) : (m <= n)%nat -> firstn m (seq s n) = seq s m.
Proof.
  revert s n. induction m as [|m IH]; intros s n Hm; [ reflexivity | ].
  destruct n as [|n]; [ lia | ]. cbn. f_equal. apply IH. lia.
Qed.

(** X20.  Whatever its length, a dataset marks at most one cell in each
    column: its cells are in the columns [0, 1, ...] in this order, one
    each, up to the width of the chart and the number of its samples at
    most, and these guarded writes are all the plotting of the dataset
    does to the grid. *)
Theorem dataset_marks_one_cell_per_column (data : list float64)
    (cells : list (Z * Z)) :
  dataset_cells width height global_min value_range data = Ok cells ->
  map snd cells = py_range (Z.of_nat (List.length cells)) /\
  Z.of_nat (List.length cells) <= Z.max 0 (Z.min width (Z.of_nat (List.length data))) /\
  forall dataset_idx g,
    plot_dataset width height global_min value_range dataset_idx data g
      = Ok (paint height (symbol_at dataset_idx) cells g).
Proof.
  intros H. split; [ | split ].
  - unfold dataset_cells in H.
    destruct (chart_step _ width) as [step|]; cbn [bind] in H; [ | discriminate ].
    apply column_cells_prefix in H. destruct H as [Hmap Hlen].
    rewrite Hmap. unfold py_range in *. rewrite length_map, length_seq in Hlen.
    rewrite firstn_map, firstn_seq_le, Nat2Z.id by lia. reflexivity.
  - unfold dataset_cells in H.
    destruct (chart_step _ width) as [step|]; cbn [bind] in H; [ | discriminate ].
    apply column_cells_prefix in H. destruct H as [_ Hlen].
    unfold py_range in Hlen. rewrite length_map, length_seq in Hlen. lia.
  - intros dataset_idx g. rewrite plot_dataset_paint, H. reflexivity.
Qed.

End ColumnOrder.

Lemma dataset_marks_one_cell_per_column_witness :
  map snd [(1, 0); (0, 1)] = py_range (Z.of_nat (List.length [(1, 0); (0, 1)])) /\
  Z.of_nat (List.length [(1, 0); (0, 1)])
    <= Z.max 0 (Z.min 3 (Z.of_nat (List.length (map lit [0; 1]%float)))) /\
  forall dataset_idx g,
    plot_dataset 3 2 (lit 0) (lit 1) dataset_idx (map lit [0; 1]%float) g
      = Ok (paint 2 (symbol_at dataset_idx) [(1, 0); (0, 1)] g).
Proof.
  apply (dataset_marks_one_cell_per_column 3 2 (lit 0) (lit 1) (map lit [0; 1]%float)
           [(1, 0); (0, 1)]).
  reflexivity.
Defined.

(** X21.  For a dataset longer than the chart is wide, column [x] takes the
    sample at [int(x * step)] with [step = len(data) / width], both
    operations in binary64.  This is not always [floor(x * len / width)]:
    with the default width 80 and 112 samples the step is the float nearest
    to 1.4, which is below 1.4, the product for column 45 falls just short
    of 63 and the column takes sample 62. *)
Theorem downsampling_is_not_the_exact_floor :
  (step <- chart_step 112 80 ;; sample_index step 45) = Ok 62 /\
  45 * 112 / 80 = 63 /\
  chart_step 112 80 = Ok (lit 1.4) /\
  ltb (mul (of_int 45) (lit 1.4)) (of_int 63) = true.
Proof. repeat split; vm_compute; reflexivity. Qed.

(** ** generate_ascii_chart on data without range *)

Lemma Forall2_nth_error_left {A B} (R : A -> B -> Prop) (l : list A) (l' : list B)
    (j : nat) (a : A) :
  Forall2 R l l' -> nth_error l j = Some a ->
  exists b, nth_error l' j = Some b /\ R a b.
Proof.
  intros HF. revert j. induction HF as [|a0 b0 l l' Hab HF IH]; intros j Hj.
  - destruct j; discriminate.
  - destruct j as [|j]; cbn in *; [ injection Hj as <-; eauto | auto ].
Qed.

Lemma Forall2_map_right {A B} (R : A -> B -> Prop) (f : A -> B) (l : list A) :
  (forall a, In a l -> R a (f a)) -> Forall2 R l (map f l).
Proof.
  induction l as [|a t IH]; intros H; cbn; constructor.
  - apply H. now left.
  - apply IH. intros a' Ha'. apply H. now right.
Qed.

Lemma Forall2_repeat_right {A B} (R : A -> B -> Prop) (b : B) (l : list A) :
  (forall a, In a l -> R a b) -> Forall2 R l (repeat b (List.length l)).
Proof.
  induction l as [|a t IH]; intros H; cbn; constructor.
  - apply H. now left.
  - apply IH. intros a' Ha'. apply H. now right.
Qed.

Lemma In_combine_repeat (r : Z) (n : nat) (x : Z) :
  0 <= x < Z.of_nat n -> In (r, x) (combine (repeat r n) (py_range (Z.of_nat n))).
Proof.
  intros Hx. unfold py_range. rewrite Nat2Z.id.
  apply nth_error_In with (n := Z.to_nat x).
  assert (Hr : nth_error (repeat r n) (Z.to_nat x) = Some r)
    by (apply nth_error_repeat; lia).
  assert (Hs : nth_error (map Z.of_nat (seq 0 n)) (Z.to_nat x) = Some x).
  { rewrite nth_error_map, nth_error_seq.
    destruct (Nat.ltb_spec (Z.to_nat x) n); [ cbn; f_equal; lia | lia ]. }
  revert Hr Hs. generalize (Z.to_nat x) (repeat r n) (map Z.of_nat (seq 0 n)).
  intros i l1. revert i. induction l1 as [|a t IH]; intros [|i] [|b l2] Hr Hs;
    cbn in *; try discriminate.
  - congruence.
  - now apply IH.
Qed.

Lemma nth_error_enumerate_Some {A} (l : list A) (k : nat) (a : A) :
  nth_error l k = Some a -> nth_error (enumerate l) k = Some (k, a).
Proof.
  unfold enumerate. intros Hk.
  assert (H : forall s, nth_error (combine (seq s (List.length l)) l) k
                        = Some ((s + k)%nat, a)).
  { revert k Hk. induction l as [|b t IH]; intros k Hk s.
    - destruct k; discriminate.
    - destruct k as [|k]; cbn in Hk |- *.
      + injection Hk as <-. now rewrite Nat.add_0_r.
      + rewrite (IH k Hk (S s)). now rewrite Nat.add_succ_r. }
  exact (H 0%nat).
Qed.

Section BottomRow.
Variables (width height : Z) (global_min value_range : float64).

(** When every sample of a dataset is given the row [r], every cell of the
    dataset is on that row. *)
Lemma column_cells_row (data : list float64) (step : float64) (xs : list Z)
    (cells : list (Z * Z)) (r : Z) :
  (forall d, In d data -> plot_row height global_min value_range d = Ok r) ->
  column_cells height global_min value_range data step xs = Ok cells ->
  forall y x, In (y, x) cells -> y = r.
Proof.
  intros Hrow. revert cells.
  induction xs as [|x0 rest IH]; intros cells H y x Hin; cbn [column_cells] in H.
  - injection H as <-. destruct Hin.
  - destruct (sample_index step x0) as [idx|]; cbn [bind] in H; [ | discriminate ].
    destruct (Z.of_nat (List.length data) <=? idx);
      [ injection H as <-; destruct Hin | ].
    destruct (py_index data idx) as [d|] eqn:Ed; cbn [bind] in H; [ | discriminate ].
    rewrite (Hrow d (py_index_In _ _ _ Ed)) in H. cbn [bind] in H.
    destruct (column_cells height global_min value_range data step rest) as [tl|];
      cbn [bind] in H; [ | discriminate ].
    injection H as <-. destruct Hin as [[= <- <-] | Hin]; [ reflexivity | ].
    eapply IH; eauto.
Qed.

Lemma dataset_cells_row (data : list float64) (cells : list (Z * Z)) (r : Z) :
  (forall d, In d data -> plot_row height global_min value_range d = Ok r) ->
  dataset_cells width height global_min value_range data = Ok cells ->
  forall y x, In (y, x) cells -> y = r.
Proof.
  unfold dataset_cells. intros Hrow H.
  destruct (chart_step _ width) as [step|]; cbn [bind] in H; [ | discriminate ].
  eapply column_cells_row; eauto.
Qed.

(** A short dataset whose samples all have the row [r] is plotted on the
    cells [(r, 0), (r, 1), ...], one per sample. *)
Lemma dataset_cells_short_row (data : list float64) (r : Z) :
  Z.of_nat (List.length data) <= width ->
  (forall d, In d data -> plot_row height global_min value_range d = Ok r) ->
  dataset_cells width height global_min value_range data
    = Ok (combine (repeat r (List.length data))
            (py_range (Z.of_nat (List.length data)))).
Proof.
  intros Hlen Hrow. unfold dataset_cells, chart_step.
  replace (width <? Z.of_nat (List.length data)) with false
    by (symmetry; apply Z.ltb_ge; lia).
  cbn [bind]. rewrite Z.min_r by lia. unfold py_range. rewrite Nat2Z.id.
  apply (column_cells_direct height global_min value_range [] data).
  now apply Forall2_repeat_right.
Qed.

(** What is not blank stays so, and a cell some dataset maps a sample to
    is not blank after the pass. *)
Lemma plot_datasets_marks (ds : list (nat * list float64))
    (cells : list (list (Z * Z))) (g g' : grid) :
  cells_of width height global_min value_range ds cells ->
  grid_wf (Z.to_nat width) (Z.to_nat height) g ->
  plot_datasets width height global_min value_range ds g = Ok g' ->
  forall y x, 0 <= y < height -> 0 <= x < width ->
    (grid_get g y x <> blank \/
     exists j c, nth_error cells j = Some c /\ In (y, x) c) ->
    grid_get g' y x <> blank.
Proof.
  intros Hcells. revert g.
  induction Hcells as [|[k data] c rest cells Hc Hrest IH]; intros g Hwf Hp y x Hy Hx Hor.
  - injection Hp as <-. destruct Hor as [H | (j & c & Hj & _)]; [ exact H | ].
    destruct j; discriminate.
  - cbn [snd] in Hc. cbn [plot_datasets] in Hp.
    rewrite plot_dataset_paint, Hc in Hp. cbn [bind] in Hp.
    apply (IH _ (paint_wf width height _ _ _ Hwf) Hp y x Hy Hx).
    pose proof (paint_get width height (symbol_at k) c g y x (symbol_at_not_blank k) Hwf
                  (dataset_cells_columns width height global_min value_range data c Hc)
                  Hy Hx) as Hpaint.
    destruct (String.eqb_spec (grid_get g y x) blank) as [Hb | Hnb].
    + destruct Hor as [H | (j & c' & Hj & Hin)]; [ contradiction | ].
      destruct j as [|j]; cbn in Hj.
      * injection Hj as <-. left. rewrite Hpaint.
        apply (proj2 (at_cell_In y x c)) in Hin. rewrite Hin.
        apply symbol_at_not_blank.
      * right. exists j, c'. auto.
    + left. now rewrite Hpaint.
Qed.

End BottomRow.

(** C6, amended.  Let no sample be NaN and let the global maximum compare
    equal to the global minimum, a finite value.  Then the range used by
    the chart is [1]; dividing by the range never raises
    [ZeroDivisionError] (for any extrema at all), and neither does the
    renderer as a whole for a width other than zero; every sample
    normalises to a zero and is given row [height - 1], the bottom row, for
    heights from 1 up to [2^53].  In the grid the plotting pass returns,
    every glyph is on the bottom row and every cell a dataset maps a sample
    to is marked there; for a dataset no longer than the chart is wide
    these are the columns of its samples.  When no dataset is longer than
    the chart is wide, the pass returns and the chart is rendered. *)
Theorem zero_range_plots_on_bottom_row (datasets : list (list float64))
    (global_min global_max : float64) (height : Z) :
  Forall (fun x => is_nan x = false) (List.concat datasets) ->
  py_min (List.concat datasets) = Ok global_min ->
  py_max (List.concat datasets) = Ok global_max ->
  eqb global_max global_min = true ->
  is_finite global_min = true ->
  1 <= height <= 2 ^ 53 ->
  let value_range := chart_range global_min global_max in
  value_range = of_int 1 /\
  (forall g1 g2 x, truediv x (chart_range g1 g2) = Ok (div x (chart_range g1 g2))) /\
  (forall format_float labels width,
     width <> 0 ->
     generate_ascii_chart format_float datasets labels width height
       <> Raise ZeroDivisionError) /\
  (forall d, In d (List.concat datasets) ->
     (exists s, truediv (sub d global_min) value_range = Ok (S754_zero s)) /\
     plot_row height global_min value_range d = Ok (height - 1)) /\
  (forall width g,
     plot_datasets width height global_min value_range (enumerate datasets)
       (blank_grid width height) = Ok g ->
     (forall y x, 0 <= y < height -> 0 <= x < width ->
        grid_get g y x <> blank -> y = height - 1) /\
     (forall k data cells y x,
        nth_error datasets k = Some data ->
        dataset_cells width height global_min value_range data = Ok cells ->
        In (y, x) cells ->
        y = height - 1 /\ grid_get g (height - 1) x <> blank) /\
     (forall k data x,
        nth_error datasets k = Some data ->
        Z.of_nat (List.length data) <= width ->
        0 <= x < Z.of_nat (List.length data) ->
        grid_get g (height - 1) x <> blank)) /\
  (forall format_float labels width,
     (forall data, In data datasets -> Z.of_nat (List.length data) <= width) ->
     exists g chart,
       plot_datasets width height global_min value_range (enumerate datasets)
         (blank_grid width height) = Ok g /\
       generate_ascii_chart format_float datasets labels width height = Ok chart).
Proof.
  intros Hnum Hmin Hmax Heq Hfin Hh value_range.
  destruct (py_min_spec _ _ Hnum Hmin) as (Hgin & Hlo).
  destruct (py_max_spec _ _ Hnum Hmax) as (_ & Hhi).
  assert (Hrange : value_range = of_int 1).
  { unfold value_range, chart_range. destruct (sub_eqb_zero _ _ Heq Hfin) as (s & ->).
    destruct s; reflexivity. }
  assert (Hdiv : forall g1 g2 x,
             truediv x (chart_range g1 g2) = Ok (div x (chart_range g1 g2))).
  { intros g1 g2 x. unfold truediv. now rewrite chart_range_nonzero. }
  assert (Hzero : forall d, In d (List.concat datasets) ->
             exists s, sub d global_min = S754_zero s).
  { intros d Hd. apply sub_eqb_zero; [ | exact Hfin ].
    rewrite Forall_forall in Hnum.
    apply Float64Facts.eqb_squeeze with global_max; auto. }
  assert (Hrow : forall d, In d (List.concat datasets) ->
             plot_row height global_min value_range d = Ok (height - 1)).
  { intros d Hd. unfold plot_row. unfold value_range at 1. rewrite Hdiv.
    fold value_range. rewrite Hrange.
    destruct (Hzero d Hd) as (s & ->). cbn [bind].
    assert (Hz : exists s', div (S754_zero s) (of_int 1) = S754_zero s')
      by (destruct s; eexists; reflexivity).
    destruct Hz as (s' & ->).
    destruct (of_int_finite (height - 1) ltac:(lia)) as [E0 | (m & e & Ef)].
    + assert (height - 1 = 0) as Hz0.
      { destruct (Z.eq_dec (height - 1) 0) as [|Hne]; [ assumption | exfalso ].
        pose proof (of_int_nonzero (height - 1) ltac:(lia)) as Hnz.
        rewrite E0 in Hnz. discriminate. }
      rewrite Hz0. destruct s'; reflexivity.
    + rewrite <- (to_int_of_int (height - 1)) by lia.
      rewrite Ef. destruct s'; reflexivity. }
  assert (Hdata : forall data, In data datasets ->
             forall d, In d data ->
               plot_row height global_min value_range d = Ok (height - 1)).
  { intros data Hdata d Hd. apply Hrow. apply in_concat. eauto. }
  split; [ exact Hrange | ]. split; [ exact Hdiv | ].
  split; [ intros fmt ls w Hw; now apply generate_ascii_chart_no_zero_division | ].
  split.
  { intros d Hd. split; [ | now apply Hrow ].
    unfold value_range at 1. rewrite Hdiv. fold value_range. rewrite Hrange.
    destruct (Hzero d Hd) as (s & ->). exists s. destruct s; reflexivity. }
  split.
  - intros width g Hplot.
    destruct (plot_datasets_cells _ _ _ _ _ _ _ Hplot) as (cells & Hcells).
    destruct (plot_datasets_get width height global_min value_range _ cells
                (blank_grid width height) Hcells (blank_grid_wf width height))
      as (g' & Hp' & Hwf & Hget).
    assert (g' = g) as -> by congruence.
    assert (Hcell : forall j c y x, nth_error cells j = Some c -> In (y, x) c ->
              y = height - 1).
    { intros j c y x Hj Hin.
      destruct (Forall2_nth_error_right _ _ _ j c Hcells Hj) as ([k data] & Hkd & Hc).
      cbn [snd] in Hc. apply nth_error_In in Hkd.
      unfold enumerate in Hkd. apply in_combine_r in Hkd.
      exact (dataset_cells_row width height global_min value_range data c (height - 1)
               (Hdata data Hkd) Hc y x Hin). }
    assert (Hmark : forall k data c y x,
              nth_error datasets k = Some data ->
              dataset_cells width height global_min value_range data = Ok c ->
              In (y, x) c ->
              y = height - 1 /\ grid_get g (height - 1) x <> blank).
    { intros k data c y x Hk Hc Hin.
      assert (Hy : y = height - 1).
      { exact (dataset_cells_row width height global_min value_range data c (height - 1)
                 (Hdata data (nth_error_In _ _ Hk)) Hc y x Hin). }
      split; [ exact Hy | ]. subst y.
      apply (plot_datasets_marks width height global_min value_range
               (enumerate datasets) cells (blank_grid width height) g Hcells
               (blank_grid_wf width height) Hplot); [ lia | | ].
      - eapply dataset_cells_columns; eauto.
      - right. apply nth_error_enumerate_Some in Hk.
        destruct (Forall2_nth_error_left _ _ _ k _ Hcells Hk) as (c' & Hc' & Hdc).
        cbn [snd] in Hdc. exists k, c'. split; [ exact Hc' | ]. congruence. }
    split; [ | split ].
    + intros y x Hy Hx Hnb.
      destruct (Z.eq_dec y (height - 1)) as [ | Hne]; [ assumption | exfalso ].
      destruct (Hget y x Hy Hx) as (_ & Hnone & _).
      apply Hnb. apply Hnone; [ now apply blank_grid_get | ].
      intros j c Hj Hin. apply Hne. eapply Hcell; eauto.
    + exact Hmark.
    + intros k data x Hk Hlen Hx.
      apply (Hmark k data _ (height - 1) x Hk
               (dataset_cells_short_row width height global_min value_range data
                  (height - 1) Hlen (Hdata data (nth_error_In _ _ Hk)))).
      now apply In_combine_repeat.
  - intros format_float labels width Hshort.
    assert (Hcells : cells_of width height global_min value_range (enumerate datasets)
              (map (fun data => combine (repeat (height - 1) (List.length data))
                                  (py_range (Z.of_nat (List.length data))))
                 datasets)).
    { unfold cells_of, enumerate.
      apply (Forall2_combine_snd
               (fun data c => dataset_cells width height global_min value_range data = Ok c));
        [ apply length_seq | ].
      apply Forall2_map_right. intros data Hd.
      exact (dataset_cells_short_row width height global_min value_range data
               (height - 1) (Hshort data Hd) (Hdata data Hd)). }
    destruct (plot_datasets_get width height global_min value_range _ _
                (blank_grid width height) Hcells (blank_grid_wf width height))
      as (g & Hp & Hwf & _).
    exists g. unfold generate_ascii_chart.
    destruct datasets as [|d0 rest]; [ discriminate | ].
    set (ds := d0 :: rest) in *.
    rewrite Hmin, Hmax. cbn [bind]. fold value_range.
    destruct (max_len_of_total ds ltac:(discriminate)) as (m & ->). cbn [bind].
    rewrite Hp. cbn [bind].
    destruct (grid_lines_total height global_min value_range format_float global_max
                (enumerate g)) as (body & -> & _).
    + intros i row Hin. apply enumerate_index_bound in Hin. destruct Hwf as [Hlen _]. lia.
    + cbn [bind]. eexists. split; reflexivity.
Qed.

Lemma zero_range_plots_on_bottom_row_witness :
  let datasets := [map lit [0; 0; 0]%float] in
  exists g chart,
    plot_datasets 80 20 (lit 0) (chart_range (lit 0) (lit 0)) (enumerate datasets)
      (blank_grid 80 20) = Ok g /\
    generate_ascii_chart (fun _ _ => "0.0"%string) datasets ["zeros"%string] 80 20
      = Ok chart /\
    grid_get g 19 0 <> blank /\ grid_get g 19 1 <> blank /\ grid_get g 19 2 <> blank /\
    (forall y x, 0 <= y < 20 -> 0 <= x < 80 -> grid_get g y x <> blank -> y = 19) /\
    (forall d, In d (List.concat datasets) ->
       plot_row 20 (lit 0) (chart_range (lit 0) (lit 0)) d = Ok 19).
Proof.
  intros datasets.
  destruct (zero_range_plots_on_bottom_row datasets (lit 0) (lit 0) 20)
    as (_ & _ & _ & Hrow & Hgrid & Hrender).
  - repeat constructor.
  - reflexivity.
  - reflexivity.
  - reflexivity.
  - reflexivity.
  - vm_compute. split; discriminate.
  - destruct (Hrender (fun _ _ => "0.0"%string) ["zeros"%string] 80) as (g & chart & Hg & Hc).
    { intros data [<- | []]. vm_compute. discriminate. }
    destruct (Hgrid 80 g Hg) as (Hbottom & _ & Hshort).
    exists g, chart. split; [ exact Hg | ]. split; [ exact Hc | ].
    assert (Hcol : forall x, 0 <= x < 3 -> grid_get g 19 x <> blank).
    { intros x Hx. apply (Hshort 0%nat (map lit [0; 0; 0]%float) x eq_refl);
        [ vm_compute; discriminate | exact Hx ]. }
    repeat split.
    + apply Hcol. lia.
    + apply Hcol. lia.
    + apply Hcol. lia.
    + exact Hbottom.
    + intros d Hd. exact (proj2 (Hrow d Hd)).
Defined.

(** C6, as stated, fails when the equal extrema are infinite and when a
    sample is NaN.  For [[inf, inf]] the maximum equals the minimum but
    their difference is NaN, which does not compare equal to 0: the range
    is not replaced, the sample normalises to NaN and [int] raises
    [ValueError].  For [[1.0, nan]] both extrema are 1.0, since no
    comparison with the NaN holds, the range becomes 1, and the NaN sample
    normalises to NaN: [ValueError] again.  No sample reaches the grid. *)
Lemma flat_range_of_infinite_or_nan_data :
  (py_min [S754_infinity false; S754_infinity false] = Ok (S754_infinity false) /\
   py_max [S754_infinity false; S754_infinity false] = Ok (S754_infinity false) /\
   eqb (S754_infinity false) (S754_infinity false) = true /\
   chart_range (S754_infinity false) (S754_infinity false) = S754_nan /\
   plot_row 20 (S754_infinity false) S754_nan (S754_infinity false) = Raise ValueError /\
   forall format_float labels,
     generate_ascii_chart format_float [[S754_infinity false; S754_infinity false]]
       labels 80 20 = Raise ValueError) /\
  (py_min [lit 1; S754_nan] = Ok (lit 1) /\
   py_max [lit 1; S754_nan] = Ok (lit 1) /\
   eqb (lit 1) (lit 1) = true /\
   chart_range (lit 1) (lit 1) = of_int 1 /\
   plot_row 20 (lit 1) (of_int 1) S754_nan = Raise ValueError /\
   forall format_float labels,
     generate_ascii_chart format_float [[lit 1; S754_nan]] labels 80 20
       = Raise ValueError).
Proof.
  split; repeat split; try (vm_compute; reflexivity);
    intros format_float labels; vm_compute; reflexivity.
Qed.
